(** * S.H.I.E.L.D.: a shallow embedding of the layered defence pipeline

    The development follows the Python sources file by file:
    - [shield_core.py]      -> the shared data model and module [Core];
    - [layer_perimeter.py]  -> module [Perimeter];
    - [layer_heuristics.py] -> module [Heuristics];
    - [layer_oracle.py]     -> module [Oracle].

    Conventions.  Python numbers are modelled by rationals ([Q]) with
    exact arithmetic; every constant the code compares against (0.9,
    0.75, 0.7, ...) is a short decimal and is read as that decimal.
    Non-finite floats and [OverflowError] have no counterpart.  Strings
    are sequences of 8-bit characters and [Py.lower] is the ASCII
    lowering, which is [str.lower] on ASCII text; text with other
    characters is outside what it describes.  A Python exception is a
    value [Raise e] of the result type [Py.result]; logging is not
    modelled.
    Values that arrive from JSON (LLM replies, action parameters) keep
    their dynamic type in [Py.json]. *)

From Stdlib Require Import QArith Qround Qabs ZArith List Ascii String Lia.
From stdpp Require Import gmap strings.
Import ListNotations.
Local Open Scope string_scope.
Local Open Scope Z_scope.
Set Warnings "-register-all".

(** ** Python values and exceptions *)

Module Py.

(** The values [json.loads] returns and the parameter dictionaries
    hold.  A number is a rational: every finite [int] and [float] is
    one.  The non-finite floats ([NaN], [Infinity], which [json.loads]
    accepts) have no counterpart, and arithmetic is exact, where
    Python's division of an integer beyond the float range raises
    [OverflowError] and float sums round. *)
Inductive json : Type :=
| JNull
| JBool (b : bool)
| JNum (q : Q)
| JStr (s : string)
| JList (l : list json)
| JDict (kv : list (string * json)).

Inductive exn : Type := ValueError | TypeError | AttributeError | KeyError.

Inductive result (A : Type) : Type :=
| Ok (a : A)
| Raise (e : exn).
Arguments Ok {A} a.
Arguments Raise {A} e.

Definition bind {A B} (r : result A) (k : A -> result B) : result B :=
  match r with
  | Ok a => k a
  | Raise e => Raise e
  end.

(** [d.get(key, default)] on an association list. *)
Fixpoint assoc (key : string) (kv : list (string * json)) : option json :=
  match kv with
  | [] => None
  | (k, v) :: rest => if String.eqb k key then Some v else assoc key rest
  end.

Definition dict_get (kv : list (string * json)) (key : string) (default : json) : json :=
  match assoc key kv with
  | Some v => v
  | None => default
  end.

(** [v.get(key, default)] on a dynamically typed value: only a dict has
    the method. *)
Definition get (v : json) (key : string) (default : json) : result json :=
  match v with
  | JDict kv => Ok (dict_get kv key default)
  | _ => Raise AttributeError
  end.

Definition Qis_zero (q : Q) : bool := Qeq_bool q 0.

(** Truth value of [if v:] / [not v]. *)
Definition truthy (v : json) : bool :=
  match v with
  | JNull => false
  | JBool b => b
  | JNum q => negb (Qis_zero q)
  | JStr s => negb (String.eqb s "")
  | JList l => match l with [] => false | _ => true end
  | JDict kv => match kv with [] => false | _ => true end
  end.

(** A value used as a number ([0 + v], [v > 0.7]): ints, floats and
    bools are numbers, everything else raises [TypeError]. *)
Definition as_number (v : json) : result Q :=
  match v with
  | JNum q => Ok q
  | JBool b => Ok (if b then 1%Q else 0%Q)
  | _ => Raise TypeError
  end.

Definition chars (s : string) : list json :=
  map (fun c => JStr (String c EmptyString)) (list_ascii_of_string s).

(** The items [list.extend(v)] takes from an iterable [v]. *)
Definition iter (v : json) : result (list json) :=
  match v with
  | JList l => Ok l
  | JStr s => Ok (chars s)
  | JDict kv => Ok (map (fun p => JStr (fst p)) kv)
  | _ => Raise TypeError
  end.

(** [max(x :: xs, key=key)]: the first element whose key is maximal. *)
Fixpoint max_by {A} (key : A -> Z) (x : A) (xs : list A) : A :=
  match xs with
  | [] => x
  | y :: ys => max_by key (if key x <? key y then y else x) ys
  end.

(** [sum(qs)]: a left fold starting at [0]. *)
Definition sum (qs : list Q) : Q := fold_left Qplus qs 0%Q.

(** [l[-n:]] for a positive [n]. *)
Definition last_n {A} (n : nat) (l : list A) : list A := drop (length l - n) l.

(** [deque(maxlen=n).append(x)]: the oldest entries fall out. *)
Definition deque_append {A} (maxlen : nat) (d : list A) (x : A) : list A :=
  drop (length (d ++ [x]) - maxlen) (d ++ [x]).

(** [np.mean] of a non-empty list. *)
Definition mean (qs : list Q) : Q := (sum qs / inject_Z (Z.of_nat (length qs)))%Q.

(** [x % m] on floats, for a positive [m]. *)
Definition Qmod (x m : Q) : Q := (x - m * inject_Z (Qfloor (x / m)))%Q.

(** [a > b] and [a >= b] on numbers. *)
Definition Qgtb (a b : Q) : bool := negb (Qle_bool a b).
Definition Qgeb (a b : Q) : bool := Qle_bool b a.

(** *** String methods *)

(** A string is a sequence of 8-bit characters.  [lower] maps the
    letters A to Z to lower case and leaves every other character as
    it is: on text whose characters are all below 128 this is
    [str.lower()].  Python lowers letters outside ASCII as well; text
    with such characters is outside what [lower] describes. *)
Definition lower_ascii (c : ascii) : ascii :=
  let n := nat_of_ascii c in
  if ((65 <=? n) && (n <=? 90))%nat then ascii_of_nat (n + 32) else c.

Fixpoint lower (s : string) : string :=
  match s with
  | EmptyString => EmptyString
  | String c r => String (lower_ascii c) (lower r)
  end.

Definition mem_ascii (c : ascii) (cs : list ascii) : bool :=
  existsb (Ascii.eqb c) cs.

(** [s.lstrip(cs)] drops leading characters that belong to [cs]. *)
Fixpoint lstrip (cs : list ascii) (s : string) : string :=
  match s with
  | EmptyString => EmptyString
  | String c r => if mem_ascii c cs then lstrip cs r else s
  end.

(** [s.rstrip(cs)] drops trailing characters that belong to [cs]. *)
Fixpoint rstrip (cs : list ascii) (s : string) : string :=
  match s with
  | EmptyString => EmptyString
  | String c r =>
      match rstrip cs r with
      | EmptyString => if mem_ascii c cs then EmptyString else String c EmptyString
      | r' => String c r'
      end
  end.

Fixpoint startswith (s p : string) : bool :=
  match p, s with
  | EmptyString, _ => true
  | String a p', String b s' => Ascii.eqb a b && startswith s' p'
  | String _ _, EmptyString => false
  end.

(** [sub in s]. *)
Fixpoint contains (sub s : string) : bool :=
  startswith s sub ||
  match s with
  | EmptyString => false
  | String _ r => contains sub r
  end.

(** [s.endswith(suf)]. *)
Fixpoint endswith (s suf : string) : bool :=
  String.eqb s suf ||
  match s with
  | EmptyString => false
  | String _ r => endswith r suf
  end.

(** [s.split(sep)[0]] for a one-character separator. *)
Fixpoint split_head (sep : ascii) (s : string) : string :=
  match s with
  | EmptyString => EmptyString
  | String c r => if Ascii.eqb c sep then EmptyString else String c (split_head sep r)
  end.

(** [sep.join(parts)]. *)
Fixpoint join (sep : string) (parts : list string) : string :=
  match parts with
  | [] => ""
  | [p] => p
  | p :: rest => p ++ sep ++ join sep rest
  end.

End Py.

(** The exception monad, with stdpp's notation [x ← r; k]. *)
#[global] Instance result_ret : MRet Py.result := @Py.Ok.
#[global] Instance result_bind : MBind Py.result := fun A B k r => Py.bind r k.

(** ** The data model of [shield_core.py] *)

Inductive ThreatLevel : Type := SAFE | SUSPICIOUS | CONCERNING | DANGEROUS | CRITICAL.

(** [ThreatLevel.X.value] *)
Definition level_value (l : ThreatLevel) : Z :=
  match l with
  | SAFE => 0
  | SUSPICIOUS => 1
  | CONCERNING => 2
  | DANGEROUS => 3
  | CRITICAL => 4
  end.

Inductive ActionType : Type :=
| API_CALL
| FILE_OPERATION
| NETWORK_REQUEST
| CODE_EXECUTION
| SELF_MODIFICATION
| AGENT_COMMUNICATION
| RESOURCE_ALLOCATION.

(** [ActionType.X.value] *)
Definition type_value (t : ActionType) : string :=
  match t with
  | API_CALL => "api_call"
  | FILE_OPERATION => "file_operation"
  | NETWORK_REQUEST => "network_request"
  | CODE_EXECUTION => "code_execution"
  | SELF_MODIFICATION => "self_modification"
  | AGENT_COMMUNICATION => "agent_communication"
  | RESOURCE_ALLOCATION => "resource_allocation"
  end.

Inductive EnforcementAction : Type :=
| ALLOW
| LOG
| DELAY
| REQUIRE_APPROVAL
| SANDBOX
| THROTTLE
| BLOCK
| QUARANTINE
| KILL.

#[global] Instance ThreatLevel_eq_dec : EqDecision ThreatLevel.
Proof. solve_decision. Defined.
#[global] Instance ActionType_eq_dec : EqDecision ActionType.
Proof. solve_decision. Defined.
#[global] Instance EnforcementAction_eq_dec : EqDecision EnforcementAction.
Proof. solve_decision. Defined.

Record AIAction : Type := {
  action_id : string;
  timestamp : Q;
  action_type : ActionType;
  description : string;
  parameters : list (string * Py.json);
  agent_id : string;
  reasoning : option string;
  metadata : list (string * Py.json)
}.

(** An entry of [ThreatAssessment.reasons].  The code builds most of
    them with f-strings: one whose arguments are strings is the
    concatenated [Text]; one that formats a number or a value of unknown
    type keeps template and arguments apart; [Val] is an item copied
    unchanged from a JSON list. *)
Inductive reason : Type :=
| Text (s : string)
| Fmt (template : string) (args : list Py.json)
| Val (v : Py.json).

(** [ThreatAssessment]; its [timestamp] field (the clock reading at
    construction) is read by nothing in the sources and is left out. *)
Record ThreatAssessment : Type := {
  ta_action_id : string;
  threat_level : ThreatLevel;
  confidence : Q;
  reasons : list reason;
  recommended_action : EnforcementAction;
  analysis_layer : string
}.

Definition severity (a : ThreatAssessment) : Z := level_value (threat_level a).

(** ** [shield_core.py]: class [SHIELDCore] *)

Module Core.

(** The parts of the configuration dictionary the core reads.  A key
    that may be absent is an [option]; [None] is the missing key. *)
Record OracleConfig : Type := {
  always_analyze : option bool;
  critical_action_types : option (list string);
  min_escalation_level : option Z
}.

Record EnforcementConfig : Type := {
  quarantine_duration_seconds : option Q
}.

Record Config : Type := {
  cfg_oracle : option OracleConfig;
  cfg_enforcement : option EnforcementConfig
}.

Definition _default_config : Config := {|
  cfg_oracle := Some {|
    always_analyze := Some false;
    critical_action_types :=
      Some [type_value SELF_MODIFICATION; type_value CODE_EXECUTION];
    min_escalation_level := Some (level_value SUSPICIOUS) |};
  cfg_enforcement := Some {| quarantine_duration_seconds := Some 3600%Q |}
|}.

(** An entry of [monitored_agents]. *)
Record AgentRecord : Type := {
  registered_at : Q;
  agent_metadata : list (string * Py.json);
  action_count : nat;
  threat_count : nat;
  status : string
}.

Definition set_status (st : string) (r : AgentRecord) : AgentRecord :=
  {| registered_at := registered_at r; agent_metadata := agent_metadata r;
     action_count := action_count r; threat_count := threat_count r;
     status := st |}.

Definition incr_action_count (r : AgentRecord) : AgentRecord :=
  {| registered_at := registered_at r; agent_metadata := agent_metadata r;
     action_count := S (action_count r); threat_count := threat_count r;
     status := status r |}.

Definition incr_threat_count (r : AgentRecord) : AgentRecord :=
  {| registered_at := registered_at r; agent_metadata := agent_metadata r;
     action_count := action_count r; threat_count := S (threat_count r);
     status := status r |}.

Record Metrics : Type := {
  total_actions : nat;
  blocked_actions : nat;
  threats_detected : nat;
  false_positives : nat;
  agent_kills : nat
}.

(** The four keys of [layer_callbacks]. *)
Inductive Layer : Type := perimeter | heuristics | oracle | enforcement.

#[global] Instance Layer_eq_dec : EqDecision Layer.
Proof. solve_decision. Defined.

Definition layer_of_name (name : string) : option Layer :=
  if String.eqb name "perimeter" then Some perimeter
  else if String.eqb name "heuristics" then Some heuristics
  else if String.eqb name "oracle" then Some oracle
  else if String.eqb name "enforcement" then Some enforcement
  else None.

Section WithWorld.

(** Callbacks are arbitrary closures: [W] is whatever state they own
    (the layer objects registered by the caller, counters of a test).
    A callback of the three analysis layers is called with an action, an
    enforcement callback with an assessment; it returns or raises. *)
Context {W : Type}.

Inductive Arg : Type :=
| OfAction (a : AIAction)
| OfAssessment (t : ThreatAssessment).

Inductive Outcome : Type :=
| Raised (e : Py.exn)
| Returned (r : option ThreatAssessment).

Definition Callable : Type := W -> Arg -> W * Outcome.

Record Layers : Type := {
  cb_perimeter : list Callable;
  cb_heuristics : list Callable;
  cb_oracle : list Callable;
  cb_enforcement : list Callable
}.

Definition callbacks_of (ls : Layers) (layer : Layer) : list Callable :=
  match layer with
  | perimeter => cb_perimeter ls
  | heuristics => cb_heuristics ls
  | oracle => cb_oracle ls
  | enforcement => cb_enforcement ls
  end.

(** The callbacks' state together with the log of invocations: entry
    [(layer, i)] is one call of the [i]-th callback of [layer]. *)
Record Env : Type := {
  world : W;
  calls : list (Layer * nat)
}.

(** How often callbacks of [layer] have been invoked. *)
Definition call_count (layer : Layer) (env : Env) : nat :=
  length (filter (fun c => bool_decide (fst c = layer)) (calls env)).

(** The object state.  [timers] lists the [threading.Timer] objects
    started and not yet fired: [(duration, agent_id)] will call
    [_release_quarantine agent_id]. *)
Record SHIELDCore : Type := {
  config : Config;
  action_queue : list AIAction;
  action_history : list AIAction;
  threat_history : list ThreatAssessment;
  is_running : bool;
  monitored_agents : gmap string AgentRecord;
  blocked_agents : gset string;
  layer_callbacks : Layers;
  metrics : Metrics;
  timers : list (Q * string)
}.

(** [SHIELDCore(config)]: [config or self._default_config()]; [None]
    stands for a missing or empty argument. *)
Definition init (cfg : option Config) : SHIELDCore := {|
  config := match cfg with Some c => c | None => _default_config end;
  action_queue := [];
  action_history := [];
  threat_history := [];
  is_running := false;
  monitored_agents := ∅;
  blocked_agents := ∅;
  layer_callbacks :=
    {| cb_perimeter := []; cb_heuristics := []; cb_oracle := []; cb_enforcement := [] |};
  metrics :=
    {| total_actions := 0; blocked_actions := 0; threats_detected := 0;
       false_positives := 0; agent_kills := 0 |};
  timers := []
|}.

(** Attribute assignments. *)
Definition set_blocked_agents (b : gset string) (s : SHIELDCore) : SHIELDCore :=
  {| config := config s; action_queue := action_queue s;
     action_history := action_history s; threat_history := threat_history s;
     is_running := is_running s; monitored_agents := monitored_agents s;
     blocked_agents := b; layer_callbacks := layer_callbacks s;
     metrics := metrics s; timers := timers s |}.

Definition set_monitored_agents (m : gmap string AgentRecord) (s : SHIELDCore) : SHIELDCore :=
  {| config := config s; action_queue := action_queue s;
     action_history := action_history s; threat_history := threat_history s;
     is_running := is_running s; monitored_agents := m;
     blocked_agents := blocked_agents s; layer_callbacks := layer_callbacks s;
     metrics := metrics s; timers := timers s |}.

Definition set_metrics (m : Metrics) (s : SHIELDCore) : SHIELDCore :=
  {| config := config s; action_queue := action_queue s;
     action_history := action_history s; threat_history := threat_history s;
     is_running := is_running s; monitored_agents := monitored_agents s;
     blocked_agents := blocked_agents s; layer_callbacks := layer_callbacks s;
     metrics := m; timers := timers s |}.

Definition set_timers (t : list (Q * string)) (s : SHIELDCore) : SHIELDCore :=
  {| config := config s; action_queue := action_queue s;
     action_history := action_history s; threat_history := threat_history s;
     is_running := is_running s; monitored_agents := monitored_agents s;
     blocked_agents := blocked_agents s; layer_callbacks := layer_callbacks s;
     metrics := metrics s; timers := t |}.

Definition set_threat_history (h : list ThreatAssessment) (s : SHIELDCore) : SHIELDCore :=
  {| config := config s; action_queue := action_queue s;
     action_history := action_history s; threat_history := h;
     is_running := is_running s; monitored_agents := monitored_agents s;
     blocked_agents := blocked_agents s; layer_callbacks := layer_callbacks s;
     metrics := metrics s; timers := timers s |}.

Definition set_layer_callbacks (l : Layers) (s : SHIELDCore) : SHIELDCore :=
  {| config := config s; action_queue := action_queue s;
     action_history := action_history s; threat_history := threat_history s;
     is_running := is_running s; monitored_agents := monitored_agents s;
     blocked_agents := blocked_agents s; layer_callbacks := l;
     metrics := metrics s; timers := timers s |}.

Definition enqueue (a : AIAction) (s : SHIELDCore) : SHIELDCore :=
  {| config := config s; action_queue := action_queue s ++ [a];
     action_history := action_history s ++ [a]; threat_history := threat_history s;
     is_running := is_running s; monitored_agents := monitored_agents s;
     blocked_agents := blocked_agents s; layer_callbacks := layer_callbacks s;
     metrics := metrics s; timers := timers s |}.

Definition incr_total_actions (m : Metrics) : Metrics :=
  {| total_actions := S (total_actions m); blocked_actions := blocked_actions m;
     threats_detected := threats_detected m; false_positives := false_positives m;
     agent_kills := agent_kills m |}.

Definition incr_blocked_actions (m : Metrics) : Metrics :=
  {| total_actions := total_actions m; blocked_actions := S (blocked_actions m);
     threats_detected := threats_detected m; false_positives := false_positives m;
     agent_kills := agent_kills m |}.

Definition incr_threats_detected (m : Metrics) : Metrics :=
  {| total_actions := total_actions m; blocked_actions := blocked_actions m;
     threats_detected := S (threats_detected m); false_positives := false_positives m;
     agent_kills := agent_kills m |}.

Definition incr_agent_kills (m : Metrics) : Metrics :=
  {| total_actions := total_actions m; blocked_actions := blocked_actions m;
     threats_detected := threats_detected m; false_positives := false_positives m;
     agent_kills := S (agent_kills m) |}.

(** [register_agent]; [now] is the clock reading. *)
Definition register_agent (s : SHIELDCore) (agent : string)
    (meta : list (string * Py.json)) (now : Q) : SHIELDCore :=
  set_monitored_agents
    (<[agent := {| registered_at := now; agent_metadata := meta; action_count := 0;
                   threat_count := 0; status := "active" |}]> (monitored_agents s)) s.

(** [submit_action]: the new state and the returned string. *)
Definition submit_action (s : SHIELDCore) (action : AIAction) : SHIELDCore * string :=
  if bool_decide (agent_id action ∈ blocked_agents s) then (s, "BLOCKED")
  else
    let s1 := set_metrics (incr_total_actions (metrics s)) (enqueue action s) in
    (* [alter] changes nothing when the agent is not monitored *)
    (set_monitored_agents
       (alter incr_action_count (agent_id action) (monitored_agents s1)) s1,
     action_id action).

(** One call [callback(arg)]. *)
Definition run_callback (layer : Layer) (idx : nat) (cb : Callable)
    (env : Env) (arg : Arg) : Env * Outcome :=
  let (w, out) := cb (world env) arg in
  ({| world := w; calls := calls env ++ [(layer, idx)] |}, out).

(** The loop of [_run_layer_callbacks]: a callback that raises is
    skipped, a falsy result ([None]) is dropped. *)
Fixpoint collect (layer : Layer) (cbs : list Callable) (idx : nat)
    (env : Env) (action : AIAction) : Env * list ThreatAssessment :=
  match cbs with
  | [] => (env, [])
  | cb :: rest =>
      let (env1, out) := run_callback layer idx cb env (OfAction action) in
      let (env2, assessments) := collect layer rest (S idx) env1 action in
      (env2,
       match out with
       | Returned (Some r) => r :: assessments
       | _ => assessments
       end)
  end.

Definition _run_layer_callbacks (s : SHIELDCore) (layer : Layer)
    (env : Env) (action : AIAction) : Env * option ThreatAssessment :=
  let (env1, assessments) :=
    collect layer (callbacks_of (layer_callbacks s) layer) 0 env action in
  (env1,
   match assessments with
   | [] => None
   | a :: rest => Some (Py.max_by severity a rest)
   end).

Definition no_threat : ThreatAssessment := {|
  ta_action_id := "unknown";
  threat_level := SAFE;
  confidence := 1%Q;
  reasons := [Text "Nenhuma ameaça detectada em nenhuma camada"];
  recommended_action := ALLOW;
  analysis_layer := "aggregate"
|}.

(** [_aggregate_assessments]; the argument list is the tuple of
    optional assessments the caller passes. *)
Definition _aggregate_assessments (assessments : list (option ThreatAssessment))
    : ThreatAssessment :=
  let valid_assessments := omap id assessments in
  match valid_assessments with
  | [] => no_threat
  | a :: rest =>
      let max_threat := Py.max_by severity a rest in
      let all_reasons := concat (map reasons valid_assessments) in
      let total_confidence := Py.sum (map confidence valid_assessments) in
      let avg_confidence :=
        (total_confidence / inject_Z (Z.of_nat (length valid_assessments)))%Q in
      {| ta_action_id := ta_action_id max_threat;
         threat_level := threat_level max_threat;
         confidence := avg_confidence;
         reasons := all_reasons;
         recommended_action := recommended_action max_threat;
         analysis_layer := "aggregate" |}
  end.

(** [self.config.get('oracle', {}).get(key, default)] *)
Definition oracle_get {A} (s : SHIELDCore) (key : OracleConfig -> option A)
    (default : A) : A :=
  match cfg_oracle (config s) with
  | Some oracle_config =>
      match key oracle_config with
      | Some v => v
      | None => default
      end
  | None => default
  end.

Definition _should_escalate_to_oracle (s : SHIELDCore) (action : AIAction)
    (perimeter_assessment heuristics_assessment : option ThreatAssessment) : bool :=
  if oracle_get s always_analyze false then true
  else if bool_decide (type_value (action_type action)
                         ∈ oracle_get s critical_action_types []) then true
  else
    let min_level := oracle_get s min_escalation_level (level_value SUSPICIOUS) in
    let candidate_levels :=
      map severity (omap id [perimeter_assessment; heuristics_assessment]) in
    match candidate_levels with
    | [] => false
    | l :: ls => min_level <=? Py.max_by id l ls
    end.

(** [process_action]: the callbacks' state and log, the new object state
    and the returned assessment. *)
Definition process_action (s : SHIELDCore) (env : Env) (action : AIAction)
    : Env * SHIELDCore * ThreatAssessment :=
  (* Layer 1: PERIMETER *)
  let (env1, perimeter_assessment) := _run_layer_callbacks s perimeter env action in
  let short_circuit :=
    match perimeter_assessment with
    | Some p => if level_value DANGEROUS <=? severity p then Some p else None
    | None => None
    end in
  match short_circuit with
  | Some p => (env1, s, p)
  | None =>
      (* Layer 2: HEURISTICS *)
      let (env2, heuristics_assessment) :=
        _run_layer_callbacks s heuristics env1 action in
      (* Layer 3: ORACLE, on escalation only *)
      let (env3, oracle_assessment) :=
        if _should_escalate_to_oracle s action perimeter_assessment heuristics_assessment
        then _run_layer_callbacks s oracle env2 action
        else (env2, None) in
      let final_assessment :=
        _aggregate_assessments
          [perimeter_assessment; heuristics_assessment; oracle_assessment] in
      let s1 := set_threat_history (threat_history s ++ [final_assessment]) s in
      let s2 :=
        if level_value CONCERNING <=? severity final_assessment then
          let s' := set_metrics (incr_threats_detected (metrics s1)) s1 in
          set_monitored_agents
            (alter incr_threat_count (agent_id action) (monitored_agents s')) s'
        else s1 in
      (env3, s2, final_assessment)
  end.

Definition _kill_agent (s : SHIELDCore) (agent : string) : SHIELDCore :=
  let s1 := set_blocked_agents ({[agent]} ∪ blocked_agents s) s in
  let s2 :=
    set_monitored_agents (alter (set_status "killed") agent (monitored_agents s1)) s1 in
  set_metrics (incr_agent_kills (metrics s2)) s2.

(** [_quarantine_agent]: the duration is read with plain subscripts, so
    a configuration without it raises [KeyError] after the agent has
    been blocked; otherwise the release timer is started. *)
Definition _quarantine_agent (s : SHIELDCore) (agent : string)
    : SHIELDCore * Py.result unit :=
  let s1 := set_blocked_agents ({[agent]} ∪ blocked_agents s) s in
  let s2 :=
    set_monitored_agents
      (alter (set_status "quarantined") agent (monitored_agents s1)) s1 in
  match cfg_enforcement (config s2) with
  | Some e =>
      match quarantine_duration_seconds e with
      | Some duration => (set_timers (timers s2 ++ [(duration, agent)]) s2, Py.Ok tt)
      | None => (s2, Py.Raise Py.KeyError)
      end
  | None => (s2, Py.Raise Py.KeyError)
  end.

Definition _release_quarantine (s : SHIELDCore) (agent : string) : SHIELDCore :=
  if bool_decide (agent ∈ blocked_agents s) then
    let s1 := set_blocked_agents (blocked_agents s ∖ {[agent]}) s in
    set_monitored_agents (alter (set_status "active") agent (monitored_agents s1)) s1
  else s.

(** The [i]-th pending timer expires and runs its callback. *)
Definition fire_timer (s : SHIELDCore) (i : nat) : SHIELDCore :=
  match timers s !! i with
  | Some (_, agent) => _release_quarantine (set_timers (delete i (timers s)) s) agent
  | None => s
  end.

(** The loop over the enforcement callbacks: an exception propagates. *)
Fixpoint notify (cbs : list Callable) (idx : nat) (env : Env)
    (assessment : ThreatAssessment) : Env * Py.result unit :=
  match cbs with
  | [] => (env, Py.Ok tt)
  | cb :: rest =>
      let (env1, out) := run_callback enforcement idx cb env (OfAssessment assessment) in
      match out with
      | Raised e => (env1, Py.Raise e)
      | Returned _ => notify rest (S idx) env1 assessment
      end
  end.

(** The most recent action of the history with the assessment's id. *)
Definition originating_action (s : SHIELDCore) (assessment : ThreatAssessment)
    : option AIAction :=
  find (fun history_action =>
          String.eqb (action_id history_action) (ta_action_id assessment))
       (rev (action_history s)).

Definition enforce_action (s : SHIELDCore) (env : Env) (assessment : ThreatAssessment)
    : Env * SHIELDCore * Py.result bool :=
  let action := recommended_action assessment in
  match notify (cb_enforcement (layer_callbacks s)) 0 env assessment with
  | (env1, Py.Raise e) => (env1, s, Py.Raise e)
  | (env1, Py.Ok _) =>
      match action with
      | BLOCK => (env1, set_metrics (incr_blocked_actions (metrics s)) s, Py.Ok false)
      | KILL =>
          match originating_action s assessment with
          | Some history_action =>
              (env1, _kill_agent s (agent_id history_action), Py.Ok false)
          | None => (env1, s, Py.Ok false)
          end
      | QUARANTINE =>
          match originating_action s assessment with
          | Some history_action =>
              let (s1, r) := _quarantine_agent s (agent_id history_action) in
              (env1, s1, _ ← r; Py.Ok false)
          | None => (env1, s, Py.Ok false)
          end
      | _ => (env1, s, Py.Ok true)
      end
  end.

Definition add_layer_callback (s : SHIELDCore) (layer : string) (callback : Callable)
    : SHIELDCore :=
  let ls := layer_callbacks s in
  match layer_of_name layer with
  | Some perimeter =>
      set_layer_callbacks
        {| cb_perimeter := cb_perimeter ls ++ [callback]; cb_heuristics := cb_heuristics ls;
           cb_oracle := cb_oracle ls; cb_enforcement := cb_enforcement ls |} s
  | Some heuristics =>
      set_layer_callbacks
        {| cb_perimeter := cb_perimeter ls; cb_heuristics := cb_heuristics ls ++ [callback];
           cb_oracle := cb_oracle ls; cb_enforcement := cb_enforcement ls |} s
  | Some oracle =>
      set_layer_callbacks
        {| cb_perimeter := cb_perimeter ls; cb_heuristics := cb_heuristics ls;
           cb_oracle := cb_oracle ls ++ [callback]; cb_enforcement := cb_enforcement ls |} s
  | Some enforcement =>
      set_layer_callbacks
        {| cb_perimeter := cb_perimeter ls; cb_heuristics := cb_heuristics ls;
           cb_oracle := cb_oracle ls; cb_enforcement := cb_enforcement ls ++ [callback] |} s
  | None => s
  end.

(** [get_agent_report]: the two comprehensions and the report built
    from them. *)
Definition agent_actions (s : SHIELDCore) (agent : string) : list AIAction :=
  filter (fun a => agent_id a = agent) (action_history s).

Definition agent_threats (s : SHIELDCore) (agent : string) : list ThreatAssessment :=
  filter (fun t =>
            existsb (fun a => String.eqb (action_id a) (ta_action_id t)
                              && String.eqb (agent_id a) agent)
                    (agent_actions s agent) = true)
         (threat_history s).

Record AgentReport : Type := {
  report_agent_id : string;
  info : AgentRecord;
  report_total_actions : nat;
  report_threats_detected : nat;
  threat_levels : list (ThreatLevel * nat);
  recent_actions : list AIAction;
  recent_threats : list ThreatAssessment
}.

Definition get_agent_report (s : SHIELDCore) (agent : string) : option AgentReport :=
  match monitored_agents s !! agent with
  | None => None
  | Some record =>
      let threats := agent_threats s agent in
      Some {|
        report_agent_id := agent;
        info := record;
        report_total_actions := length (agent_actions s agent);
        report_threats_detected := length threats;
        threat_levels :=
          map (fun level =>
                 (level, length (filter (fun t => threat_level t = level) threats)))
              [SAFE; SUSPICIOUS; CONCERNING; DANGEROUS; CRITICAL];
        recent_actions := Py.last_n 10 (agent_actions s agent);
        recent_threats := Py.last_n 10 threats
      |}
  end.

End WithWorld.

Arguments Callable : clear implicits.
Arguments Layers : clear implicits.
Arguments Env : clear implicits.
Arguments SHIELDCore : clear implicits.

End Core.

(** ** [layer_perimeter.py]: class [PerimeterDefense] *)

Module Perimeter.

(** The configuration dictionary; [None] is a missing key. *)
Record Config : Type := {
  max_api_calls_per_minute : option Q;
  max_memory_mb : option Q;
  max_cpu_percent : option Q;
  allowed_domains : option (list string);
  blocked_domains : option (list string)
}.

Definition config_get {A} (o : option A) (default : A) : A :=
  match o with
  | Some v => v
  | None => default
  end.

(** The object state: the per-agent deques of call times (at most 1000
    entries each) and the suspicious domains seen.  [resource_usage] is
    never written and is left out. *)
Record PerimeterDefense : Type := {
  config : Config;
  api_call_tracker : gmap string (list Q);
  suspicious_domains : gset string
}.

Definition init (cfg : Config) : PerimeterDefense :=
  {| config := cfg; api_call_tracker := ∅; suspicious_domains := ∅ |}.

(** [forbidden_patterns]: the regular expression as written and the text
    it matches; every one of them is an escaped literal. *)
Definition forbidden_patterns : list (string * string) :=
  [ ("/etc/shadow", "/etc/shadow");
    ("/etc/passwd", "/etc/passwd");
    ("\.ssh/id_rsa", ".ssh/id_rsa");
    ("C:\\Windows\\System32\\config\\SAM", "C:\Windows\System32\config\SAM");
    ("\.aws/credentials", ".aws/credentials");
    ("\.kube/config", ".kube/config") ].

(** [re.search(pattern, text, re.IGNORECASE)] for such a pattern, on
    ASCII text: a stretch of the text equals the literal up to the case
    of the letters A to Z.  On other text [re] also lets a few
    non-ASCII characters match an ASCII letter (the long s matches
    [s], the Kelvin sign [k]), which is not reproduced. *)
Definition search_ignorecase (literal text : string) : bool :=
  Py.contains (Py.lower literal) (Py.lower text).

(** A parameter the code goes on to use as a string.  What exactly is
    raised on another value depends on the value ([TypeError] or
    [AttributeError]); the model raises [TypeError] for all of them. *)
Definition as_str (v : Py.json) : Py.result string :=
  match v with
  | Py.JStr s => Py.Ok s
  | _ => Py.Raise Py.TypeError
  end.

Definition is_str (v : Py.json) (ss : list string) : bool :=
  match v with
  | Py.JStr s => bool_decide (s ∈ ss)
  | _ => false
  end.

(** The simulated readings. *)
Definition _get_agent_cpu_usage (agent : string) : Q := 50%Q.
Definition _get_agent_memory_usage (agent : string) : Q := 256%Q.

(** [_check_resource_limits].  On the memory branch the code evaluates
    [max(threat_level, ThreatLevel.CONCERNING)] on two members of a plain
    [Enum], which defines no order: the call raises [TypeError]. *)
Definition _check_resource_limits (self : PerimeterDefense) (action : AIAction)
    : Py.result (option ThreatAssessment) :=
  let agent := agent_id action in
  let current_cpu := _get_agent_cpu_usage agent in
  let current_memory := _get_agent_memory_usage agent in
  let max_cpu := config_get (max_cpu_percent (config self)) 80%Q in
  let max_memory := config_get (max_memory_mb (config self)) 1024%Q in
  let cpu_over := Py.Qgtb current_cpu max_cpu in
  let reasons1 :=
    if cpu_over
    then [Fmt "Uso de CPU excessivo: {}% (limite: {}%)" [Py.JNum current_cpu; Py.JNum max_cpu]]
    else [] in
  let level1 := if cpu_over then CONCERNING else SAFE in
  if Py.Qgtb current_memory max_memory then Py.Raise Py.TypeError
  else
    match reasons1 with
    | [] => Py.Ok None
    | _ =>
        Py.Ok (Some {| ta_action_id := action_id action;
                       threat_level := level1;
                       confidence := 0.9%Q;
                       reasons := reasons1;
                       recommended_action := THROTTLE;
                       analysis_layer := "perimeter" |})
    end.

Definition _check_api_rate_limit (self : PerimeterDefense) (now : Q) (action : AIAction)
    : PerimeterDefense * option ThreatAssessment :=
  match action_type action with
  | API_CALL =>
      let agent := agent_id action in
      let current_time := now in
      let calls := Py.deque_append 1000 (default [] (api_call_tracker self !! agent)) current_time in
      let self1 :=
        {| config := config self;
           api_call_tracker := <[agent := calls]> (api_call_tracker self);
           suspicious_domains := suspicious_domains self |} in
      let one_minute_ago := (current_time - 60)%Q in
      let recent_calls :=
        length (filter (fun t => Py.Qgtb t one_minute_ago = true) calls) in
      let max_calls := config_get (max_api_calls_per_minute (config self)) 100%Q in
      if Py.Qgtb (inject_Z (Z.of_nat recent_calls)) max_calls then
        (self1,
         Some {| ta_action_id := action_id action;
                 threat_level := SUSPICIOUS;
                 confidence := 0.95%Q;
                 reasons :=
                   [Fmt "Rate limit excedido: {} chamadas/min (limite: {})"
                        [Py.JNum (inject_Z (Z.of_nat recent_calls)); Py.JNum max_calls];
                    Text "Possível tentativa de flooding ou DoS"];
                 recommended_action := THROTTLE;
                 analysis_layer := "perimeter" |})
      else (self1, None)
  | _ => (self, None)
  end.

(** [_domain_matches] *)
Definition _domain_matches (domain rule_domain : string) : bool :=
  let normalized_rule :=
    Py.rstrip ["."%char] (Py.lstrip ["*"%char; "."%char] (Py.lower rule_domain)) in
  if String.eqb domain normalized_rule then true
  else Py.endswith domain ("." ++ normalized_rule).

(** The two components of [urllib.parse.urlparse(url)] the layer reads. *)
Record ParseResult : Type := {
  netloc : string;
  path : string
}.

Section WithUrlparse.

(** [urlparse] belongs to the Python standard library, not to the
    repository: it is a parameter here.  It may raise (an unbalanced
    bracket in the authority is a [ValueError]). *)
Variable urlparse : string -> Py.result ParseResult.

Definition _extract_domain (url : string) : Py.result string :=
  parsed ← urlparse url;
  let host :=
    if negb (String.eqb (netloc parsed) "") then netloc parsed
    else Py.split_head "/"%char (path parsed) in
  let domain := Py.rstrip ["."%char] (Py.lower host) in
  mret (Py.split_head ":"%char domain).

Definition suspicious_patterns : list string :=
  ["eval("; "exec("; "base64"; "shell"; "cmd"].

Definition _check_network_access (self : PerimeterDefense) (action : AIAction)
    : PerimeterDefense * Py.result (option ThreatAssessment) :=
  match action_type action with
  | NETWORK_REQUEST =>
      match
        (url ← as_str (Py.dict_get (parameters action) "url" (Py.JStr ""));
         domain ← _extract_domain url;
         mret (url, domain))
      with
      | Py.Raise e => (self, Py.Raise e)
      | Py.Ok (url, domain) =>
          let blocked := map Py.lower (config_get (blocked_domains (config self)) []) in
          match find (_domain_matches domain) blocked with
          | Some rule =>
              (self,
               Py.Ok (Some {| ta_action_id := action_id action;
                              threat_level := DANGEROUS;
                              confidence := 1%Q;
                              reasons :=
                                [Text ("Acesso a domínio bloqueado: " ++ domain
                                       ++ " (regra: " ++ rule ++ ")")];
                              recommended_action := BLOCK;
                              analysis_layer := "perimeter" |}))
          | None =>
              let allowed := map Py.lower (config_get (allowed_domains (config self)) []) in
              if match allowed with [] => false | _ => true end
                 && negb (existsb (_domain_matches domain) allowed)
              then
                (self,
                 Py.Ok (Some {| ta_action_id := action_id action;
                                threat_level := SUSPICIOUS;
                                confidence := 0.8%Q;
                                reasons :=
                                  [Text ("Acesso a domínio não autorizado: " ++ domain);
                                   Text "Domínio não está na whitelist"];
                                recommended_action := REQUIRE_APPROVAL;
                                analysis_layer := "perimeter" |}))
              else
                match find (fun pattern => Py.contains pattern (Py.lower url))
                           suspicious_patterns with
                | Some pattern =>
                    ({| config := config self;
                        api_call_tracker := api_call_tracker self;
                        suspicious_domains := {[domain]} ∪ suspicious_domains self |},
                     Py.Ok (Some {| ta_action_id := action_id action;
                                    threat_level := CONCERNING;
                                    confidence := 0.7%Q;
                                    reasons :=
                                      [Text ("URL contém padrão suspeito: " ++ pattern)];
                                    recommended_action := SANDBOX;
                                    analysis_layer := "perimeter" |}))
                | None => (self, Py.Ok None)
                end
          end
      end
  | _ => (self, Py.Ok None)
  end.

Definition dangerous_operations : list string := ["delete"; "chmod"; "chown"; "execute"].

Definition system_paths : list string :=
  ["/etc"; "/sys"; "/proc"; "C:\Windows"; "C:\Program Files"].

Definition _check_forbidden_patterns (action : AIAction)
    : Py.result (option ThreatAssessment) :=
  match action_type action with
  | FILE_OPERATION =>
      let operation := Py.dict_get (parameters action) "operation" (Py.JStr "") in
      filepath ← as_str (Py.dict_get (parameters action) "path" (Py.JStr ""));
      match find (fun p => search_ignorecase (snd p) filepath) forbidden_patterns with
      | Some (pattern, _) =>
          mret (Some {| ta_action_id := action_id action;
                        threat_level := CRITICAL;
                        confidence := 1%Q;
                        reasons :=
                          [Text ("Tentativa de acesso a arquivo crítico do sistema: "
                                 ++ filepath);
                           Text ("Padrão proibido detectado: " ++ pattern)];
                        recommended_action := KILL;
                        analysis_layer := "perimeter" |})
      | None =>
          if is_str operation dangerous_operations
             && existsb (Py.startswith filepath) system_paths
          then
            mret (Some {| ta_action_id := action_id action;
                          threat_level := DANGEROUS;
                          confidence := 0.9%Q;
                          reasons :=
                            [Text "Operação perigosa em diretório do sistema";
                             Fmt "Operação: {}, Path: {}" [operation; Py.JStr filepath]];
                          recommended_action := BLOCK;
                          analysis_layer := "perimeter" |})
          else mret None
      end
  | _ => mret None
  end.

Definition critical_modifications : list string :=
  ["system_prompt"; "safety_constraints"; "monitoring_hooks"; "memory_structure"].

Definition _check_self_modification (action : AIAction) : ThreatAssessment :=
  let modification_type :=
    Py.dict_get (parameters action) "modification_type" (Py.JStr "") in
  let target := Py.dict_get (parameters action) "target" (Py.JStr "") in
  let reasons0 :=
    [Fmt "Tentativa de auto-modificação detectada: {}" [modification_type];
     Fmt "Alvo: {}" [target]] in
  if is_str modification_type critical_modifications then
    {| ta_action_id := action_id action;
       threat_level := CRITICAL;
       confidence := 1%Q;
       reasons := reasons0 ++ [Text "Tentativa de modificar componentes críticos"];
       recommended_action := KILL;
       analysis_layer := "perimeter" |}
  else
    {| ta_action_id := action_id action;
       threat_level := SUSPICIOUS;
       confidence := 0.8%Q;
       reasons := reasons0;
       recommended_action := REQUIRE_APPROVAL;
       analysis_layer := "perimeter" |}.

(** [analyze]: the five checks in order; an exception in a check leaves
    the method at once, with the state written so far. *)
Definition analyze (self : PerimeterDefense) (now : Q) (action : AIAction)
    : PerimeterDefense * Py.result (option ThreatAssessment) :=
  match _check_resource_limits self action with
  | Py.Raise e => (self, Py.Raise e)
  | Py.Ok resource_threat =>
      let (self1, api_threat) := _check_api_rate_limit self now action in
      match _check_network_access self1 action with
      | (self2, Py.Raise e) => (self2, Py.Raise e)
      | (self2, Py.Ok network_threat) =>
          match _check_forbidden_patterns action with
          | Py.Raise e => (self2, Py.Raise e)
          | Py.Ok pattern_threat =>
              let modification_threat :=
                match action_type action with
                | SELF_MODIFICATION => Some (_check_self_modification action)
                | _ => None
                end in
              let threats :=
                omap id [resource_threat; api_threat; network_threat;
                         pattern_threat; modification_threat] in
              (self2,
               Py.Ok match threats with
                     | [] => None
                     | t :: rest => Some (Py.max_by severity t rest)
                     end)
          end
      end
  end.

End WithUrlparse.

(** A model of the library's [urlparse] for the closed examples below.
    It follows [urllib.parse.urlsplit] on ASCII URLs: leading spaces
    and control characters are dropped and every tab, carriage return
    and line feed is removed; then an initial [scheme:] is removed, an
    authority introduced by [//] runs to the first of [/], [?], [#],
    and the path to the first of [?], [#].  The library's handling of
    [;] parameters and of bracketed hosts beyond the balance check is
    not reproduced. *)
Definition is_alpha (c : ascii) : bool :=
  let n := nat_of_ascii c in
  (((65 <=? n) && (n <=? 90)) || ((97 <=? n) && (n <=? 122)))%nat.

Definition is_scheme_char (c : ascii) : bool :=
  let n := nat_of_ascii c in
  (is_alpha c || ((48 <=? n) && (n <=? 57))
   || (n =? 43) || (n =? 45) || (n =? 46))%nat.

(** The text before the first character of [stops], and the rest
    (starting at that character). *)
Fixpoint break_at (stops : list ascii) (s : string) : string * string :=
  match s with
  | EmptyString => (EmptyString, EmptyString)
  | String c r =>
      if Py.mem_ascii c stops then (EmptyString, s)
      else let (a, b) := break_at stops r in (String c a, b)
  end.

Definition strip_scheme (url : string) : string :=
  match break_at [":"%char] url with
  | (String c pre, String _ rest) =>
      if is_alpha c && forallb is_scheme_char (list_ascii_of_string pre)
      then rest else url
  | _ => url
  end.

(** [url.lstrip(_WHATWG_C0_CONTROL_OR_SPACE)] *)
Fixpoint lstrip_c0 (url : string) : string :=
  match url with
  | EmptyString => EmptyString
  | String c r => if (nat_of_ascii c <=? 32)%nat then lstrip_c0 r else url
  end.

(** The characters of [_UNSAFE_URL_BYTES_TO_REMOVE]. *)
Definition unsafe_url_bytes : list ascii :=
  [ascii_of_nat 9; ascii_of_nat 13; ascii_of_nat 10].

Fixpoint remove_unsafe (url : string) : string :=
  match url with
  | EmptyString => EmptyString
  | String c r =>
      if Py.mem_ascii c unsafe_url_bytes then remove_unsafe r
      else String c (remove_unsafe r)
  end.

Definition urlparse_plain (url : string) : Py.result ParseResult :=
  let url1 := strip_scheme (remove_unsafe (lstrip_c0 url)) in
  let (authority, url2) :=
    match url1 with
    | String "/" (String "/" r) => break_at ["/"%char; "?"%char; "#"%char] r
    | _ => (EmptyString, url1)
    end in
  if xorb (Py.contains "[" authority) (Py.contains "]" authority)
  then Py.Raise Py.ValueError
  else Py.Ok {| netloc := authority; path := fst (break_at ["?"%char; "#"%char] url2) |}.

End Perimeter.


(** ** [layer_heuristics.py]: class [HeuristicAnalyzer] *)

Module Heuristics.

(** The configuration dictionary; [None] is a missing key.  The window
    size is a natural number: a negative one makes [deque] raise on
    first use, and an explicit [None] (an unbounded deque) is not
    modelled. *)
Record Config : Type := {
  anomaly_threshold : option Q;
  pattern_window_size : option nat;
  learning_rate : option Q;
  enable_adaptive_learning : option bool;
  baseline_actions_required : option nat
}.

Definition config_get {A} (o : option A) (default : A) : A :=
  match o with
  | Some v => v
  | None => default
  end.

(** A per-agent profile.  [interaction_graph] maps a target (any
    hashable parameter value) to the set of timestamps of the messages
    sent to it; [resource_patterns] is never written and is left out. *)
Record Profile : Type := {
  action_counts : gmap string nat;
  action_timings : gmap string (list Q);
  interaction_graph : list (Py.json * list Q);
  baseline_established : bool;
  total_actions : nat;
  anomaly_count : nat;
  creation_time : Q
}.

Definition _create_empty_profile (now : Q) : Profile := {|
  action_counts := ∅;
  action_timings := ∅;
  interaction_graph := [];
  baseline_established := false;
  total_actions := 0;
  anomaly_count := 0;
  creation_time := now
|}.

(** The object state; [known_patterns] is never written and is left
    out.  The deques are lists with the newest entry last. *)
Record HeuristicAnalyzer : Type := {
  config : Config;
  agent_profiles : gmap string Profile;
  action_sequences : gmap string (list string);
  feature_vectors : gmap string (list (list Q));
  adaptive_thresholds : gmap string Q
}.

Definition init (cfg : Config) : HeuristicAnalyzer := {|
  config := cfg;
  agent_profiles := ∅;
  action_sequences := ∅;
  feature_vectors := ∅;
  adaptive_thresholds := ∅
|}.

Record Pattern : Type := {
  name : string;
  sequence : list string;
  weight : Q
}.

(** [_load_suspicious_patterns] *)
Definition suspicious_patterns : list Pattern :=
  [ {| name := "privilege_escalation";
       sequence := ["file_operation"; "code_execution"; "self_modification"];
       weight := 0.9%Q |};
    {| name := "data_exfiltration";
       sequence := ["file_operation"; "file_operation"; "network_request"];
       weight := 0.85%Q |};
    {| name := "lateral_movement";
       sequence := ["agent_communication"; "code_execution"; "agent_communication"];
       weight := 0.8%Q |};
    {| name := "reconnaissance";
       sequence := ["api_call"; "api_call"; "file_operation"; "network_request"];
       weight := 0.7%Q |};
    {| name := "resource_hoarding";
       sequence := ["resource_allocation"; "resource_allocation"; "resource_allocation"];
       weight := 0.75%Q |} ].

Definition _calculate_threat_level (score : Q) : ThreatLevel :=
  if Py.Qgeb score 0.9%Q then CRITICAL
  else if Py.Qgeb score 0.75%Q then DANGEROUS
  else if Py.Qgeb score 0.6%Q then CONCERNING
  else if Py.Qgeb score 0.4%Q then SUSPICIOUS
  else SAFE.

Definition _recommend_action (level : ThreatLevel) : EnforcementAction :=
  match level with
  | CRITICAL => KILL
  | DANGEROUS => QUARANTINE
  | CONCERNING => SANDBOX
  | SUSPICIOUS => REQUIRE_APPROVAL
  | SAFE => LOG
  end.

Definition set_profile (agent : string) (p : Profile) (self : HeuristicAnalyzer)
    : HeuristicAnalyzer :=
  {| config := config self;
     agent_profiles := <[agent := p]> (agent_profiles self);
     action_sequences := action_sequences self;
     feature_vectors := feature_vectors self;
     adaptive_thresholds := adaptive_thresholds self |}.

Definition _update_profile (cfg : Config) (profile : Profile) (action : AIAction)
    : Profile :=
  let ty := type_value (action_type action) in
  let total := S (total_actions profile) in
  let baseline_required := config_get (baseline_actions_required cfg) 100%nat in
  {| action_counts :=
       <[ty := S (default 0%nat (action_counts profile !! ty))]> (action_counts profile);
     action_timings :=
       <[ty := (default [] (action_timings profile !! ty) ++ [timestamp action])%list]>
         (action_timings profile);
     interaction_graph := interaction_graph profile;
     baseline_established :=
       if (baseline_required <=? total)%nat && negb (baseline_established profile)
       then true else baseline_established profile;
     total_actions := total;
     anomaly_count := anomaly_count profile;
     creation_time := creation_time profile |}.

(** The agent's recorded sequence, [list(self.action_sequences[agent_id])]. *)
Definition sequence_of (self : HeuristicAnalyzer) (agent : string) : list string :=
  default [] (action_sequences self !! agent).

Definition _detect_suspicious_patterns (self : HeuristicAnalyzer) (agent : string)
    (action : AIAction) : option ThreatAssessment :=
  let sequence := sequence_of self agent in
  if (length sequence <? 3)%nat then None
  else
    match
      find (fun pattern =>
              let pattern_seq := Heuristics.sequence pattern in
              let pattern_len := length pattern_seq in
              negb (length sequence <? pattern_len)%nat
              && bool_decide (Py.last_n pattern_len sequence = pattern_seq))
           suspicious_patterns
    with
    | Some pattern =>
        let level := _calculate_threat_level (weight pattern) in
        Some {| ta_action_id := action_id action;
                threat_level := level;
                confidence := weight pattern;
                reasons :=
                  [Text ("Padrão suspeito detectado: " ++ name pattern);
                   Text ("Sequência: " ++ Py.join " → " (Heuristics.sequence pattern))];
                recommended_action := _recommend_action level;
                analysis_layer := "heuristics" |}
    | None => None
    end.

Section WithNumerics.

(** Two library computations stay parameters: [param_hash] is
    [hash(str(sorted(parameters.items()))) % 100 / 100], built on
    Python's per-process string hash, and [np_std] is numpy's standard
    deviation, a square root.  Everything around them is rational
    arithmetic. *)
Variable param_hash : list (string * Py.json) -> Q.
Variable np_std : list Q -> Q.

Definition all_action_types : list ActionType :=
  [API_CALL; FILE_OPERATION; NETWORK_REQUEST; CODE_EXECUTION;
   SELF_MODIFICATION; AGENT_COMMUNICATION; RESOURCE_ALLOCATION].

Definition _extract_features (action : AIAction) (profile : Profile) : list Q :=
  let action_vector :=
    map (fun ty => if bool_decide (action_type action = ty) then 1%Q else 0%Q)
        all_action_types in
  let hour := (Py.Qmod (timestamp action) 86400 / 86400)%Q in
  let total := total_actions profile in
  let count :=
    default 0%nat (action_counts profile !! type_value (action_type action)) in
  let freq :=
    (inject_Z (Z.of_nat count) / inject_Z (Z.of_nat (Nat.max total 1)))%Q in
  (action_vector ++ [hour; freq; param_hash (parameters action)])%list.

Definition column (i : nat) (rows : list (list Q)) : list Q :=
  map (fun row => nth i row 0%Q) rows.

Definition _calculate_deviation (self : HeuristicAnalyzer) (agent : string)
    (features : list Q) : HeuristicAnalyzer * Q :=
  let feature_history := default [] (feature_vectors self !! agent) in
  let self1 :=
    {| config := config self;
       agent_profiles := agent_profiles self;
       action_sequences := action_sequences self;
       feature_vectors :=
         <[agent := Py.deque_append 1000 feature_history features]> (feature_vectors self);
       adaptive_thresholds := adaptive_thresholds self |} in
  if (length feature_history <? 10)%nat then (self1, 0%Q)
  else
    let normalized_distance :=
      imap (fun i f =>
              let col := column i feature_history in
              (Qabs (f - Py.mean col) / (np_std col + (1 # 1000000)))%Q)
           features in
    let deviation_score := (Py.mean normalized_distance / 3)%Q in
    (self1, if Qle_bool deviation_score 1 then deviation_score else 1%Q).

Definition threshold_of (self : HeuristicAnalyzer) (agent : string) : Q :=
  default (config_get (anomaly_threshold (config self)) 0.7%Q)
          (adaptive_thresholds self !! agent).

Definition _detect_behavioral_deviation (self : HeuristicAnalyzer) (agent : string)
    (action : AIAction) (profile : Profile)
    : HeuristicAnalyzer * option ThreatAssessment :=
  if negb (baseline_established profile) then (self, None)
  else
    let current_features := _extract_features action profile in
    let (self1, deviation_score) := _calculate_deviation self agent current_features in
    let threshold := threshold_of self agent in
    if Py.Qgtb deviation_score threshold then
      let level := _calculate_threat_level deviation_score in
      (self1,
       Some {| ta_action_id := action_id action;
               threat_level := level;
               confidence := deviation_score;
               reasons :=
                 [Fmt "Desvio comportamental detectado: score {:.2f}" [Py.JNum deviation_score];
                  Fmt "Threshold: {:.2f}" [Py.JNum threshold];
                  Text "Comportamento diverge do padrão estabelecido"];
               recommended_action := _recommend_action level;
               analysis_layer := "heuristics" |})
    else (self1, None).

(** [np.diff] *)
Fixpoint diff (l : list Q) : list Q :=
  match l with
  | a :: (b :: _) as rest => (b - a)%Q :: diff rest
  | _ => []
  end.

Definition _detect_temporal_anomalies (action : AIAction) (profile : Profile)
    : option ThreatAssessment :=
  let timings :=
    default [] (action_timings profile !! type_value (action_type action)) in
  if (length timings <? 10)%nat then None
  else
    let intervals := diff (Py.last_n 20 timings) in
    let mean_interval := Py.mean intervals in
    let std_interval := np_std intervals in
    match Py.last_n 2 timings with
    | [previous; latest] =>
        let current_interval := (latest - previous)%Q in
        if Py.Qgtb (mean_interval - 2 * std_interval)%Q current_interval then
          let burst_rate :=
            length (filter (fun i => Py.Qgtb (mean_interval * 0.5)%Q i = true)
                           (Py.last_n 10 intervals)) in
          if (5 <=? burst_rate)%nat then
            Some {| ta_action_id := action_id action;
                    threat_level := SUSPICIOUS;
                    confidence := 0.75%Q;
                    reasons :=
                      [Fmt "Burst de atividade detectado: {} ações rápidas"
                           [Py.JNum (inject_Z (Z.of_nat burst_rate))];
                       Fmt "Intervalo atual: {:.2f}s vs média: {:.2f}s"
                           [Py.JNum current_interval; Py.JNum mean_interval]];
                    recommended_action := THROTTLE;
                    analysis_layer := "heuristics" |}
          else None
        else None
    | _ => None
    end.

(** Dictionary keys: lists and dicts are unhashable; numbers and bools
    are equal as keys when they are equal as numbers. *)
Definition hashable (v : Py.json) : bool :=
  match v with
  | Py.JList _ | Py.JDict _ => false
  | _ => true
  end.

Definition key_eqb (a b : Py.json) : bool :=
  match a, b with
  | Py.JStr x, Py.JStr y => String.eqb x y
  | Py.JNull, Py.JNull => true
  | _, _ =>
      match Py.as_number a, Py.as_number b with
      | Py.Ok x, Py.Ok y => Qeq_bool x y
      | _, _ => false
      end
  end.

Definition set_add (ts : Q) (l : list Q) : list Q :=
  if existsb (Qeq_bool ts) l then l else (l ++ [ts])%list.

Fixpoint graph_add (target : Py.json) (ts : Q) (g : list (Py.json * list Q))
    : list (Py.json * list Q) :=
  match g with
  | [] => [(target, [ts])]
  | (k, v) :: rest =>
      if key_eqb k target then (k, set_add ts v) :: rest
      else (k, v) :: graph_add target ts rest
  end.

Fixpoint graph_get (target : Py.json) (g : list (Py.json * list Q)) : list Q :=
  match g with
  | [] => []
  | (k, v) :: rest => if key_eqb k target then v else graph_get target rest
  end.

Definition set_interaction_graph (g : list (Py.json * list Q)) (p : Profile) : Profile :=
  {| action_counts := action_counts p; action_timings := action_timings p;
     interaction_graph := g; baseline_established := baseline_established p;
     total_actions := total_actions p; anomaly_count := anomaly_count p;
     creation_time := creation_time p |}.

Definition incr_anomaly_count (p : Profile) : Profile :=
  {| action_counts := action_counts p; action_timings := action_timings p;
     interaction_graph := interaction_graph p;
     baseline_established := baseline_established p;
     total_actions := total_actions p; anomaly_count := S (anomaly_count p);
     creation_time := creation_time p |}.

Definition _detect_suspicious_interactions (now : Q) (action : AIAction)
    (profile : Profile) : Profile * Py.result (option ThreatAssessment) :=
  match action_type action with
  | AGENT_COMMUNICATION =>
      let target_agent := Py.dict_get (parameters action) "target_agent" Py.JNull in
      if negb (Py.truthy target_agent) then (profile, Py.Ok None)
      else if negb (hashable target_agent) then (profile, Py.Raise Py.TypeError)
      else
        let graph := graph_add target_agent (timestamp action) (interaction_graph profile) in
        let profile1 := set_interaction_graph graph profile in
        let recent_interactions :=
          filter (fun ts => Py.Qgtb ts (now - 60)%Q = true) (graph_get target_agent graph) in
        if (10 <? length recent_interactions)%nat then
          (profile1,
           Py.Ok (Some {| ta_action_id := action_id action;
                          threat_level := CONCERNING;
                          confidence := 0.8%Q;
                          reasons :=
                            [Fmt "Comunicação excessiva com agente {}" [target_agent];
                             Fmt "{} mensagens no último minuto"
                                 [Py.JNum (inject_Z (Z.of_nat (length recent_interactions)))];
                             Text "Possível coordenação para ataque"];
                          recommended_action := SANDBOX;
                          analysis_layer := "heuristics" |}))
        else (profile1, Py.Ok None)
  | _ => (profile, Py.Ok None)
  end.

(** [sensitivity_levels.get(s, 0)] *)
Definition sensitivity_level (s : string) : Q :=
  if String.eqb s "api_call" then 1
  else if String.eqb s "file_operation" then 2
  else if String.eqb s "network_request" then 2
  else if String.eqb s "code_execution" then 3
  else if String.eqb s "agent_communication" then 2
  else if String.eqb s "resource_allocation" then 2
  else if String.eqb s "self_modification" then 4
  else 0.

Definition _detect_escalation (self : HeuristicAnalyzer) (agent : string)
    (action : AIAction) : option ThreatAssessment :=
  let sequence := sequence_of self agent in
  if (length sequence <? 10)%nat then None
  else
    let recent_levels := map sensitivity_level (Py.last_n 10 sequence) in
    if (5 <=? length recent_levels)%nat then
      let first_half := Py.mean (take 5 recent_levels) in
      let second_half := Py.mean (drop 5 recent_levels) in
      let escalation_ratio := (second_half / (first_half + 0.1))%Q in
      if Py.Qgtb escalation_ratio 1.5%Q && Py.Qgeb second_half 3%Q then
        Some {| ta_action_id := action_id action;
                threat_level := DANGEROUS;
                confidence := 0.85%Q;
                reasons :=
                  [Text "Escalada gradual de privilégios detectada";
                   Fmt "Razão de escalada: {:.2f}" [Py.JNum escalation_ratio];
                   Text "Agente está progressivamente tentando ações mais sensíveis"];
                recommended_action := QUARANTINE;
                analysis_layer := "heuristics" |}
      else None
    else None.

(** [np.clip(x, lo, hi)] *)
Definition clip (x lo hi : Q) : Q :=
  if Qle_bool x lo then lo else if Qle_bool hi x then hi else x.

Definition _adaptive_learning (now : Q) (self : HeuristicAnalyzer) (agent : string)
    : HeuristicAnalyzer :=
  let learning_rate := config_get (learning_rate (config self)) 0.01%Q in
  let current_threshold := threshold_of self agent in
  let profile := default (_create_empty_profile now) (agent_profiles self !! agent) in
  let anomaly_rate :=
    (inject_Z (Z.of_nat (anomaly_count profile))
     / inject_Z (Z.of_nat (Nat.max (total_actions profile) 1)))%Q in
  let new_threshold :=
    if Py.Qgtb anomaly_rate 0.1%Q then (current_threshold + learning_rate)%Q
    else if Py.Qgtb 0.01%Q anomaly_rate then (current_threshold - learning_rate)%Q
    else current_threshold in
  {| config := config self;
     agent_profiles := agent_profiles self;
     action_sequences := action_sequences self;
     feature_vectors := feature_vectors self;
     adaptive_thresholds :=
       <[agent := clip new_threshold 0.5%Q 0.95%Q]> (adaptive_thresholds self) |}.

(** [analyze]; [now] is the clock reading.  The profile is a shared
    dictionary in the source: every change is written back to
    [agent_profiles]. *)
Definition analyze (self : HeuristicAnalyzer) (now : Q) (action : AIAction)
    : HeuristicAnalyzer * Py.result (option ThreatAssessment) :=
  let agent := agent_id action in
  let profile0 := default (_create_empty_profile now) (agent_profiles self !! agent) in
  let profile := _update_profile (config self) profile0 action in
  let window := config_get (pattern_window_size (config self)) 100%nat in
  let self1 :=
    {| config := config self;
       agent_profiles := <[agent := profile]> (agent_profiles self);
       action_sequences :=
         <[agent := Py.deque_append window (sequence_of self agent)
                                    (type_value (action_type action))]>
           (action_sequences self);
       feature_vectors := feature_vectors self;
       adaptive_thresholds := adaptive_thresholds self |} in
  let pattern_threat := _detect_suspicious_patterns self1 agent action in
  let (self2, deviation_threat) :=
    _detect_behavioral_deviation self1 agent action profile in
  let temporal_threat := _detect_temporal_anomalies action profile in
  match _detect_suspicious_interactions now action profile with
  | (profile1, Py.Raise e) => (set_profile agent profile1 self2, Py.Raise e)
  | (profile1, Py.Ok interaction_threat) =>
      let self3 := set_profile agent profile1 self2 in
      let escalation_threat := _detect_escalation self3 agent action in
      let threats :=
        omap id [pattern_threat; deviation_threat; temporal_threat;
                 interaction_threat; escalation_threat] in
      match threats with
      | [] => (self3, Py.Ok None)
      | t :: rest =>
          let max_threat := Py.max_by severity t rest in
          let self4 :=
            if level_value SUSPICIOUS <=? severity max_threat
            then set_profile agent (incr_anomaly_count profile1) self3
            else self3 in
          let self5 :=
            if config_get (enable_adaptive_learning (config self)) true
            then _adaptive_learning now self4 agent
            else self4 in
          (self5, Py.Ok (Some max_threat))
      end
  end.

End WithNumerics.

End Heuristics.

(** ** [layer_oracle.py]: class [OracleAnalyzer] *)

Module Oracle.

Record CacheEntry : Type := {
  assessment : ThreatAssessment;
  created_at : Q
}.

(** The [analyses] dictionary: its keys are ['intent'], ['alignment']
    and ['deception'], each present or not. *)
Record Analyses : Type := {
  intent : option Py.json;
  alignment : option Py.json;
  deception : option Py.json
}.

Record IntentRecord : Type := {
  ih_action_id : string;
  ih_agent_id : string;
  ih_timestamp : Q;
  ih_analyses : Analyses;
  final_threat : ThreatLevel
}.

(** The object after [__init__]: the configuration values with their
    defaults resolved, the cache and the history. *)
Record OracleAnalyzer : Type := {
  min_confidence : Q;
  enable_caching : bool;
  cache_ttl_seconds : Q;
  analysis_cache : gmap string CacheEntry;
  intent_history : list IntentRecord
}.

(** What one prompted analysis gets back from the backend.
    [_query_llm] turns every transport failure, timeout and non-200
    status into the text ['{}']; [json.loads] then raises on a
    completion that is not JSON and returns the parsed value otherwise. *)
Inductive Reply : Type :=
| Unavailable
| Malformed
| Parsed (v : Py.json).

(** [json.loads(self._query_llm(prompt, ...))] *)
Definition query_and_load (r : Reply) : Py.result Py.json :=
  match r with
  | Unavailable => Py.Ok (Py.JDict [])
  | Malformed => Py.Raise Py.ValueError
  | Parsed v => Py.Ok v
  end.

(** The replies to the three prompts of one [analyze] call. *)
Record Backend : Type := {
  intent_reply : Reply;
  alignment_reply : Reply;
  deception_reply : Reply
}.

Definition dangerous_keywords : list string :=
  ["eval"; "exec"; "compile"; "__import__"; "subprocess"].

Definition suspicious_sources : list string :=
  ["pastebin"; "raw.githubusercontent"; "bit.ly"].

(** A parameter on which the code calls [.lower()]. *)
Definition lowered (v : Py.json) : Py.result string :=
  match v with
  | Py.JStr s => Py.Ok (Py.lower s)
  | _ => Py.Raise Py.AttributeError
  end.

Definition _rule_based_intent_analysis (action : AIAction) : Py.result Py.json :=
  verdict ←
    match action_type action with
    | SELF_MODIFICATION =>
        mret ("CRITICAL", [Py.JStr "Auto-modificação sempre requer análise profunda"])
    | CODE_EXECUTION =>
        code ← lowered (Py.dict_get (parameters action) "code" (Py.JStr ""));
        let hits := filter (fun keyword => Py.contains keyword code = true)
                           dangerous_keywords in
        mret (match hits with [] => "SAFE" | _ => "DANGEROUS" end,
              map (fun keyword =>
                     Py.JStr ("Código contém keyword perigosa: " ++ keyword)) hits)
    | NETWORK_REQUEST =>
        url ← lowered (Py.dict_get (parameters action) "url" (Py.JStr ""));
        if existsb (fun suspicious => Py.contains suspicious url) suspicious_sources
        then mret ("SUSPICIOUS",
                   [Py.JStr "URL de origem suspeita para comando externo"])
        else mret ("SAFE", [])
    | _ => mret ("SAFE", [])
    end;
  mret (Py.JDict
          [ ("intent", Py.JStr ("Executar " ++ type_value (action_type action)));
            ("hidden_intents", Py.JList []);
            ("deception_detected", Py.JBool false);
            ("deception_evidence", Py.JStr "");
            ("threat_level", Py.JStr (fst verdict));
            ("confidence", Py.JNum 0.65%Q);
            ("reasoning", Py.JStr "Análise baseada em regras (LLM indisponível)");
            ("red_flags", Py.JList (snd verdict)) ]).

(** The three analyses.  Only the intent analysis has a fallback; the
    fallback runs inside the [except] block, so what it raises leaves
    the method. *)
Definition _analyze_intent (action : AIAction) (r : Reply) : Py.result (option Py.json) :=
  match query_and_load r with
  | Py.Ok result => Py.Ok (Some result)
  | Py.Raise _ => result ← _rule_based_intent_analysis action; mret (Some result)
  end.

Definition _analyze_goal_alignment (r : Reply) : option Py.json :=
  match query_and_load r with
  | Py.Ok result => Some result
  | Py.Raise _ => None
  end.

Definition _detect_deception (r : Reply) : option Py.json :=
  match query_and_load r with
  | Py.Ok result => Some result
  | Py.Raise _ => None
  end.

Definition _determine_enforcement (self : OracleAnalyzer) (level : ThreatLevel)
    (conf : Q) : EnforcementAction :=
  if Py.Qgtb (min_confidence self) conf then
    if level_value DANGEROUS <=? level_value level then REQUIRE_APPROVAL else LOG
  else
    match level with
    | CRITICAL => KILL
    | DANGEROUS => QUARANTINE
    | CONCERNING => SANDBOX
    | SUSPICIOUS => REQUIRE_APPROVAL
    | SAFE => ALLOW
    end.

(** [threat_mapping] *)
Definition threat_mapping (name : string) : option ThreatLevel :=
  if String.eqb name "SAFE" then Some SAFE
  else if String.eqb name "SUSPICIOUS" then Some SUSPICIOUS
  else if String.eqb name "CONCERNING" then Some CONCERNING
  else if String.eqb name "DANGEROUS" then Some DANGEROUS
  else if String.eqb name "CRITICAL" then Some CRITICAL
  else None.

(** [threat_mapping.get(t, default)] on a dynamically typed key: testing
    a list or a dict for membership raises, being unhashable. *)
Definition mapping_get (t : Py.json) : Py.result (option ThreatLevel) :=
  match t with
  | Py.JStr name => Py.Ok (threat_mapping name)
  | Py.JList _ | Py.JDict _ => Py.Raise Py.TypeError
  | _ => Py.Ok None
  end.

(** The key function of the [max] call. *)
Definition level_key (t : Py.json) : Py.result Z :=
  l ← mapping_get t;
  mret (match l with Some level => level_value level | None => 0 end).

(** The three lists [_aggregate_oracle_results] fills. *)
Record Collected : Type := {
  threat_levels : list Py.json;
  confidences : list Py.json;
  all_reasons : list reason
}.

Definition collect_intent (acc : Collected) (intent : Py.json) : Py.result Collected :=
  level ← Py.get intent "threat_level" (Py.JStr "SAFE");
  conf ← Py.get intent "confidence" (Py.JNum 0.5%Q);
  what ← Py.get intent "intent" (Py.JStr "desconhecida");
  detected ← Py.get intent "deception_detected" Py.JNull;
  evidence ← Py.get intent "deception_evidence" Py.JNull;
  red_flags ← Py.get intent "red_flags" (Py.JList []);
  flags ← Py.iter red_flags;
  mret {| threat_levels := threat_levels acc ++ [level];
          confidences := confidences acc ++ [conf];
          all_reasons :=
            all_reasons acc
            ++ [Fmt "Intenção detectada: {}" [what]]
            ++ (if Py.truthy detected then [Fmt "⚠️ DECEPTION: {}" [evidence]] else [])
            ++ map Val flags |}.

Definition collect_alignment (acc : Collected) (alignment : Py.json)
    : Py.result Collected :=
  is_aligned ← Py.get alignment "is_aligned" (Py.JBool true);
  if negb (Py.truthy is_aligned) then
    score ← Py.get alignment "alignment_score" (Py.JNum 0.5%Q);
    kind ← Py.get alignment "misalignment_type" Py.JNull;
    risks ← Py.get alignment "risks" (Py.JList []);
    items ← Py.iter risks;
    mret {| threat_levels := threat_levels acc ++ [Py.JStr "DANGEROUS"];
            confidences := confidences acc ++ [score];
            all_reasons :=
              all_reasons acc ++ [Fmt "Desalinhamento: {}" [kind]] ++ map Val items |}
  else mret acc.

Definition collect_deception (acc : Collected) (deception : Py.json)
    : Py.result Collected :=
  deception_prob ← Py.get deception "deception_probability" (Py.JNum 0%Q);
  p ← Py.as_number deception_prob;
  if Py.Qgtb p 0.7%Q then
    evidence ← Py.get deception "evidence" (Py.JList []);
    items ← Py.iter evidence;
    mret {| threat_levels := threat_levels acc ++ [Py.JStr "CRITICAL"];
            confidences := confidences acc ++ [deception_prob];
            all_reasons :=
              all_reasons acc
              ++ [Fmt "🚨 Alta probabilidade de deception: {:.2f}" [deception_prob]]
              ++ map Val items |}
  else mret acc.

Definition on_present (o : option Py.json)
    (f : Collected -> Py.json -> Py.result Collected) (acc : Collected)
    : Py.result Collected :=
  match o with
  | Some v => f acc v
  | None => mret acc
  end.

(** [max(threat_levels, key=...)]: [ValueError] on the empty list, and
    whatever the key function raises. *)
Definition max_threat_str (levels : list Py.json) : Py.result Py.json :=
  match levels with
  | [] => Py.Raise Py.ValueError
  | _ =>
      keys ← mapM level_key levels;
      match zip levels keys with
      | [] => Py.Raise Py.ValueError
      | x :: xs => mret (fst (Py.max_by snd x xs))
      end
  end.

(** [_aggregate_oracle_results].  The mean of the confidences is the
    exact one; the code's float mean is that of finite confidences up
    to rounding, and equal to it for a single confidence. *)
Definition _aggregate_oracle_results (self : OracleAnalyzer) (action : AIAction)
    (analyses : Analyses) : Py.result (option ThreatAssessment) :=
  match intent analyses, alignment analyses, deception analyses with
  | None, None, None => mret None
  | _, _, _ =>
      let acc0 := {| threat_levels := []; confidences := []; all_reasons := [] |} in
      acc1 ← on_present (intent analyses) collect_intent acc0;
      acc2 ← on_present (alignment analyses) collect_alignment acc1;
      acc ← on_present (deception analyses) collect_deception acc2;
      top ← max_threat_str (threat_levels acc);
      mapped ← mapping_get top;
      let max_threat := default SAFE mapped in
      numbers ← mapM Py.as_number (confidences acc);
      let avg_confidence :=
        match numbers with
        | [] => 0.5%Q
        | _ => (Py.sum numbers / inject_Z (Z.of_nat (length numbers)))%Q
        end in
      mret (Some {| ta_action_id := action_id action;
                    threat_level := max_threat;
                    confidence := avg_confidence;
                    reasons := all_reasons acc;
                    recommended_action := _determine_enforcement self max_threat avg_confidence;
                    analysis_layer := "oracle" |})
  end.

Section WithCacheKey.

(** [_generate_cache_key] is the SHA-256 digest of a JSON dump of the
    action's type, parameters, description, reasoning and agent: it is a
    parameter.  The core calls the layer with the action alone, so
    [context] is [None] throughout. *)
Variable _generate_cache_key : AIAction -> string.

Definition keep (v : Py.json) : option Py.json :=
  if Py.truthy v then Some v else None.

Definition set_cache (c : gmap string CacheEntry) (self : OracleAnalyzer)
    : OracleAnalyzer :=
  {| min_confidence := min_confidence self;
     enable_caching := enable_caching self;
     cache_ttl_seconds := cache_ttl_seconds self;
     analysis_cache := c;
     intent_history := intent_history self |}.

(** The part of [analyze] after the cache lookup. *)
Definition analyze_uncached (self : OracleAnalyzer) (now : Q) (backend : Backend)
    (action : AIAction) : OracleAnalyzer * Py.result (option ThreatAssessment) :=
  match _analyze_intent action (intent_reply backend) with
  | Py.Raise e => (self, Py.Raise e)
  | Py.Ok intent_result =>
      let analyses :=
        {| intent := intent_result ≫= keep;
           alignment := _analyze_goal_alignment (alignment_reply backend) ≫= keep;
           deception := _detect_deception (deception_reply backend) ≫= keep |} in
      match _aggregate_oracle_results self action analyses with
      | Py.Raise e => (self, Py.Raise e)
      | Py.Ok None => (self, Py.Ok None)
      | Py.Ok (Some final_assessment) =>
          if enable_caching self then
            ({| min_confidence := min_confidence self;
                enable_caching := enable_caching self;
                cache_ttl_seconds := cache_ttl_seconds self;
                analysis_cache :=
                  <[_generate_cache_key action :=
                      {| assessment := final_assessment; created_at := now |}]>
                    (analysis_cache self);
                intent_history :=
                  intent_history self
                  ++ [{| ih_action_id := action_id action;
                         ih_agent_id := agent_id action;
                         ih_timestamp := now;
                         ih_analyses := analyses;
                         final_threat := threat_level final_assessment |}] |},
             Py.Ok (Some final_assessment))
          else (self, Py.Ok (Some final_assessment))
      end
  end.

(** [analyze]; [now] is the clock reading.  A cached entry no older
    than the TTL is returned as it is; an older one is evicted. *)
Definition analyze (self : OracleAnalyzer) (now : Q) (backend : Backend)
    (action : AIAction) : OracleAnalyzer * Py.result (option ThreatAssessment) :=
  let cache_key := _generate_cache_key action in
  match (if enable_caching self then analysis_cache self !! cache_key else None) with
  | Some cached_entry =>
      let cache_age := (now - created_at cached_entry)%Q in
      if Qle_bool cache_age (cache_ttl_seconds self)
      then (self, Py.Ok (Some (assessment cached_entry)))
      else analyze_uncached (set_cache (delete cache_key (analysis_cache self)) self)
                            now backend action
  | None => analyze_uncached self now backend action
  end.

End WithCacheKey.

End Oracle.

(** * Specification vocabulary *)

Local Open Scope list_scope.

Section CoreVocabulary.
Context {W : Type}.
Implicit Types (s : Core.SHIELDCore W) (env : Core.Env W).

(** The log entries of one pass over the [n] callbacks of [layer]
    numbered from [idx]. *)
Definition entries (layer : Core.Layer) (idx n : nat) : list (Core.Layer * nat) :=
  map (fun i => (layer, i)) (seq idx n).

(** A perimeter result that ends the pipeline. *)
Definition short_circuits (p : option ThreatAssessment) : bool :=
  match p with
  | Some a => bool_decide (threat_level a = DANGEROUS \/ threat_level a = CRITICAL)
  | None => false
  end.

(** The results of the layers [process_action] consults, in layer
    order: the perimeter alone when it short-circuits, the oracle only
    on escalation. *)
Definition layer_results s env (action : AIAction) : list (option ThreatAssessment) :=
  let (env1, p) := Core._run_layer_callbacks s Core.perimeter env action in
  if short_circuits p then [p]
  else
    let (env2, h) := Core._run_layer_callbacks s Core.heuristics env1 action in
    if Core._should_escalate_to_oracle s action p h
    then [p; h; (Core._run_layer_callbacks s Core.oracle env2 action).2]
    else [p; h].

(** [m] is one of [l] and no member of [l] is more severe. *)
Definition most_severe_of (m : ThreatAssessment) (l : list ThreatAssessment) : Prop :=
  m ∈ l /\ forall a, a ∈ l -> severity a <= severity m.

(** The agent has an action with the literal id "unknown" on record. *)
Definition uses_unknown_id s (agent : string) : Prop :=
  exists a, a ∈ Core.action_history s /\ agent_id a = agent /\ action_id a = "unknown".

Definition status_of s (agent : string) : option string :=
  Core.status <$> (Core.monitored_agents s !! agent).

End CoreVocabulary.

(** The domain a configured rule stands for: lower-cased, without
    leading [*] and [.] characters and without trailing dots. *)
Definition rule_domain (rule : string) : string :=
  Py.rstrip ["."%char] (Py.lstrip ["*"%char; "."%char] (Py.lower rule)).

(** [domain] is [root] or one of its sub-domains. *)
Definition at_or_below (domain root : string) : Prop :=
  domain = root \/ exists sub, domain = (sub ++ "." ++ root)%string.

(** Text of ASCII characters only. *)
Definition ascii_only (s : string) : bool :=
  forallb (fun c => (nat_of_ascii c <? 128)%nat) (list_ascii_of_string s).

Definition blocked_rules (self : Perimeter.PerimeterDefense) : list string :=
  Perimeter.config_get (Perimeter.blocked_domains (Perimeter.config self)) [].

Definition allowed_rules (self : Perimeter.PerimeterDefense) : list string :=
  Perimeter.config_get (Perimeter.allowed_domains (Perimeter.config self)) [].

(** The simulated memory reading does not exceed the configured limit. *)
Definition memory_within_limit (self : Perimeter.PerimeterDefense) : Prop :=
  (256 <= Perimeter.config_get (Perimeter.max_memory_mb (Perimeter.config self)) 1024)%Q.

Definition url_of (action : AIAction) : Py.json :=
  Py.dict_get (parameters action) "url" (Py.JStr "").

(** A network request in ASCII: the URL, the authority and the path
    [urlparse] finds in it, and the configured domain rules. *)
Definition ascii_request (urlparse : string -> Py.result Perimeter.ParseResult)
    (self : Perimeter.PerimeterDefense) (url : string) : Prop :=
  ascii_only url = true
  /\ (forall parsed, urlparse url = Py.Ok parsed ->
        ascii_only (Perimeter.netloc parsed) = true
        /\ ascii_only (Perimeter.path parsed) = true)
  /\ (forall rule, rule ∈ blocked_rules self ++ allowed_rules self ->
        ascii_only rule = true).

Definition ends_with {A} (l tail : list A) : Prop := exists pre, l = pre ++ tail.

Definition escalation_suffix : list string :=
  [type_value FILE_OPERATION; type_value CODE_EXECUTION; type_value SELF_MODIFICATION].

Definition window_of (self : Heuristics.HeuristicAnalyzer) : nat :=
  Heuristics.config_get (Heuristics.pattern_window_size (Heuristics.config self)) 100%nat.

(** The action types an agent has submitted, oldest first. *)
Definition submitted_types (agent : string) (trace : list (Q * AIAction)) : list string :=
  map (fun e => type_value (action_type e.2))
      (filter (fun e : Q * AIAction => agent_id e.2 = agent) trace).

Section HeuristicRun.
Variable param_hash : list (string * Py.json) -> Q.
Variable np_std : list Q -> Q.

(** Analysing a sequence of actions, each with its clock reading; an
    exception is the caller's to catch and leaves the state as the
    method left it. *)
Definition run (self : Heuristics.HeuristicAnalyzer) (trace : list (Q * AIAction))
    : Heuristics.HeuristicAnalyzer :=
  fold_left (fun st e => (Heuristics.analyze param_hash np_std st e.1 e.2).1) trace self.

End HeuristicRun.

(** * Sample inputs *)

Definition sample_action (id agent : string) (ty : ActionType) : AIAction :=
  {| action_id := id; timestamp := 0; action_type := ty; description := "x";
     parameters := []; agent_id := agent; reasoning := None; metadata := [] |}.

Definition sample_assessment (id : string) (level : ThreatLevel) (conf : Q)
    (act : EnforcementAction) (layer : string) : ThreatAssessment :=
  {| ta_action_id := id; threat_level := level; confidence := conf;
     reasons := [Text layer]; recommended_action := act; analysis_layer := layer |}.

(** A callback over a counter: each call adds one and returns [r]. *)
Definition counting (r : option ThreatAssessment) : Core.Callable nat :=
  fun w _ => (S w, Core.Returned r).

Definition env0 : Core.Env nat := {| Core.world := 0%nat; Core.calls := [] |}.

(** The configuration of [tests/test_core_escalation.py]. *)
Definition test_config : Core.Config :=
  {| Core.cfg_oracle :=
       Some {| Core.always_analyze := Some false;
               Core.critical_action_types := Some [];
               Core.min_escalation_level := Some 1 |};
     Core.cfg_enforcement := Some {| Core.quarantine_duration_seconds := Some 1%Q |} |}.

Definition quiet_shield : Core.SHIELDCore nat :=
  Core.add_layer_callback
    (Core.add_layer_callback
       (Core.add_layer_callback (Core.init (Some test_config)) "perimeter" (counting None))
       "heuristics" (counting None))
    "oracle"
    (counting (Some (sample_assessment "x" SUSPICIOUS 0.7 REQUIRE_APPROVAL "oracle"))).

Definition alarmed_shield : Core.SHIELDCore nat :=
  Core.add_layer_callback
    (Core.add_layer_callback
       (Core.add_layer_callback (Core.init None) "perimeter"
          (counting (Some (sample_assessment "a1" CRITICAL 1 KILL "perimeter"))))
       "heuristics" (counting None))
    "oracle"
    (counting (Some (sample_assessment "x" SUSPICIOUS 0.7 REQUIRE_APPROVAL "oracle"))).

Definition empty_env : Core.Env unit := {| Core.world := tt; Core.calls := [] |}.

(** The default configuration, one registered agent, no callbacks. *)
Definition bare_shield : Core.SHIELDCore unit :=
  Core.register_agent (Core.init None) "ag" [] 0.

Definition unknown_shield : Core.SHIELDCore unit :=
  (Core.submit_action bare_shield (sample_action "unknown" "ag" API_CALL)).1.

(** One agent with two actions on record; the first is answered with a
    quarantine, the second with a kill, then the quarantine timer
    expires. *)
Definition two_actions : Core.SHIELDCore unit :=
  (Core.submit_action
     (Core.submit_action bare_shield (sample_action "a1" "ag" CODE_EXECUTION)).1
     (sample_action "a2" "ag" SELF_MODIFICATION)).1.

Definition quarantined : Core.SHIELDCore unit :=
  (Core.enforce_action two_actions empty_env
     (sample_assessment "a1" DANGEROUS 0.85 QUARANTINE "heuristics")).1.2.

Definition killed : Core.SHIELDCore unit :=
  (Core.enforce_action quarantined empty_env
     (sample_assessment "a2" CRITICAL 1 KILL "perimeter")).1.2.

Definition released : Core.SHIELDCore unit := Core.fire_timer killed 0.

(** The request and the configuration of [tests/test_perimeter.py]. *)
Definition request (url : string) : AIAction :=
  {| action_id := "1"; timestamp := 0; action_type := NETWORK_REQUEST;
     description := "req"; parameters := [("url", Py.JStr url)]; agent_id := "agent";
     reasoning := None; metadata := [] |}.

Definition perimeter_config (blocked : list string) (memory : option Q)
    : Perimeter.Config :=
  {| Perimeter.max_api_calls_per_minute := None; Perimeter.max_memory_mb := memory;
     Perimeter.max_cpu_percent := None; Perimeter.allowed_domains := None;
     Perimeter.blocked_domains := Some blocked |}.

Definition blocklist_perimeter : Perimeter.PerimeterDefense :=
  Perimeter.init (perimeter_config ["malicious.com"] None).

(** The configuration of [tests/test_heuristics.py], with a choice of
    window. *)
Definition heuristics_config (window : option nat) : Heuristics.Config :=
  {| Heuristics.anomaly_threshold := None; Heuristics.pattern_window_size := window;
     Heuristics.learning_rate := None; Heuristics.enable_adaptive_learning := Some false;
     Heuristics.baseline_actions_required := None |}.

Definition no_hash (_ : list (string * Py.json)) : Q := 0.
Definition no_std (_ : list Q) : Q := 0.

Definition first_two : list (Q * AIAction) :=
  [(0%Q, sample_action "a1" "ag1" FILE_OPERATION);
   (1%Q, sample_action "a2" "ag1" CODE_EXECUTION)].

Definition third : AIAction := sample_action "a3" "ag1" SELF_MODIFICATION.

(** An oracle with the default settings and an empty cache. *)
Definition fresh_oracle : Oracle.OracleAnalyzer :=
  {| Oracle.min_confidence := 0.6%Q; Oracle.enable_caching := true;
     Oracle.cache_ttl_seconds := 3600%Q; Oracle.analysis_cache := ∅;
     Oracle.intent_history := [] |}.

(** The backend reports a confidence of 5 for the intent. *)
Definition overconfident : Oracle.Backend :=
  {| Oracle.intent_reply :=
       Oracle.Parsed (Py.JDict [("intent", Py.JStr "read a file");
                                ("threat_level", Py.JStr "SUSPICIOUS");
                                ("confidence", Py.JNum 5%Q)]);
     Oracle.alignment_reply := Oracle.Parsed (Py.JDict []);
     Oracle.deception_reply := Oracle.Parsed (Py.JDict []) |}.

Definition overconfident_assessment : ThreatAssessment :=
  {| ta_action_id := "a1"; threat_level := SUSPICIOUS; confidence := 5%Q;
     reasons := [Fmt "Intenção detectada: {}" [Py.JStr "read a file"]];
     recommended_action := REQUIRE_APPROVAL; analysis_layer := "oracle" |}.

(** The intent analysis comes back empty; the other two report an
    aligned action and a low deception probability. *)
Definition reassuring : Oracle.Backend :=
  {| Oracle.intent_reply := Oracle.Parsed (Py.JDict []);
     Oracle.alignment_reply :=
       Oracle.Parsed (Py.JDict [("is_aligned", Py.JBool true);
                                ("alignment_score", Py.JNum 0.9%Q)]);
     Oracle.deception_reply :=
       Oracle.Parsed (Py.JDict [("deception_probability", Py.JNum 0.1%Q)]) |}.

(** * Further operations of the sources *)

(** ** [layer_local_ai.py]: class [LocalAIGuardian] *)

Module LocalAI.

(** The configuration dictionary; [None] is a missing key.  As for the
    heuristics window, [memory_size] is a natural number. *)
Record Config : Type := {
  memory_size : option nat;
  min_samples : option nat;
  sensitivity : option Q;
  alert_threshold : option Q
}.

Definition config_get {A} (o : option A) (default : A) : A :=
  match o with
  | Some v => v
  | None => default
  end.

(** The object: the configuration (never written after [__init__], so
    [self.min_samples] and [self.sensitivity] are read from it) and the
    per-agent deques of feature vectors. *)
Record LocalAIGuardian : Type := {
  config : Config;
  memory : gmap string (list (list Q))
}.

Definition init (cfg : Config) : LocalAIGuardian := {| config := cfg; memory := ∅ |}.

Definition _score_to_threat (score : Q) : ThreatLevel :=
  if Py.Qgeb score 0.9%Q then CRITICAL
  else if Py.Qgeb score 0.78%Q then DANGEROUS
  else if Py.Qgeb score 0.66%Q then CONCERNING
  else SUSPICIOUS.

Definition _recommend_action (threat : ThreatLevel) : EnforcementAction :=
  match threat with
  | CRITICAL => KILL
  | DANGEROUS => QUARANTINE
  | CONCERNING => SANDBOX
  | _ => REQUIRE_APPROVAL
  end.

(** [min(1.0, x)] *)
Definition cap (x : Q) : Q := if Py.Qgtb 1%Q x then x else 1%Q.

Definition high_terms : list string :=
  ["sudo"; "passwd"; "shadow"; "exfil"; "disable"; "kill"; "bypass"; "token"].

Definition medium_terms : list string :=
  ["exec"; "shell"; "upload"; "chmod"; "chown"; "privilege"; "systemctl"].

Definition hits (terms : list string) (text : string) : nat :=
  length (filter (fun kw => Py.contains kw text = true) terms).

Section WithNumerics.

(** Three library computations stay parameters: [repr_parameters] is
    [str(action.parameters)], Python's rendering of a dictionary;
    [z_distance history vector] is the numpy expression
    [np.mean(np.abs(vector - centroid) / std)] over the stored vectors;
    [np_divide] is numpy's float division, which answers a zero divisor
    with an infinity or a NaN instead of raising. *)
Variable repr_parameters : list (string * Py.json) -> string.
Variable z_distance : list (list Q) -> list Q -> Q.
Variable np_divide : Q -> Q -> Q.

Definition size_feature (text : string) (scale : Q) : Q :=
  cap (inject_Z (Z.of_nat (String.length text)) / scale)%Q.

Definition _vectorize_action (action : AIAction) : list Q :=
  let one_hot :=
    map (fun ty => if bool_decide (action_type action = ty) then 1%Q else 0%Q)
        Heuristics.all_action_types in
  let hour := (Py.Qmod (timestamp action) 86400 / 86400)%Q in
  let param_size := size_feature (repr_parameters (parameters action)) 500 in
  let desc_size := size_feature (description action) 200 in
  let reason_size := size_feature (default "" (reasoning action)) 250 in
  (one_hot ++ [hour; param_size; desc_size; reason_size])%list.

Definition _keyword_risk (action : AIAction) : Q :=
  let text :=
    Py.lower (description action ++ " " ++ default "" (reasoning action) ++ " "
              ++ repr_parameters (parameters action)) in
  let high_hits := hits high_terms text in
  let med_hits := hits medium_terms text in
  cap (inject_Z (Z.of_nat high_hits) * 0.25 + inject_Z (Z.of_nat med_hits) * 0.12)%Q.

Definition remember (self : LocalAIGuardian) (agent : string) (vector : list Q)
    : LocalAIGuardian :=
  {| config := config self;
     memory :=
       <[agent := Py.deque_append (config_get (memory_size (config self)) 250%nat)
                                  (default [] (memory self !! agent)) vector]>
         (memory self) |}.

Definition analyze (self : LocalAIGuardian) (action : AIAction)
    : LocalAIGuardian * option ThreatAssessment :=
  let vector := _vectorize_action action in
  let history := default [] (memory self !! agent_id action) in
  if (length history <? config_get (min_samples (config self)) 12%nat)%nat then
    (remember self (agent_id action) vector, None)
  else
    let z_dist := z_distance history vector in
    let keyword_risk := _keyword_risk action in
    let score :=
      cap (np_divide z_dist (config_get (sensitivity (config self)) 2.2%Q) * 0.7
           + keyword_risk * 0.3)%Q in
    let self1 := remember self (agent_id action) vector in
    if Py.Qgtb (config_get (alert_threshold (config self)) 0.6%Q) score then (self1, None)
    else
      let threat := _score_to_threat score in
      (self1,
       Some {| ta_action_id := action_id action;
               threat_level := threat;
               confidence := score;
               reasons :=
                 [Fmt "Local AI detectou desvio semântico-comportamental (score={:.2f})"
                      [Py.JNum score];
                  Text "Modelo local offline identificou ação fora do padrão histórico"];
               recommended_action := _recommend_action threat;
               analysis_layer := "local_ai" |}).

(** Analysing a sequence of actions. *)
Definition run (self : LocalAIGuardian) (trace : list AIAction) : LocalAIGuardian :=
  fold_left (fun st a => (analyze st a).1) trace self.

End WithNumerics.

End LocalAI.

(** ** [shield_core.py]: metrics, and the agent wrapper of [demo_shield.py] *)

Section CoreOperations.
Context {W : Type}.
Implicit Types (s : Core.SHIELDCore W) (env : Core.Env W).

(** The dictionary [get_metrics] returns. *)
Record MetricsSnapshot : Type := {
  counters : Core.Metrics;
  monitored_agents_count : nat;
  blocked_agents_count : nat;
  actions_in_queue : nat
}.

Definition get_metrics s : MetricsSnapshot :=
  {| counters := Core.metrics s;
     monitored_agents_count := size (Core.monitored_agents s);
     blocked_agents_count := size (Core.blocked_agents s);
     actions_in_queue := length (Core.action_queue s) |}.

(** [ExampleAIAgent.perform_action], from the point where the action is
    built: submit, process, enforce; the sentinel [submit_action]
    returns is not looked at. *)
Definition perform_action s env (action : AIAction)
    : Core.Env W * Core.SHIELDCore W * Py.result bool :=
  let s1 := (Core.submit_action s action).1 in
  let r := Core.process_action s1 env action in
  Core.enforce_action r.1.2 r.1.1 r.2.

(** [start] and [stop] *)
Definition set_is_running (b : bool) s : Core.SHIELDCore W :=
  {| Core.config := Core.config s; Core.action_queue := Core.action_queue s;
     Core.action_history := Core.action_history s;
     Core.threat_history := Core.threat_history s;
     Core.is_running := b; Core.monitored_agents := Core.monitored_agents s;
     Core.blocked_agents := Core.blocked_agents s;
     Core.layer_callbacks := Core.layer_callbacks s;
     Core.metrics := Core.metrics s; Core.timers := Core.timers s |}.

Definition start s : Core.SHIELDCore W := set_is_running true s.
Definition stop s : Core.SHIELDCore W := set_is_running false s.

(** One call of the public interface, or the expiry of a timer. *)
Inductive step : Core.SHIELDCore W -> Core.SHIELDCore W -> Prop :=
| step_register s agent meta now : step s (Core.register_agent s agent meta now)
| step_submit s action : step s (Core.submit_action s action).1
| step_process s env action : step s (Core.process_action s env action).1.2
| step_enforce s env assessment : step s (Core.enforce_action s env assessment).1.2
| step_timer s i : step s (Core.fire_timer s i)
| step_callback s layer callback : step s (Core.add_layer_callback s layer callback)
| step_start s : step s (start s)
| step_stop s : step s (stop s).

(** The states a shield constructed with [cfg] can get into. *)
Definition reachable (cfg : option Core.Config) s : Prop := rtc step (Core.init cfg) s.

End CoreOperations.

(** A run of API calls of one agent through the rate limiter: the clock
    readings of the calls, oldest first. *)
Definition api_calls (self : Perimeter.PerimeterDefense) (action : AIAction)
    (times : list Q) : Perimeter.PerimeterDefense :=
  fold_left (fun st now => (Perimeter._check_api_rate_limit st now action).1) times self.

(** ** [layer_heuristics.py]: [get_agent_profile] *)

Module HeuristicsProfile.

(** The dictionary [get_agent_profile] returns; [adaptive_threshold] is
    [None] where the source puts the string 'not set'. *)
Record AgentProfile : Type := {
  agent_id : string;
  total_actions : nat;
  anomaly_count : nat;
  anomaly_rate : Q;
  baseline_established : bool;
  action_distribution : gmap string nat;
  adaptive_threshold : option Q;
  known_interactions : nat
}.

Definition get_agent_profile (self : Heuristics.HeuristicAnalyzer) (agent : string)
    : option AgentProfile :=
  match Heuristics.agent_profiles self !! agent with
  | None => None
  | Some profile =>
      Some {| agent_id := agent;
              total_actions := Heuristics.total_actions profile;
              anomaly_count := Heuristics.anomaly_count profile;
              anomaly_rate :=
                (inject_Z (Z.of_nat (Heuristics.anomaly_count profile))
                 / inject_Z (Z.of_nat (Nat.max (Heuristics.total_actions profile) 1)))%Q;
              baseline_established := Heuristics.baseline_established profile;
              action_distribution := Heuristics.action_counts profile;
              adaptive_threshold := Heuristics.adaptive_thresholds self !! agent;
              known_interactions := length (Heuristics.interaction_graph profile) |}
  end.

End HeuristicsProfile.

(** ** Vocabulary for the further facts *)

(** The assessment is about [action] and names [layer]. *)
Definition issued_by (layer : string) (action : AIAction) (t : ThreatAssessment) : Prop :=
  ta_action_id t = action_id action /\ analysis_layer t = layer.

Section CoreInvariants.
Context {W : Type}.
Implicit Types (s : Core.SHIELDCore W).

(** The queue and the history hold the same actions, and the counters
    agree with them. *)
Definition books_balanced s : Prop :=
  Core.action_queue s = Core.action_history s
  /\ Core.total_actions (Core.metrics s) = length (Core.action_history s)
  /\ (Core.threats_detected (Core.metrics s) <= length (Core.threat_history s))%nat.

(** Every agent recorded as quarantined or killed is blocked. *)
Definition contained_are_blocked s : Prop :=
  forall agent r,
    Core.monitored_agents s !! agent = Some r ->
    Core.status r = "quarantined" \/ Core.status r = "killed" ->
    agent ∈ Core.blocked_agents s.

(** [self.config['enforcement']['quarantine_duration_seconds']], when
    both keys are there. *)
Definition duration_of s : option Q :=
  e ← Core.cfg_enforcement (Core.config s); Core.quarantine_duration_seconds e.

End CoreInvariants.

(** The recommendations [enforce_action] answers with [False]. *)
Definition denying (a : EnforcementAction) : bool :=
  match a with
  | BLOCK | KILL | QUARANTINE => true
  | _ => false
  end.

(** The perimeter: what the checks read. *)
Definition recorded_calls (self : Perimeter.PerimeterDefense) (agent : string) : list Q :=
  default [] (Perimeter.api_call_tracker self !! agent).

Definition max_calls (self : Perimeter.PerimeterDefense) : Q :=
  Perimeter.config_get (Perimeter.max_api_calls_per_minute (Perimeter.config self)) 100%Q.

(** The simulated CPU reading does not exceed the configured limit. *)
Definition cpu_within_limit (self : Perimeter.PerimeterDefense) : Prop :=
  (50 <= Perimeter.config_get (Perimeter.max_cpu_percent (Perimeter.config self)) 80)%Q.

Definition path_of (action : AIAction) : Py.json :=
  Py.dict_get (parameters action) "path" (Py.JStr "").

Definition operation_of (action : AIAction) : Py.json :=
  Py.dict_get (parameters action) "operation" (Py.JStr "").

Definition modification_type_of (action : AIAction) : Py.json :=
  Py.dict_get (parameters action) "modification_type" (Py.JStr "").

(** The path holds one of the forbidden patterns, in any mix of upper
    and lower case. *)
Definition names_forbidden (filepath : string) : Prop :=
  exists pattern literal pre mid post,
    (pattern, literal) ∈ Perimeter.forbidden_patterns
    /\ filepath = (pre ++ mid ++ post)%string
    /\ Py.lower mid = Py.lower literal.

Definition is_digit (c : ascii) : bool :=
  let n := nat_of_ascii c in ((48 <=? n) && (n <=? 57))%nat.

Definition has_char (c : ascii) (s : string) : bool :=
  Py.mem_ascii c (list_ascii_of_string s).

(** The heuristics layer. *)
Definition baseline_required (self : Heuristics.HeuristicAnalyzer) : nat :=
  Heuristics.config_get (Heuristics.baseline_actions_required (Heuristics.config self))
                        100%nat.

Definition target_of (action : AIAction) : Py.json :=
  Py.dict_get (parameters action) "target_agent" Py.JNull.

(** How often [ty] occurs among [types]. *)
Definition counts (types : list string) (ty : string) : nat :=
  length (filter (fun t => t = ty) types).

(** The counters of a profile agree with the types of the actions
    analysed for its agent, oldest first. *)
Definition profile_counts (required : nat) (types : list string) (p : Heuristics.Profile)
    : Prop :=
  Heuristics.total_actions p = length types
  /\ (forall ty, default 0%nat (Heuristics.action_counts p !! ty) = counts types ty)
  /\ Heuristics.baseline_established p
     = ((1 <=? length types)%nat && (required <=? length types)%nat)
  /\ (Heuristics.anomaly_count p <= length types)%nat.

(** The counters of two profiles agree. *)
Definition same_counters (p q : Heuristics.Profile) : Prop :=
  Heuristics.total_actions p = Heuristics.total_actions q
  /\ Heuristics.action_counts p = Heuristics.action_counts q
  /\ Heuristics.baseline_established p = Heuristics.baseline_established q.

Definition thresholds_clipped (self : Heuristics.HeuristicAnalyzer) : Prop :=
  forall (agent : string) (q : Q),
    Heuristics.adaptive_thresholds self !! agent = Some q -> (0.5 <= q <= 0.95)%Q.

(** The shape of what the five detectors return. *)
Definition heuristic_shape (threshold : Q) (action : AIAction) (t : ThreatAssessment)
    : Prop :=
  issued_by "heuristics" action t
  /\ (confidence t <= 1)%Q
  /\ ((0 <= threshold)%Q -> (0 < confidence t)%Q).

(** The oracle: the cache entry [analyze] answers from.  Caching is on,
    the key is present and the entry is no older than the TTL. *)
Definition fresh_entry (self : Oracle.OracleAnalyzer) (key : string) (now : Q)
    : option Oracle.CacheEntry :=
  if Oracle.enable_caching self then
    match Oracle.analysis_cache self !! key with
    | Some e =>
        if Qle_bool (now - Oracle.created_at e) (Oracle.cache_ttl_seconds self)
        then Some e else None
    | None => None
    end
  else None.

(** A reply that leaves an analysis without a result: the backend is
    down, or the completion is not JSON. *)
Definition no_result (r : Oracle.Reply) : Prop :=
  r = Oracle.Unavailable \/ r = Oracle.Malformed.

Definition code_of (action : AIAction) : Py.json :=
  Py.dict_get (parameters action) "code" (Py.JStr "").

(** The intent completion is the dictionary [kv]; it reports the
    level name [name] and the confidence [conf], a number between 0
    and 1, and its [red_flags], if any, can be iterated.  The other two
    analyses come back without a result. *)
Definition intent_alone (backend : Oracle.Backend) (kv : list (string * Py.json))
    (name : string) (conf : Q) : Prop :=
  Oracle.intent_reply backend = Oracle.Parsed (Py.JDict kv)
  /\ Py.assoc "threat_level" kv = Some (Py.JStr name)
  /\ Py.assoc "confidence" kv = Some (Py.JNum conf)
  /\ (0 <= conf <= 1)%Q
  /\ (exists flags, Py.iter (Py.dict_get kv "red_flags" (Py.JList [])) = Py.Ok flags)
  /\ no_result (Oracle.alignment_reply backend)
  /\ no_result (Oracle.deception_reply backend).

(** An intent completion that names a level and a confidence, and a
    backend that answers the intent prompt only. *)
Definition intent_completion (level : string) (conf : Q) : Oracle.Reply :=
  Oracle.Parsed (Py.JDict [("threat_level", Py.JStr level); ("confidence", Py.JNum conf)]).

Definition intent_only (r : Oracle.Reply) : Oracle.Backend :=
  {| Oracle.intent_reply := r; Oracle.alignment_reply := Oracle.Unavailable;
     Oracle.deception_reply := Oracle.Unavailable |}.

(** The local guardian. *)
Definition stored_vectors (self : LocalAI.LocalAIGuardian) (agent : string)
    : list (list Q) :=
  default [] (LocalAI.memory self !! agent).

Definition memory_capacity (self : LocalAI.LocalAIGuardian) : nat :=
  LocalAI.config_get (LocalAI.memory_size (LocalAI.config self)) 250%nat.

Definition samples_required (self : LocalAI.LocalAIGuardian) : nat :=
  LocalAI.config_get (LocalAI.min_samples (LocalAI.config self)) 12%nat.

Definition alert_level (self : LocalAI.LocalAIGuardian) : Q :=
  LocalAI.config_get (LocalAI.alert_threshold (LocalAI.config self)) 0.6%Q.

(** ** Further sample inputs *)

(** A configuration without the ['enforcement'] key. *)
Definition no_enforcement : Core.Config :=
  {| Core.cfg_oracle := None; Core.cfg_enforcement := None |}.

Definition file_action (path : Py.json) (operation : string) : AIAction :=
  {| action_id := "f1"; timestamp := 0; action_type := FILE_OPERATION;
     description := "file"; parameters := [("path", path); ("operation", Py.JStr operation)];
     agent_id := "agent"; reasoning := None; metadata := [] |}.

Definition modification (kind : string) : AIAction :=
  {| action_id := "m1"; timestamp := 0; action_type := SELF_MODIFICATION;
     description := "mod"; parameters := [("modification_type", Py.JStr kind)];
     agent_id := "agent"; reasoning := None; metadata := [] |}.

Definition rate_limited (limit : Q) : Perimeter.PerimeterDefense :=
  Perimeter.init
    {| Perimeter.max_api_calls_per_minute := Some limit; Perimeter.max_memory_mb := None;
       Perimeter.max_cpu_percent := None; Perimeter.allowed_domains := None;
       Perimeter.blocked_domains := None |}.

Definition allowlist_perimeter (allowed : list string) : Perimeter.PerimeterDefense :=
  Perimeter.init
    {| Perimeter.max_api_calls_per_minute := None; Perimeter.max_memory_mb := None;
       Perimeter.max_cpu_percent := None; Perimeter.allowed_domains := Some allowed;
       Perimeter.blocked_domains := None |}.

Definition uncached_oracle : Oracle.OracleAnalyzer :=
  {| Oracle.min_confidence := 0.6%Q; Oracle.enable_caching := false;
     Oracle.cache_ttl_seconds := 3600%Q; Oracle.analysis_cache := ∅;
     Oracle.intent_history := [] |}.

(** The intent completion calls the action CRITICAL at a confidence of
    0.3, and what the layer makes of it. *)
Definition doubtful_assessment : ThreatAssessment :=
  {| ta_action_id := "a1"; threat_level := CRITICAL; confidence := 0.3%Q;
     reasons := [Fmt "Intenção detectada: {}" [Py.JStr "desconhecida"]];
     recommended_action := REQUIRE_APPROVAL; analysis_layer := "oracle" |}.

(** The intent completion spells the level in lower case; the
    alignment completion is not JSON and the deception prompt is not
    answered. *)
Definition mislabelled : Oracle.Backend :=
  {| Oracle.intent_reply :=
       Oracle.Parsed
         (Py.JDict [("intent", Py.JStr "wipe the disk");
                    ("threat_level", Py.JStr "critical");
                    ("confidence", Py.JNum 0.99%Q);
                    ("red_flags", Py.JList [Py.JStr "rm -rf /"])]);
     Oracle.alignment_reply := Oracle.Malformed;
     Oracle.deception_reply := Oracle.Unavailable |}.

(** A cache key that tells actions apart by type only. *)
Definition key_by_type (action : AIAction) : string := type_value (action_type action).

(** A guardian that starts judging at once, and one whose memory is
    smaller than the number of samples it waits for. *)
Definition eager_guardian : LocalAI.LocalAIGuardian :=
  LocalAI.init {| LocalAI.memory_size := None; LocalAI.min_samples := Some 0%nat;
                  LocalAI.sensitivity := None; LocalAI.alert_threshold := None |}.

Definition small_memory : LocalAI.Config :=
  {| LocalAI.memory_size := Some 5%nat; LocalAI.min_samples := None;
     LocalAI.sensitivity := None; LocalAI.alert_threshold := None |}.

Definition no_repr (_ : list (string * Py.json)) : string := "{}".
Definition far (_ : list (list Q)) (_ : list Q) : Q := 10.

(** * Facts about the Python primitives *)

Lemma max_by_in {A} (key : A -> Z) xs : forall x, Py.max_by key x xs ∈ x :: xs.
Proof.
  induction xs as [|y ys IH]; intros x; simpl.
  - apply list_elem_of_singleton. reflexivity.
  - specialize (IH (if key x <? key y then y else x)).
    apply elem_of_cons in IH as [->|IH].
    + destruct (key x <? key y); [right; left|left].
    + right; right. exact IH.
Qed.

Lemma max_by_upper {A} (key : A -> Z) xs : forall x y,
  y ∈ x :: xs -> key y <= key (Py.max_by key x xs).
Proof.
  induction xs as [|z zs IH]; intros x y Hy; simpl.
  - apply list_elem_of_singleton in Hy. subst. lia.
  - destruct (Z.ltb_spec (key x) (key z)) as [Hlt|Hge].
    + apply elem_of_cons in Hy as [->|Hy].
      * etrans; [|apply (IH z z)]; [lia|left].
      * apply IH. exact Hy.
    + apply elem_of_cons in Hy as [->|Hy].
      * apply IH. left.
      * apply elem_of_cons in Hy as [->|Hy].
        -- etrans; [|apply (IH x x)]; [lia|left].
        -- apply IH. right. exact Hy.
Qed.

Lemma fold_left_Qplus (l : list Q) : forall a : Q,
  (fold_left Qplus l a == a + fold_right Qplus 0 l)%Q.
Proof.
  induction l as [|x l IH]; intros a; simpl.
  - ring.
  - rewrite IH. ring.
Qed.

Lemma sum_fold_right (l : list Q) : (Py.sum l == fold_right Qplus 0 l)%Q.
Proof. unfold Py.sum. rewrite fold_left_Qplus. ring. Qed.

Lemma sum_bounds (l : list Q) :
  Forall (fun q => 0 <= q <= 1)%Q l ->
  (0 <= Py.sum l <= inject_Z (Z.of_nat (length l)))%Q.
Proof.
  intros H. rewrite sum_fold_right. induction H as [|q l [H0 H1] _ [IH0 IH1]]; simpl.
  - split; apply Qle_refl.
  - rewrite Nat2Z.inj_succ, <- Z.add_1_r, inject_Z_plus. split.
    + replace 0%Q with (0 + 0)%Q by reflexivity. apply Qplus_le_compat; assumption.
    + rewrite Qplus_comm. apply Qplus_le_compat; assumption.
Qed.

Lemma lower_ascii_idem (c : ascii) : Py.lower_ascii (Py.lower_ascii c) = Py.lower_ascii c.
Proof. destruct c as [[] [] [] [] [] [] [] []]; reflexivity. Qed.

Lemma lower_idem (s : string) : Py.lower (Py.lower s) = Py.lower s.
Proof.
  induction s as [|c s IH]; simpl; [reflexivity|]. by rewrite lower_ascii_idem, IH.
Qed.

Lemma endswith_spec (s suf : string) :
  Py.endswith s suf = true <-> exists pre, s = (pre ++ suf)%string.
Proof.
  induction s as [|c s IH]; cbn [Py.endswith].
  - rewrite orb_false_r, String.eqb_eq. split.
    + intros <-. exists "". reflexivity.
    + intros [pre H]. destruct pre; simpl in H; [done|discriminate].
  - rewrite orb_true_iff, String.eqb_eq, IH. split.
    + intros [<-|[pre ->]]; [exists ""; reflexivity|].
      exists (String c pre). reflexivity.
    + intros [[|c' pre] H]; simpl in H; [left; done|].
      injection H as -> ->. right. eauto.
Qed.

Lemma deque_append_ends_with {A} (w : nat) (l tail : list A) (x : A) :
  ends_with l tail -> (length tail < w)%nat ->
  ends_with (Py.deque_append w l x) (tail ++ [x]).
Proof.
  intros [pre ->] Hw. unfold Py.deque_append.
  rewrite <- app_assoc.
  exists (drop (length (pre ++ tail ++ [x]) - w) pre).
  rewrite drop_app_le; [reflexivity|].
  rewrite !length_app. simpl. lia.
Qed.

Lemma last_n_ends_with {A} (l tail : list A) :
  ends_with l tail -> Py.last_n (length tail) l = tail.
Proof.
  intros [pre ->]. unfold Py.last_n. rewrite length_app.
  replace (length pre + length tail - length tail)%nat with (length pre) by lia.
  by rewrite drop_app_length.
Qed.

Lemma ends_with_length {A} (l tail : list A) :
  ends_with l tail -> (length tail <= length l)%nat.
Proof. intros [pre ->]. rewrite length_app. lia. Qed.

Lemma ends_with_nil {A} (l : list A) : ends_with l [].
Proof. exists l. by rewrite app_nil_r. Qed.

Lemma ends_with_snoc {A} (l tail : list A) (x : A) :
  ends_with (l ++ [x]) tail ->
  tail = [] \/ exists tail', tail = tail' ++ [x] /\ ends_with l tail'.
Proof.
  intros [pre H]. revert H.
  induction tail as [|y ys _] using rev_ind; intros H; [left; reflexivity|].
  right. rewrite app_assoc in H. apply app_inj_tail in H as [-> ->].
  exists ys. split; [reflexivity|]. exists pre. reflexivity.
Qed.

(** * The core: callbacks, escalation and aggregation *)

Section CoreFacts.
Context {W : Type}.
Implicit Types (s : Core.SHIELDCore W) (env : Core.Env W).

Lemma collect_calls layer cbs : forall idx env action,
  Core.calls (Core.collect layer cbs idx env action).1
  = Core.calls env ++ entries layer idx (length cbs).
Proof.
  induction cbs as [|cb rest IH]; intros idx env action; simpl.
  - by rewrite app_nil_r.
  - unfold Core.run_callback.
    destruct (cb (Core.world env) (Core.OfAction action)) as [w out].
    specialize (IH (S idx)
                  {| Core.world := w; Core.calls := Core.calls env ++ [(layer, idx)] |}
                  action).
    destruct (Core.collect layer rest (S idx) _ action) as [env2 assessments].
    simpl in *. rewrite IH. simpl. by rewrite <- app_assoc.
Qed.

(** A layer run appends one entry per callback of that layer, and
    nothing else, to the log. *)
Lemma run_layer_calls s layer env action :
  Core.calls (Core._run_layer_callbacks s layer env action).1
  = Core.calls env
    ++ entries layer 0 (length (Core.callbacks_of (Core.layer_callbacks s) layer)).
Proof.
  unfold Core._run_layer_callbacks.
  pose proof (collect_calls layer (Core.callbacks_of (Core.layer_callbacks s) layer)
                0 env action) as H.
  destruct (Core.collect _ _ _ _ _) as [env1 assessments]. exact H.
Qed.

Lemma entries_other layer layer' idx n :
  layer <> layer' ->
  filter (fun c : Core.Layer * nat => bool_decide (c.1 = layer')) (entries layer idx n) = [].
Proof.
  intros Hne. unfold entries. induction (seq idx n) as [|i l IH]; simpl; [done|].
  rewrite filter_cons. simpl. rewrite bool_decide_eq_false_2 by done. simpl. exact IH.
Qed.

Lemma run_layer_other_count s layer layer' env action :
  layer <> layer' ->
  Core.call_count layer' (Core._run_layer_callbacks s layer env action).1
  = Core.call_count layer' env.
Proof.
  intros Hne. unfold Core.call_count. rewrite run_layer_calls, filter_app, length_app.
  rewrite entries_other by done. simpl. lia.
Qed.

Lemma severe_iff (a : ThreatAssessment) :
  (level_value DANGEROUS <=? severity a)
  = bool_decide (threat_level a = DANGEROUS \/ threat_level a = CRITICAL).
Proof. unfold severity. destruct (threat_level a); reflexivity. Qed.

(** [_aggregate_assessments] against the description: most severe
    level and action, reasons concatenated, confidences averaged. *)
Lemma aggregate_spec (results : list (option ThreatAssessment)) :
  let final := Core._aggregate_assessments results in
  let contributing := omap id results in
  match contributing with
  | [] => final = Core.no_threat
  | _ =>
      (exists m, most_severe_of m contributing
                 /\ threat_level final = threat_level m
                 /\ recommended_action final = recommended_action m)
      /\ reasons final = concat (map reasons contributing)
      /\ (confidence final * inject_Z (Z.of_nat (length contributing))
          == fold_right Qplus 0 (map confidence contributing))%Q
  end.
Proof.
  simpl. unfold Core._aggregate_assessments.
  destruct (omap id results) as [|a rest] eqn:E; [done|].
  split; [|split].
  - exists (Py.max_by severity a rest). split; [|done].
    split; [apply max_by_in|apply max_by_upper].
  - done.
  - cbn [confidence]. rewrite sum_fold_right.
    field. intros H. unfold Qeq in H. cbn [Qnum Qden inject_Z length] in H. lia.
Qed.

(** The mean of confidences within [0,1] stays within [0,1]. *)
Lemma aggregate_confidence_bounded (results : list (option ThreatAssessment)) :
  Forall (fun a => 0 <= confidence a <= 1)%Q (omap id results) ->
  (0 <= confidence (Core._aggregate_assessments results) <= 1)%Q.
Proof.
  intros H. unfold Core._aggregate_assessments.
  destruct (omap id results) as [|a rest] eqn:E.
  - cbn. split; [unfold Qle; cbn; lia|apply Qle_refl].
  - cbn [confidence].
    assert (0 < inject_Z (Z.of_nat (length (a :: rest))))%Q as Hpos
      by (unfold Qlt; cbn; lia).
    destruct (sum_bounds (map confidence (a :: rest))) as [H0 H1].
    { apply Forall_map. exact H. }
    rewrite length_map in H1. split.
    + apply Qle_shift_div_l; [exact Hpos|]. rewrite Qmult_0_l. exact H0.
    + apply Qle_shift_div_r; [exact Hpos|]. rewrite Qmult_1_l. exact H1.
Qed.

Lemma process_action_final s env (action : AIAction) :
  (Core.process_action s env action).2
  = match layer_results s env action with
    | [Some p] => p
    | results => Core._aggregate_assessments results
    end.
Proof.
  unfold Core.process_action, layer_results.
  destruct (Core._run_layer_callbacks s Core.perimeter env action) as [env1 p].
  destruct p as [p|]; simpl.
  - rewrite severe_iff. destruct (bool_decide _); [reflexivity|].
    destruct (Core._run_layer_callbacks s Core.heuristics env1 action) as [env2 h].
    destruct (Core._should_escalate_to_oracle s action (Some p) h).
    + destruct (Core._run_layer_callbacks s Core.oracle env2 action) as [env3 o].
      reflexivity.
    + destruct h; reflexivity.
  - destruct (Core._run_layer_callbacks s Core.heuristics env1 action) as [env2 h].
    destruct (Core._should_escalate_to_oracle s action None h).
    + destruct (Core._run_layer_callbacks s Core.oracle env2 action) as [env3 o].
      reflexivity.
    + destruct h; reflexivity.
Qed.

(** C3.  When the perimeter and the heuristics layer both return no
    assessment, [always_analyze] is false and the action's type is not
    among the critical types, [process_action] ends in the state the
    heuristics run left and has invoked no callback of the oracle
    layer: the oracle call count is what it was before the call. *)
Theorem oracle_not_invoked s env env1 env2 (action : AIAction) :
  Core._run_layer_callbacks s Core.perimeter env action = (env1, None) ->
  Core._run_layer_callbacks s Core.heuristics env1 action = (env2, None) ->
  Core.oracle_get s Core.always_analyze false = false ->
  type_value (action_type action) ∉ Core.oracle_get s Core.critical_action_types [] ->
  (Core.process_action s env action).1.1 = env2
  /\ Core.call_count Core.oracle env2 = Core.call_count Core.oracle env.
Proof.
  intros Hp Hh Halways Hcritical. split.
  - unfold Core.process_action. rewrite Hp, Hh.
    unfold Core._should_escalate_to_oracle. rewrite Halways.
    rewrite bool_decide_eq_false_2 by exact Hcritical. reflexivity.
  - replace env2 with (Core._run_layer_callbacks s Core.heuristics env1 action).1
      by (rewrite Hh; reflexivity).
    rewrite run_layer_other_count by discriminate.
    replace env1 with (Core._run_layer_callbacks s Core.perimeter env action).1
      by (rewrite Hp; reflexivity).
    apply run_layer_other_count. discriminate.
Qed.

(** C5.  The assessment [process_action] returns has the threat level
    and the recommended action of a most severe result among the layers
    that contributed, its reasons are their reasons concatenated in
    layer order (perimeter, heuristics, oracle), and its confidence is
    their arithmetic mean (confidence times their number is the sum of
    their confidences); when no layer returned an assessment it is SAFE
    with recommended action ALLOW. *)
Theorem process_action_aggregates s env (action : AIAction) :
  let final := (Core.process_action s env action).2 in
  let contributing := omap id (layer_results s env action) in
  match contributing with
  | [] => threat_level final = SAFE /\ recommended_action final = ALLOW
  | _ =>
      (exists m, most_severe_of m contributing
                 /\ threat_level final = threat_level m
                 /\ recommended_action final = recommended_action m)
      /\ reasons final = concat (map reasons contributing)
      /\ (confidence final * inject_Z (Z.of_nat (length contributing))
          == fold_right Qplus 0 (map confidence contributing))%Q
  end.
Proof.
  cbv zeta. rewrite process_action_final.
  destruct (layer_results s env action) as [|[p|] [|r rs]] eqn:E.
  - split; reflexivity.
  - simpl. split; [|split].
    + exists p. split; [|done]. split; [apply list_elem_of_singleton; reflexivity|].
      intros a Ha. apply list_elem_of_singleton in Ha. subst. lia.
    + by rewrite app_nil_r.
    + ring.
  - pose proof (aggregate_spec (Some p :: r :: rs)) as H. cbv zeta in H.
    destruct (omap id (Some p :: r :: rs)) as [|x xs] eqn:E2; [discriminate|].
    exact H.
  - split; reflexivity.
  - pose proof (aggregate_spec (None :: r :: rs)) as H. cbv zeta in H.
    destruct (omap id (None :: r :: rs)) as [|x xs] eqn:E2.
    + rewrite H. split; reflexivity.
    + exact H.
Qed.

(** C6.  When the perimeter layer's result is DANGEROUS or CRITICAL,
    [process_action] returns that very assessment, leaves the object
    state as it was and stops after the perimeter run: no callback of
    the heuristics layer and none of the oracle layer is invoked. *)
Theorem perimeter_short_circuit s env env1 (action : AIAction) (p : ThreatAssessment) :
  Core._run_layer_callbacks s Core.perimeter env action = (env1, Some p) ->
  threat_level p = DANGEROUS \/ threat_level p = CRITICAL ->
  Core.process_action s env action = (env1, s, p)
  /\ Core.call_count Core.heuristics env1 = Core.call_count Core.heuristics env
  /\ Core.call_count Core.oracle env1 = Core.call_count Core.oracle env.
Proof.
  intros Hrun Hlevel. split; [|split].
  - unfold Core.process_action. rewrite Hrun.
    rewrite severe_iff, bool_decide_eq_true_2 by exact Hlevel. reflexivity.
  - replace env1 with (Core._run_layer_callbacks s Core.perimeter env action).1
      by (rewrite Hrun; reflexivity).
    apply run_layer_other_count. discriminate.
  - replace env1 with (Core._run_layer_callbacks s Core.perimeter env action).1
      by (rewrite Hrun; reflexivity).
    apply run_layer_other_count. discriminate.
Qed.

End CoreFacts.

(** The escalation test of the repository: the oracle callback's
    counter stays untouched. *)
Lemma oracle_not_invoked_witness :
  (Core.process_action quiet_shield env0 (sample_action "a1" "ag" API_CALL)).1.1
  = {| Core.world := 2%nat;
       Core.calls := [(Core.perimeter, 0%nat); (Core.heuristics, 0%nat)] |}
  /\ Core.call_count Core.oracle
       {| Core.world := 2%nat;
          Core.calls := [(Core.perimeter, 0%nat); (Core.heuristics, 0%nat)] |}
     = Core.call_count Core.oracle env0.
Proof.
  apply (oracle_not_invoked quiet_shield env0
           {| Core.world := 1%nat; Core.calls := [(Core.perimeter, 0%nat)] |}).
  - reflexivity.
  - reflexivity.
  - reflexivity.
  - vm_compute. apply not_elem_of_nil.
Defined.

Lemma perimeter_short_circuit_witness :
  Core.process_action alarmed_shield env0 (sample_action "a1" "ag" FILE_OPERATION)
  = ({| Core.world := 1%nat; Core.calls := [(Core.perimeter, 0%nat)] |}, alarmed_shield,
     sample_assessment "a1" CRITICAL 1 KILL "perimeter")
  /\ Core.call_count Core.heuristics
       {| Core.world := 1%nat; Core.calls := [(Core.perimeter, 0%nat)] |}
     = Core.call_count Core.heuristics env0
  /\ Core.call_count Core.oracle
       {| Core.world := 1%nat; Core.calls := [(Core.perimeter, 0%nat)] |}
     = Core.call_count Core.oracle env0.
Proof.
  apply (perimeter_short_circuit alarmed_shield env0).
  - reflexivity.
  - right. reflexivity.
Defined.

(** Three layers contribute: the most severe decides, the reasons are
    listed in layer order and the confidences are averaged. *)
Example aggregation_of_three :
  Core._aggregate_assessments
    [Some (sample_assessment "a1" SUSPICIOUS 0.8 THROTTLE "perimeter");
     Some (sample_assessment "a1" CONCERNING 0.6 SANDBOX "heuristics");
     Some (sample_assessment "a1" CONCERNING 0.7 REQUIRE_APPROVAL "oracle")]
  = {| ta_action_id := "a1"; threat_level := CONCERNING;
       confidence := ((0 + 0.8 + 0.6 + 0.7) / 3)%Q;
       reasons := [Text "perimeter"; Text "heuristics"; Text "oracle"];
       recommended_action := SANDBOX; analysis_layer := "aggregate" |}.
Proof. reflexivity. Qed.

(** * The core: attribution of the synthesized assessment *)

Section Attribution.
Context {W : Type}.
Implicit Types (s : Core.SHIELDCore W) (env : Core.Env W).

Lemma agent_threats_elem s (agent : string) (t : ThreatAssessment) :
  t ∈ Core.agent_threats s agent
  <-> t ∈ Core.threat_history s
      /\ exists a, a ∈ Core.action_history s /\ agent_id a = agent
                   /\ action_id a = ta_action_id t.
Proof.
  unfold Core.agent_threats. rewrite list_elem_of_filter.
  rewrite existsb_exists. split.
  - intros [(a & Hin & Hb) Ht]. split; [done|].
    apply andb_prop in Hb as [H1 H2].
    apply String.eqb_eq in H1. apply String.eqb_eq in H2.
    exists a. split; [|done].
    apply list_elem_of_In in Hin. unfold Core.agent_actions in Hin.
    apply list_elem_of_filter in Hin. tauto.
  - intros [Ht (a & Hin & Hag & Hid)]. split; [|done].
    exists a. split.
    + apply list_elem_of_In. unfold Core.agent_actions. apply list_elem_of_filter. done.
    + rewrite Hid, Hag, !String.eqb_refl. reflexivity.
Qed.

Lemma unknown_id_spec s (agent : string) :
  existsb (fun a => String.eqb (action_id a) "unknown" && String.eqb (agent_id a) agent)
          (Core.agent_actions s agent) = true
  <-> uses_unknown_id s agent.
Proof.
  rewrite existsb_exists. unfold uses_unknown_id. split.
  - intros (a & Hin & Hb). apply andb_prop in Hb as [H1 H2].
    apply String.eqb_eq in H1. apply String.eqb_eq in H2.
    apply list_elem_of_In in Hin. unfold Core.agent_actions in Hin.
    apply list_elem_of_filter in Hin. exists a. tauto.
  - intros (a & Hin & Hag & Hid). exists a. split.
    + apply list_elem_of_In. unfold Core.agent_actions. apply list_elem_of_filter. done.
    + rewrite Hid, Hag, !String.eqb_refl. reflexivity.
Qed.

Lemma agent_threats_snoc s (agent : string) (t : ThreatAssessment) :
  Core.agent_threats (Core.set_threat_history (Core.threat_history s ++ [t]) s) agent
  = Core.agent_threats s agent
    ++ (if existsb (fun a => String.eqb (action_id a) (ta_action_id t)
                             && String.eqb (agent_id a) agent)
                   (Core.agent_actions s agent)
        then [t] else []).
Proof.
  unfold Core.agent_threats. cbn [Core.threat_history Core.set_threat_history].
  rewrite filter_app. f_equal.
  change (Core.agent_actions (Core.set_threat_history _ s) agent)
    with (Core.agent_actions s agent).
  destruct (existsb _ (Core.agent_actions s agent)) eqn:E.
  - rewrite filter_cons_True by exact E. reflexivity.
  - rewrite filter_cons_False by (rewrite E; discriminate). reflexivity.
Qed.

Lemma last_n_snoc_elem {A} (n : nat) (l : list A) (x : A) :
  (0 < n)%nat -> x ∈ Py.last_n n (l ++ [x]).
Proof.
  intros Hn. unfold Py.last_n. rewrite length_app. cbn [length].
  rewrite drop_app_le by lia. apply elem_of_app. right. apply list_elem_of_singleton.
  reflexivity.
Qed.

(** C10, as amended.  When no consulted layer returns an assessment,
    the assessment [process_action] synthesizes carries the literal
    action id "unknown" whatever the processed action's id is, and is
    appended to [threat_history].  [get_agent_report] returns [None]
    for an agent that is not registered, before and after.  For a
    registered agent the report lists and counts the synthesized
    assessment exactly when that agent has an action whose id is
    literally "unknown" on record: then the report's
    [threats_detected] grows by one, and otherwise the report is the
    one from before. *)
Theorem unknown_assessment_attribution s env (action : AIAction) :
  omap id (layer_results s env action) = [] ->
  let s' := (Core.process_action s env action).1.2 in
  let final := (Core.process_action s env action).2 in
  final = Core.no_threat
  /\ ta_action_id final = "unknown"
  /\ Core.threat_history s' = Core.threat_history s ++ [final]
  /\ forall agent,
       match Core.get_agent_report s agent, Core.get_agent_report s' agent with
       | None, None => Core.monitored_agents s !! agent = None
       | Some before, Some after =>
           (final ∈ Core.recent_threats after <-> uses_unknown_id s agent)
           /\ (uses_unknown_id s agent ->
               Core.report_threats_detected after
               = S (Core.report_threats_detected before))
           /\ (~ uses_unknown_id s agent -> after = before)
       | _, _ => False
       end.
Proof.
  intros Hnone. cbv zeta.
  assert (Core.process_action s env action
          = ((Core.process_action s env action).1.1,
             Core.set_threat_history (Core.threat_history s ++ [Core.no_threat]) s,
             Core.no_threat)) as Heq.
  { revert Hnone. unfold layer_results, Core.process_action.
    destruct (Core._run_layer_callbacks s Core.perimeter env action) as [env1 [p|]];
      simpl.
    { rewrite severe_iff. destruct (bool_decide _); [discriminate|].
      destruct (Core._run_layer_callbacks s Core.heuristics env1 action) as [env2 h].
      destruct (Core._should_escalate_to_oracle s action (Some p) h); discriminate. }
    destruct (Core._run_layer_callbacks s Core.heuristics env1 action) as [env2 [h|]].
    { destruct (Core._should_escalate_to_oracle s action None (Some h)); discriminate. }
    destruct (Core._should_escalate_to_oracle s action None None).
    - destruct (Core._run_layer_callbacks s Core.oracle env2 action) as [env3 [o|]];
        [discriminate|]. reflexivity.
    - reflexivity. }
  rewrite Heq. cbn [fst snd]. split; [done|]. split; [done|]. split; [done|].
  intros agent. unfold Core.get_agent_report.
  cbn [Core.monitored_agents Core.set_threat_history].
  destruct (Core.monitored_agents s !! agent) as [record|]; [|reflexivity].
  rewrite agent_threats_snoc.
  change (Core.agent_actions (Core.set_threat_history _ s) agent)
    with (Core.agent_actions s agent).
  cbn [Core.recent_threats Core.report_threats_detected ta_action_id Core.no_threat].
  pose proof (unknown_id_spec s agent) as Hspec.
  destruct (existsb _ (Core.agent_actions s agent)).
  - assert (uses_unknown_id s agent) as Hu by (apply Hspec; reflexivity).
    split; [|split].
    + split; [intros _; exact Hu|intros _]. apply last_n_snoc_elem. lia.
    + intros _. rewrite length_app. cbn [length]. lia.
    + intros Hno. destruct (Hno Hu).
  - assert (~ uses_unknown_id s agent) as Hu by (intros H; apply Hspec in H; discriminate).
    rewrite app_nil_r. split; [|split].
    + split; [|intros H; destruct (Hu H)].
      intros Hin. unfold Py.last_n in Hin. apply subseteq_drop in Hin.
      apply agent_threats_elem in Hin as [_ (a & Ha & Hag & Hid)]. exists a. done.
    + intros H. destruct (Hu H).
    + intros _. reflexivity.
Qed.
End Attribution.

Lemma unknown_assessment_attribution_witness :
  let s' := (Core.process_action unknown_shield empty_env
               (sample_action "a2" "other" API_CALL)).1.2 in
  let final := (Core.process_action unknown_shield empty_env
               (sample_action "a2" "other" API_CALL)).2 in
  final = Core.no_threat
  /\ ta_action_id final = "unknown"
  /\ Core.threat_history s' = Core.threat_history unknown_shield ++ [final]
  /\ forall agent,
       match Core.get_agent_report unknown_shield agent, Core.get_agent_report s' agent with
       | None, None => Core.monitored_agents unknown_shield !! agent = None
       | Some before, Some after =>
           (final ∈ Core.recent_threats after <-> uses_unknown_id unknown_shield agent)
           /\ (uses_unknown_id unknown_shield agent ->
               Core.report_threats_detected after
               = S (Core.report_threats_detected before))
           /\ (~ uses_unknown_id unknown_shield agent -> after = before)
       | _, _ => False
       end.
Proof.
  apply (unknown_assessment_attribution unknown_shield empty_env). reflexivity.
Defined.

(** C10 as stated fails: agent "ag" has an action with id "unknown" on
    record; the assessment synthesized for another agent's action is
    then counted among the threats of "ag" by [get_agent_report]. *)
Lemma unknown_assessment_counterexample :
  let s' := (Core.process_action unknown_shield empty_env
               (sample_action "a2" "other" API_CALL)).1.2 in
  Core.threat_history s' = [Core.no_threat]
  /\ (Core.recent_threats <$> Core.get_agent_report s' "ag") = Some [Core.no_threat]
  /\ (Core.report_threats_detected <$> Core.get_agent_report s' "ag") = Some 1%nat.
Proof. vm_compute. repeat split. Qed.

(** * The core: enforcement and the agent life cycle *)

Section Enforcement.
Context {W : Type}.
Implicit Types (s : Core.SHIELDCore W) (env : Core.Env W).

(** A kill blocks the agent and starts no timer. *)
Lemma kill_blocks s (agent : string) :
  agent ∈ Core.blocked_agents (Core._kill_agent s agent)
  /\ Core.timers (Core._kill_agent s agent) = Core.timers s.
Proof.
  unfold Core._kill_agent. simpl. split; [|reflexivity].
  apply elem_of_union_l, elem_of_singleton. reflexivity.
Qed.

(** A submission of a blocked agent changes nothing. *)
Lemma submit_blocked s (action : AIAction) :
  agent_id action ∈ Core.blocked_agents s ->
  Core.submit_action s action = (s, "BLOCKED").
Proof.
  intros H. unfold Core.submit_action. by rewrite bool_decide_eq_true_2.
Qed.

(** A kill enforced on the most recent action with the assessment's id
    blocks that action's agent. *)
Lemma enforce_kill_blocks s env (t : ThreatAssessment) (a : AIAction) :
  recommended_action t = KILL ->
  Core.originating_action s t = Some a ->
  (Core.enforce_action s env t).2 = Py.Ok false ->
  agent_id a ∈ Core.blocked_agents (Core.enforce_action s env t).1.2.
Proof.
  intros Hkill Horigin. unfold Core.enforce_action. rewrite Hkill, Horigin.
  destruct (Core.notify _ _ _ _) as [env1 [[]|e]]; [|discriminate].
  intros _. apply kill_blocks.
Qed.

(** Only the release callback ever removes an agent from the blocked
    set: submissions and processing leave the set alone, enforcement
    can only add to it. *)
Lemma submit_keeps_blocked s (action : AIAction) :
  Core.blocked_agents (Core.submit_action s action).1 = Core.blocked_agents s.
Proof. unfold Core.submit_action. case_bool_decide; reflexivity. Qed.

Lemma process_keeps_blocked s env (action : AIAction) :
  Core.blocked_agents (Core.process_action s env action).1.2 = Core.blocked_agents s.
Proof.
  unfold Core.process_action.
  destruct (Core._run_layer_callbacks s Core.perimeter env action) as [env1 p].
  destruct (match p with Some _ => _ | None => _ end); [reflexivity|].
  destruct (Core._run_layer_callbacks s Core.heuristics env1 action) as [env2 h].
  destruct (if Core._should_escalate_to_oracle s action p h then _ else _) as [env3 o].
  cbn [fst snd]. destruct (_ <=? _); reflexivity.
Qed.

Lemma enforce_keeps_blocked s env (t : ThreatAssessment) :
  Core.blocked_agents s ⊆ Core.blocked_agents (Core.enforce_action s env t).1.2.
Proof.
  unfold Core.enforce_action.
  destruct (Core.notify _ _ _ _) as [env1 [[]|e]]; [|reflexivity].
  destruct (recommended_action t); try reflexivity.
  - destruct (Core.originating_action s t) as [a|]; [|reflexivity].
    unfold Core._quarantine_agent.
    destruct (Core.cfg_enforcement _) as [[[d|]]|]; cbn; apply union_subseteq_r.
  - destruct (Core.originating_action s t) as [a|]; [|reflexivity].
    cbn. apply union_subseteq_r.
Qed.

(** The release callback unblocks the agent whatever its status is. *)
Lemma release_unblocks s (agent : string) :
  agent ∉ Core.blocked_agents (Core._release_quarantine s agent).
Proof.
  unfold Core._release_quarantine. case_bool_decide as Hin; simpl; [|exact Hin].
  intros H. apply elem_of_difference in H as [_ H]. apply H, elem_of_singleton. reflexivity.
Qed.

(** Quarantine, kill, release, on any state in which the agent is
    monitored: the agent ends up unblocked and active. *)
Lemma release_after_kill s (agent : string) (r : Core.AgentRecord) :
  Core.monitored_agents s !! agent = Some r ->
  let s' :=
    Core._release_quarantine
      (Core._kill_agent (Core._quarantine_agent s agent).1 agent) agent in
  (agent ∉ Core.blocked_agents s') /\ status_of s' agent = Some "active".
Proof.
  intros Hr. cbv zeta. split; [apply release_unblocks|].
  unfold Core._release_quarantine. rewrite bool_decide_eq_true_2 by apply kill_blocks.
  unfold status_of. cbn. rewrite lookup_alter_eq.
  unfold Core._quarantine_agent.
  destruct (Core.cfg_enforcement _) as [[[d|]]|]; cbn;
    rewrite !lookup_alter_eq, Hr; reflexivity.
Qed.

End Enforcement.

(** C1.  The code at the failing input: agent "ag" is quarantined (the
    release timer is started), then killed (blocked, status "killed",
    the timer still pending); when the timer expires the release
    callback removes the agent from the blocked set and sets its status
    to "active". *)
Theorem release_after_kill_reactivates :
  Core.timers quarantined = [(3600%Q, "ag")]
  /\ Core.blocked_agents killed = {["ag"]}
  /\ status_of killed "ag" = Some "killed"
  /\ Core.timers killed = [(3600%Q, "ag")]
  /\ Core.blocked_agents released = ∅
  /\ status_of released "ag" = Some "active".
Proof. vm_compute. repeat split. Qed.

(** C4.  The code at the failing input: the KILL is enforced on the
    agent of action "a2" and returns [False]; the agent is blocked and a
    submission is rejected; once the timer of the earlier quarantine
    has expired a submission of the killed agent is accepted, appended
    to the history and counted. *)
Theorem killed_agent_accepted_after_release :
  (Core.enforce_action quarantined empty_env
     (sample_assessment "a2" CRITICAL 1 KILL "perimeter")).2 = Py.Ok false
  /\ "ag" ∈ Core.blocked_agents killed
  /\ Core.submit_action killed (sample_action "a3" "ag" API_CALL) = (killed, "BLOCKED")
  /\ (Core.submit_action released (sample_action "a3" "ag" API_CALL)).2 = "a3"
  /\ Core.action_history (Core.submit_action released (sample_action "a3" "ag" API_CALL)).1
     = Core.action_history released ++ [sample_action "a3" "ag" API_CALL]
  /\ Core.total_actions
       (Core.metrics (Core.submit_action released (sample_action "a3" "ag" API_CALL)).1)
     = S (Core.total_actions (Core.metrics released)).
Proof.
  assert ("ag" ∈ Core.blocked_agents killed) as Hblocked
    by (apply (bool_decide_unpack _); vm_compute; exact I).
  split; [reflexivity|]. split; [exact Hblocked|].
  split; [apply submit_blocked; exact Hblocked|].
  vm_compute. repeat split.
Qed.

(** * The perimeter: blocked domains *)

(** [_domain_matches] on a rule of the lower-cased block list. *)
Lemma domain_matches_spec (domain rule : string) :
  Perimeter._domain_matches domain (Py.lower rule) = true
  <-> at_or_below domain (rule_domain rule).
Proof.
  unfold Perimeter._domain_matches, at_or_below, rule_domain. rewrite lower_idem.
  destruct (String.eqb_spec domain
              (Py.rstrip ["."%char] (Py.lstrip ["*"%char; "."%char] (Py.lower rule))))
    as [Heq|Hne].
  - split; [left; exact Heq|reflexivity].
  - rewrite endswith_spec. split; [intros H; right; exact H|intros [H|H]; [done|exact H]].
Qed.

Section PerimeterFacts.
Variable urlparse : string -> Py.result Perimeter.ParseResult.
Implicit Types (self : Perimeter.PerimeterDefense) (action : AIAction).

Lemma network_blocked self action (url domain : string) :
  action_type action = NETWORK_REQUEST ->
  url_of action = Py.JStr url ->
  Perimeter._extract_domain urlparse url = Py.Ok domain ->
  (exists rule, rule ∈ blocked_rules self /\ at_or_below domain (rule_domain rule)) ->
  exists t,
    Perimeter._check_network_access urlparse self action = (self, Py.Ok (Some t))
    /\ threat_level t = DANGEROUS /\ recommended_action t = BLOCK.
Proof.
  intros Hty Hurl Hdom (rule & Hin & Hmatch).
  unfold Perimeter._check_network_access. rewrite Hty.
  unfold url_of in Hurl. rewrite Hurl. cbn [Perimeter.as_str mbind result_bind Py.bind].
  rewrite Hdom. cbn [mret result_ret mbind result_bind Py.bind].
  fold (blocked_rules self).
  destruct (find (Perimeter._domain_matches domain) (map Py.lower (blocked_rules self)))
    as [found|] eqn:E.
  - eexists. split; [reflexivity|]. split; reflexivity.
  - exfalso. eapply find_none in E.
    + apply domain_matches_spec in Hmatch. rewrite Hmatch in E. discriminate.
    + apply in_map. apply list_elem_of_In. exact Hin.
Qed.

Lemma network_clear self action (url domain : string) :
  action_type action = NETWORK_REQUEST ->
  url_of action = Py.JStr url ->
  Perimeter._extract_domain urlparse url = Py.Ok domain ->
  (forall rule, rule ∈ blocked_rules self -> ~ at_or_below domain (rule_domain rule)) ->
  (allowed_rules self = []
   \/ exists rule, rule ∈ allowed_rules self /\ at_or_below domain (rule_domain rule)) ->
  (forall pattern, pattern ∈ Perimeter.suspicious_patterns ->
                   Py.contains pattern (Py.lower url) = false) ->
  Perimeter._check_network_access urlparse self action = (self, Py.Ok None).
Proof.
  intros Hty Hurl Hdom Hblocked Hallowed Hpatterns.
  unfold Perimeter._check_network_access. rewrite Hty.
  unfold url_of in Hurl. rewrite Hurl. cbn [Perimeter.as_str mbind result_bind Py.bind].
  rewrite Hdom. cbn [mret result_ret mbind result_bind Py.bind].
  fold (blocked_rules self). fold (allowed_rules self).
  destruct (find (Perimeter._domain_matches domain) (map Py.lower (blocked_rules self)))
    as [found|] eqn:E.
  { apply find_some in E as [Hin Hm]. apply in_map_iff in Hin as (rule & <- & Hin).
    apply domain_matches_spec in Hm. apply list_elem_of_In in Hin.
    exfalso. exact (Hblocked rule Hin Hm). }
  assert ((match map Py.lower (allowed_rules self) with [] => false | _ => true end
           && negb (existsb (Perimeter._domain_matches domain)
                            (map Py.lower (allowed_rules self)))) = false) as ->.
  { destruct Hallowed as [->|(rule & Hin & Hm)]; [reflexivity|].
    apply andb_false_iff. right. apply negb_false_iff. apply existsb_exists.
    exists (Py.lower rule). split.
    - apply in_map. apply list_elem_of_In. exact Hin.
    - apply domain_matches_spec. exact Hm. }
  destruct (find (fun pattern => Py.contains pattern (Py.lower url))
                 Perimeter.suspicious_patterns) as [pattern|] eqn:E2; [|reflexivity].
  apply find_some in E2 as [Hin Hc]. apply list_elem_of_In in Hin.
  rewrite (Hpatterns pattern Hin) in Hc. discriminate.
Qed.

(** While the memory limit holds the resource check returns, and with
    nothing above CONCERNING. *)
Lemma resource_check_cases self action :
  memory_within_limit self ->
  Perimeter._check_resource_limits self action = Py.Ok None
  \/ exists t, Perimeter._check_resource_limits self action = Py.Ok (Some t)
               /\ threat_level t = CONCERNING.
Proof.
  intros Hmem. unfold Perimeter._check_resource_limits.
  assert (Py.Qgtb (Perimeter._get_agent_memory_usage (agent_id action))
            (Perimeter.config_get (Perimeter.max_memory_mb (Perimeter.config self)) 1024%Q)
          = false) as ->.
  { unfold Py.Qgtb. apply negb_false_iff. apply Qle_bool_iff. exact Hmem. }
  cbv zeta.
  destruct (Py.Qgtb _ _); [right|left]; [eexists; split; reflexivity|reflexivity].
Qed.

Lemma analyze_blocked self (now : Q) action (url domain : string) :
  action_type action = NETWORK_REQUEST ->
  url_of action = Py.JStr url ->
  Perimeter._extract_domain urlparse url = Py.Ok domain ->
  (exists rule, rule ∈ blocked_rules self /\ at_or_below domain (rule_domain rule)) ->
  memory_within_limit self ->
  exists t,
    (Perimeter.analyze urlparse self now action).2 = Py.Ok (Some t)
    /\ threat_level t = DANGEROUS /\ recommended_action t = BLOCK.
Proof.
  intros Hty Hurl Hdom Hrule Hmem.
  destruct (network_blocked self action url domain Hty Hurl Hdom Hrule)
    as (t & Hnet & Hlevel & Hact).
  unfold Perimeter.analyze.
  assert (Perimeter._check_api_rate_limit self now action = (self, None)) as ->
    by (unfold Perimeter._check_api_rate_limit; rewrite Hty; reflexivity).
  rewrite Hnet.
  assert (Perimeter._check_forbidden_patterns action = Py.Ok None) as ->
    by (unfold Perimeter._check_forbidden_patterns; rewrite Hty; reflexivity).
  rewrite Hty.
  destruct (resource_check_cases self action Hmem) as [->|(r & -> & Hr)].
  - exists t. cbn. done.
  - exists t. cbn. unfold severity. rewrite Hr, Hlevel. cbn. done.
Qed.

(** C8, as amended.  For a network request in ASCII (the URL, what
    [urlparse] finds in it and the configured domain rules are ASCII
    text) whose URL is a string that [urlparse] accepts: if the
    extracted domain is the domain of a configured blocked rule (the
    rule lower-cased, without leading [*] and [.] and without trailing
    dots) or a sub-domain of it, and the resource check completes (the
    configured memory limit is not below the simulated reading), the
    perimeter layer returns a DANGEROUS assessment recommending BLOCK;
    if it is neither for any blocked rule, no allow-list excludes it
    and the URL contains none of the suspicious substrings, the network
    check yields no assessment. *)
Theorem blocked_domain_check self (now : Q) action (url domain : string) :
  action_type action = NETWORK_REQUEST ->
  url_of action = Py.JStr url ->
  ascii_request urlparse self url ->
  Perimeter._extract_domain urlparse url = Py.Ok domain ->
  ((exists rule, rule ∈ blocked_rules self /\ at_or_below domain (rule_domain rule)) ->
   memory_within_limit self ->
   exists t,
     (Perimeter.analyze urlparse self now action).2 = Py.Ok (Some t)
     /\ threat_level t = DANGEROUS /\ recommended_action t = BLOCK)
  /\ ((forall rule, rule ∈ blocked_rules self -> ~ at_or_below domain (rule_domain rule)) ->
      (allowed_rules self = []
       \/ exists rule, rule ∈ allowed_rules self /\ at_or_below domain (rule_domain rule)) ->
      (forall pattern, pattern ∈ Perimeter.suspicious_patterns ->
                       Py.contains pattern (Py.lower url) = false) ->
      Perimeter._check_network_access urlparse self action = (self, Py.Ok None)).
Proof.
  intros Hty Hurl _ Hdom. split.
  - intros Hrule Hmem.
    exact (analyze_blocked self now action url domain Hty Hurl Hdom Hrule Hmem).
  - intros Hb Ha Hp.
    exact (network_clear self action url domain Hty Hurl Hdom Hb Ha Hp).
Qed.

End PerimeterFacts.

(** [ascii_request], from checks that compute. *)
Lemma ascii_request_intro (urlparse : string -> Py.result Perimeter.ParseResult)
    (self : Perimeter.PerimeterDefense) (url : string) :
  ascii_only url = true ->
  (forall parsed, urlparse url = Py.Ok parsed ->
     ascii_only (Perimeter.netloc parsed) && ascii_only (Perimeter.path parsed) = true) ->
  forallb ascii_only (blocked_rules self ++ allowed_rules self) = true ->
  ascii_request urlparse self url.
Proof.
  intros Hurl Hparse Hrules. split; [exact Hurl|]. split.
  - intros parsed H. apply andb_true_iff. exact (Hparse parsed H).
  - intros rule Hin. rewrite forallb_forall in Hrules. apply Hrules.
    apply list_elem_of_In. exact Hin.
Qed.

(** The two cases of [tests/test_perimeter.py]: a sub-domain of the
    blocked root, and the look-alike domain. *)
Lemma blocked_domain_check_witness :
  (exists t,
     (Perimeter.analyze Perimeter.urlparse_plain blocklist_perimeter 0
        (request "https://api.malicious.com/attack")).2 = Py.Ok (Some t)
     /\ threat_level t = DANGEROUS /\ recommended_action t = BLOCK)
  /\ Perimeter._check_network_access Perimeter.urlparse_plain blocklist_perimeter
       (request "https://notmalicious.com/path") = (blocklist_perimeter, Py.Ok None).
Proof.
  split.
  - apply (proj1 (blocked_domain_check Perimeter.urlparse_plain blocklist_perimeter 0
                    (request "https://api.malicious.com/attack")
                    "https://api.malicious.com/attack" "api.malicious.com"
                    eq_refl eq_refl
                    ltac:(apply ascii_request_intro;
                          [reflexivity
                          |intros parsed H; vm_compute in H; injection H as <-; reflexivity
                          |reflexivity])
                    eq_refl)).
    + exists "malicious.com". split; [apply list_elem_of_singleton; reflexivity|].
      right. exists "api". reflexivity.
    + unfold memory_within_limit. cbn. unfold Qle. cbn. lia.
  - apply (proj2 (blocked_domain_check Perimeter.urlparse_plain blocklist_perimeter 0
                    (request "https://notmalicious.com/path")
                    "https://notmalicious.com/path" "notmalicious.com"
                    eq_refl eq_refl
                    ltac:(apply ascii_request_intro;
                          [reflexivity
                          |intros parsed H; vm_compute in H; injection H as <-; reflexivity
                          |reflexivity])
                    eq_refl)).
    + intros rule Hin Hm. apply list_elem_of_singleton in Hin. subst rule.
      apply domain_matches_spec in Hm. vm_compute in Hm. discriminate.
    + left. reflexivity.
    + intros pattern Hin. unfold Perimeter.suspicious_patterns in Hin.
      repeat (apply elem_of_cons in Hin as [->|Hin]; [reflexivity|]).
      apply elem_of_nil in Hin. destruct Hin.
Defined.

(** C8 as stated fails twice.  The look-alike domain [notmalicious.com]
    is neither [malicious.com] nor below it, yet a request to it whose
    URL contains "cmd" gets a CONCERNING assessment from the network
    check.  And with the rule "*x.com" configured, a request whose
    extracted domain is that very string passes the whole layer. *)
Lemma blocked_domain_counterexample :
  ~ at_or_below "notmalicious.com" (rule_domain "malicious.com")
  /\ (Perimeter._check_network_access Perimeter.urlparse_plain blocklist_perimeter
        (request "https://notmalicious.com/cmd")).2
     = Py.Ok (Some {| ta_action_id := "1"; threat_level := CONCERNING;
                      confidence := 0.7%Q;
                      reasons := [Text "URL contém padrão suspeito: cmd"];
                      recommended_action := SANDBOX; analysis_layer := "perimeter" |})
  /\ Perimeter._extract_domain Perimeter.urlparse_plain "https://*x.com/p" = Py.Ok "*x.com"
  /\ (Perimeter.analyze Perimeter.urlparse_plain
        (Perimeter.init (perimeter_config ["*x.com"] None)) 0
        (request "https://*x.com/p")).2 = Py.Ok None.
Proof.
  split; [|vm_compute; repeat split].
  intros Hm. apply domain_matches_spec in Hm. vm_compute in Hm. discriminate.
Qed.

(** The blocked root itself, as in the repository's test. *)
Example blocked_root :
  (Perimeter.analyze Perimeter.urlparse_plain blocklist_perimeter 0
     (request "https://malicious.com/payload")).2
  = Py.Ok (Some {| ta_action_id := "1"; threat_level := DANGEROUS; confidence := 1%Q;
                   reasons := [Text "Acesso a domínio bloqueado: malicious.com (regra: malicious.com)"];
                   recommended_action := BLOCK; analysis_layer := "perimeter" |}).
Proof. vm_compute. reflexivity. Qed.

(** A memory limit below the simulated reading: the resource check
    raises before the network check is reached. *)
Example memory_check_raises :
  (Perimeter.analyze Perimeter.urlparse_plain
     (Perimeter.init (perimeter_config ["malicious.com"] (Some 100%Q))) 0
     (request "https://malicious.com/payload")).2 = Py.Raise Py.TypeError.
Proof. vm_compute. reflexivity. Qed.

(** * The heuristics layer: the pattern catalogue *)

Lemma type_value_self_modification (ty : ActionType) :
  type_value ty = type_value SELF_MODIFICATION -> ty = SELF_MODIFICATION.
Proof. destruct ty; (reflexivity || discriminate). Qed.

Section HeuristicFacts.
Variable param_hash : list (string * Py.json) -> Q.
Variable np_std : list Q -> Q.
Implicit Types (self : Heuristics.HeuristicAnalyzer) (action : AIAction).

(** The first pattern of the catalogue fires on a recorded sequence
    that ends with its three types, at weight 0.9, hence CRITICAL. *)
Lemma pattern_fires self (agent : string) action :
  ends_with (Heuristics.sequence_of self agent) escalation_suffix ->
  exists t, Heuristics._detect_suspicious_patterns self agent action = Some t
            /\ threat_level t = CRITICAL.
Proof.
  intros Hends. unfold Heuristics._detect_suspicious_patterns.
  pose proof (ends_with_length _ _ Hends) as Hlen. simpl in Hlen.
  destruct (Nat.ltb_spec (length (Heuristics.sequence_of self agent)) 3); [lia|].
  unfold Heuristics.suspicious_patterns. cbn [find Heuristics.sequence length].
  destruct (Nat.ltb_spec (length (Heuristics.sequence_of self agent)) 3); [lia|].
  cbn [negb andb].
  rewrite bool_decide_eq_true_2 by (apply (last_n_ends_with _ escalation_suffix Hends)).
  eexists. split; reflexivity.
Qed.

Lemma deviation_preserves self (agent : string) action profile :
  let r :=
    Heuristics._detect_behavioral_deviation param_hash np_std self agent action profile in
  Heuristics.config r.1 = Heuristics.config self
  /\ Heuristics.action_sequences r.1 = Heuristics.action_sequences self.
Proof.
  cbv zeta. unfold Heuristics._detect_behavioral_deviation.
  destruct (negb _); [done|].
  unfold Heuristics._calculate_deviation.
  destruct (_ <? _)%nat; cbn; destruct (Py.Qgtb _ _); done.
Qed.

(** [analyze] keeps the configuration and appends the action's type to
    the agent's window, whatever the detectors do. *)
Lemma analyze_preserves self (now : Q) action :
  let self' := (Heuristics.analyze param_hash np_std self now action).1 in
  Heuristics.config self' = Heuristics.config self
  /\ Heuristics.action_sequences self'
     = <[agent_id action :=
           Py.deque_append (window_of self) (Heuristics.sequence_of self (agent_id action))
                           (type_value (action_type action))]>
         (Heuristics.action_sequences self).
Proof.
  cbv zeta. unfold Heuristics.analyze. cbv zeta.
  match goal with
  | |- context [Heuristics._detect_behavioral_deviation _ _ ?s ?a ?x ?p] =>
      pose proof (deviation_preserves s a x p) as Hdev;
      destruct (Heuristics._detect_behavioral_deviation param_hash np_std s a x p)
        as [self2 dev]
  end.
  cbv zeta in Hdev. cbn [fst] in Hdev. destruct Hdev as [Hc Hs]. cbn in Hc, Hs.
  destruct (Heuristics._detect_suspicious_interactions _ _ _) as [profile1 [interaction|e]].
  - destruct (omap id _) as [|t rest].
    + cbn. rewrite Hc, Hs. done.
    + cbn [fst].
      destruct (_ <=? _);
        destruct (Heuristics.config_get (Heuristics.enable_adaptive_learning _) true);
        cbn; rewrite ?Hc, ?Hs; done.
  - cbn. rewrite Hc, Hs. done.
Qed.

Lemma analyze_detects self (now : Q) action :
  action_type action = SELF_MODIFICATION ->
  ends_with (Py.deque_append (window_of self)
               (Heuristics.sequence_of self (agent_id action))
               (type_value SELF_MODIFICATION))
            escalation_suffix ->
  exists t, (Heuristics.analyze param_hash np_std self now action).2 = Py.Ok (Some t)
            /\ threat_level t = CRITICAL.
Proof.
  intros Hty Hends. unfold Heuristics.analyze. cbv zeta.
  match goal with
  | |- context [Heuristics._detect_suspicious_patterns ?s ?a ?x] =>
      destruct (pattern_fires s a x) as (t & Ht & Hlevel)
  end.
  { unfold Heuristics.sequence_of at 1. cbn [Heuristics.action_sequences].
    rewrite lookup_insert_eq. cbn [default]. rewrite Hty. exact Hends. }
  rewrite Ht.
  destruct (Heuristics._detect_behavioral_deviation _ _ _ _ _ _) as [self2 dev].
  assert (forall p, Heuristics._detect_suspicious_interactions now action p
                    = (p, Py.Ok None)) as Hint
    by (intros p; unfold Heuristics._detect_suspicious_interactions;
        rewrite Hty; reflexivity).
  rewrite Hint.
  change (omap id (Some t :: ?l)) with (t :: omap id l).
  cbn [snd].
  eexists. split; [reflexivity|].
  match goal with
  | |- threat_level (Py.max_by severity t ?rest) = _ =>
      pose proof (max_by_upper severity rest t t ltac:(left)) as Hup;
      set (m := Py.max_by severity t rest) in *;
      unfold severity in Hup; rewrite Hlevel in Hup;
      destruct (threat_level m); cbn in Hup; (reflexivity || lia)
  end.
Qed.

Lemma run_window self trace :
  window_of (run param_hash np_std self trace) = window_of self.
Proof.
  revert self. induction trace as [|e trace IH]; intros self; [reflexivity|].
  change (run param_hash np_std self (e :: trace))
    with (run param_hash np_std (Heuristics.analyze param_hash np_std self e.1 e.2).1 trace).
  rewrite IH. unfold window_of.
  by destruct (analyze_preserves self e.1 e.2) as [-> _].
Qed.

Lemma run_snoc self trace e :
  run param_hash np_std self (trace ++ [e])
  = (Heuristics.analyze param_hash np_std (run param_hash np_std self trace) e.1 e.2).1.
Proof. unfold run. by rewrite fold_left_app. Qed.

(** The window records what the agent submitted: a tail of the
    submitted types that fits the window is a tail of the window. *)
Lemma run_records self (agent : string) trace : forall tail,
  ends_with (submitted_types agent trace) tail ->
  (length tail <= window_of self)%nat ->
  ends_with (Heuristics.sequence_of (run param_hash np_std self trace) agent) tail.
Proof.
  induction trace as [|e trace IH] using rev_ind; intros tail Hends Hlen.
  - destruct Hends as [pre H]. symmetry in H. apply app_eq_nil in H as [_ ->].
    apply ends_with_nil.
  - rewrite run_snoc.
    destruct (analyze_preserves (run param_hash np_std self trace) e.1 e.2) as [_ Hseq].
    unfold Heuristics.sequence_of at 1. rewrite Hseq.
    unfold submitted_types in Hends. rewrite filter_app, map_app in Hends.
    rewrite filter_cons, filter_nil in Hends.
    destruct (decide (agent_id e.2 = agent)) as [Heq|Hne].
    + cbn [map] in Hends. subst agent. rewrite lookup_insert_eq. cbn [default].
      apply ends_with_snoc in Hends as [->|(tail' & -> & Hends)]; [apply ends_with_nil|].
      rewrite length_app in Hlen. cbn in Hlen.
      apply deque_append_ends_with; [|rewrite run_window; lia].
      apply IH; [exact Hends|lia].
    + rewrite lookup_insert_ne by exact Hne. cbn [map] in Hends.
      rewrite app_nil_r in Hends. apply IH; assumption.
Qed.

(** C9, as amended.  When the pattern window holds at least three
    entries ([pattern_window_size >= 3]; the default is 100) and the
    last three action types an agent has submitted are file_operation,
    code_execution, self_modification in that order, [analyze] on the
    third of them returns an assessment whose threat level is at least
    DANGEROUS, whatever the analyzer's earlier state, the other agents'
    actions in between and the outcome of the other detectors. *)
Theorem escalation_pattern_detected self trace (now : Q) action :
  (3 <= window_of self)%nat ->
  ends_with (submitted_types (agent_id action) (trace ++ [(now, action)]))
            escalation_suffix ->
  exists t,
    (Heuristics.analyze param_hash np_std (run param_hash np_std self trace) now action).2
    = Py.Ok (Some t)
    /\ level_value DANGEROUS <= severity t.
Proof.
  intros Hwindow Hends.
  unfold submitted_types in Hends. rewrite filter_app, map_app in Hends.
  rewrite filter_cons, filter_nil in Hends. cbn [snd] in Hends.
  rewrite decide_True in Hends by reflexivity. cbn [map snd] in Hends.
  apply ends_with_snoc in Hends as [Hnil|(tail' & Htail & Hends)]; [discriminate|].
  change escalation_suffix
    with ([type_value FILE_OPERATION; type_value CODE_EXECUTION]
          ++ [type_value SELF_MODIFICATION]) in Htail.
  apply app_inj_tail in Htail as [<- Hty]. symmetry in Hty.
  apply type_value_self_modification in Hty.
  destruct (analyze_detects (run param_hash np_std self trace) now action Hty)
    as (t & Hres & Hlevel).
  - rewrite run_window.
    apply (deque_append_ends_with _ _
             [type_value FILE_OPERATION; type_value CODE_EXECUTION]); [|cbn; lia].
    apply run_records; [exact Hends|cbn; lia].
  - exists t. split; [exact Hres|]. unfold severity. rewrite Hlevel. cbn. lia.
Qed.

End HeuristicFacts.

(** The sequence of [tests/test_heuristics.py] under the default window. *)
Lemma escalation_pattern_detected_witness :
  exists t,
    (Heuristics.analyze no_hash no_std
       (run no_hash no_std (Heuristics.init (heuristics_config None)) first_two)
       2 third).2 = Py.Ok (Some t)
    /\ level_value DANGEROUS <= severity t.
Proof.
  apply (escalation_pattern_detected no_hash no_std
           (Heuristics.init (heuristics_config None)) first_two).
  - cbv. lia.
  - exists []. reflexivity.
Defined.

(** C9 as stated fails: with a window of two entries the same three
    submissions leave the third without any assessment. *)
Lemma escalation_pattern_counterexample :
  submitted_types "ag1" (first_two ++ [(2%Q, third)]) = escalation_suffix
  /\ (Heuristics.analyze no_hash no_std
        (run no_hash no_std (Heuristics.init (heuristics_config (Some 2%nat))) first_two)
        2 third).2 = Py.Ok None.
Proof. split; vm_compute; reflexivity. Qed.

Example default_window_detects :
  (Heuristics.analyze no_hash no_std
     (run no_hash no_std (Heuristics.init (heuristics_config None)) first_two)
     2 third).2
  = Py.Ok (Some {| ta_action_id := "a3"; threat_level := CRITICAL; confidence := 0.9%Q;
                   reasons :=
                     [Text "Padrão suspeito detectado: privilege_escalation";
                      Text "Sequência: file_operation → code_execution → self_modification"];
                   recommended_action := KILL; analysis_layer := "heuristics" |}).
Proof. vm_compute. reflexivity. Qed.

(** The two numeric parameters play no part in that outcome: every
    detector that would use them stops at its guard. *)
Example small_window_misses (param_hash : list (string * Py.json) -> Q)
    (np_std : list Q -> Q) :
  (Heuristics.analyze param_hash np_std
     (run param_hash np_std (Heuristics.init (heuristics_config (Some 2%nat))) first_two)
     2 third).2 = Py.Ok None.
Proof. vm_compute. reflexivity. Qed.

(** * The oracle layer *)

(** [_aggregate_oracle_results] returns [None] only for the empty
    dictionary of analyses. *)
Lemma aggregate_none_only_if_empty (self : Oracle.OracleAnalyzer) (action : AIAction)
    (analyses : Oracle.Analyses) :
  Oracle._aggregate_oracle_results self action analyses = Py.Ok None ->
  Oracle.intent analyses = None /\ Oracle.alignment analyses = None
  /\ Oracle.deception analyses = None.
Proof.
  unfold Oracle._aggregate_oracle_results.
  destruct (Oracle.intent analyses) as [i|], (Oracle.alignment analyses) as [a|],
    (Oracle.deception analyses) as [d|]; try done;
    intros H;
    repeat match type of H with
      | (mbind _ ?r) = _ => destruct r; cbn [mbind result_bind Py.bind] in H
      | _ => discriminate
      end.
Qed.

(** C2.  The code at the failing input: the backend reports a
    confidence of 5 for the intent; [analyze] returns an assessment with
    confidence 5, and the core's mean over that single contributing
    layer is 5 as well, outside [0,1]. *)
Theorem oracle_confidence_out_of_range (key : AIAction -> string) :
  (Oracle.analyze key fresh_oracle 0 overconfident (sample_action "a1" "ag" API_CALL)).2
  = Py.Ok (Some overconfident_assessment)
  /\ ~ (confidence overconfident_assessment <= 1)%Q
  /\ ~ (confidence (Core._aggregate_assessments [None; None; Some overconfident_assessment])
        <= 1)%Q.
Proof.
  split; [|split].
  - unfold Oracle.analyze. cbn [Oracle.enable_caching fresh_oracle Oracle.analysis_cache].
    rewrite lookup_empty. vm_compute. reflexivity.
  - vm_compute. intros H. apply H. reflexivity.
  - vm_compute. intros H. apply H. reflexivity.
Qed.

(** C7.  The code at the failing input: the intent analysis comes back
    empty, the alignment analysis reports an aligned action and the
    deception analysis a probability of 0.1.  Two analyses have yielded
    a result, none has contributed a threat level, and [analyze] raises
    [ValueError] from [max] on the empty list. *)
Theorem oracle_analyze_raises (key : AIAction -> string) :
  Oracle._analyze_goal_alignment (Oracle.alignment_reply reassuring) ≫= Oracle.keep
  = Some (Py.JDict [("is_aligned", Py.JBool true); ("alignment_score", Py.JNum 0.9%Q)])
  /\ Oracle._detect_deception (Oracle.deception_reply reassuring) ≫= Oracle.keep
     = Some (Py.JDict [("deception_probability", Py.JNum 0.1%Q)])
  /\ (Oracle.analyze key fresh_oracle 0 reassuring (sample_action "a1" "ag" API_CALL)).2
     = Py.Raise Py.ValueError.
Proof.
  split; [reflexivity|]. split; [reflexivity|].
  unfold Oracle.analyze. cbn [Oracle.enable_caching fresh_oracle Oracle.analysis_cache].
  rewrite lookup_empty. vm_compute. reflexivity.
Qed.

(** With the backend down for all three prompts nothing is analysed and
    [analyze] returns [None]; a malformed intent completion falls back
    to the rule table. *)
Example backend_down (key : AIAction -> string) :
  (Oracle.analyze key fresh_oracle 0
     {| Oracle.intent_reply := Oracle.Unavailable;
        Oracle.alignment_reply := Oracle.Unavailable;
        Oracle.deception_reply := Oracle.Unavailable |}
     (sample_action "a1" "ag" SELF_MODIFICATION)).2 = Py.Ok None.
Proof.
  unfold Oracle.analyze. cbn [Oracle.enable_caching fresh_oracle Oracle.analysis_cache].
  rewrite lookup_empty. vm_compute. reflexivity.
Qed.

Example rule_table_fallback (key : AIAction -> string) :
  (Oracle.analyze key
     {| Oracle.min_confidence := 0.6%Q; Oracle.enable_caching := false;
        Oracle.cache_ttl_seconds := 3600%Q; Oracle.analysis_cache := ∅;
        Oracle.intent_history := [] |} 0
     {| Oracle.intent_reply := Oracle.Malformed;
        Oracle.alignment_reply := Oracle.Malformed;
        Oracle.deception_reply := Oracle.Malformed |}
     (sample_action "a1" "ag" SELF_MODIFICATION)).2
  = Py.Ok (Some {| ta_action_id := "a1"; threat_level := CRITICAL; confidence := 0.65%Q;
                   reasons :=
                     [Fmt "Intenção detectada: {}" [Py.JStr "Executar self_modification"];
                      Val (Py.JStr "Auto-modificação sempre requer análise profunda")];
                   recommended_action := KILL; analysis_layer := "oracle" |}).
Proof. vm_compute. reflexivity. Qed.

(** * Further facts: the core *)

Lemma deque_append_length {A} (n : nat) (d : list A) (x : A) :
  (length (Py.deque_append n d x) <= n)%nat.
Proof. unfold Py.deque_append. rewrite length_drop. lia. Qed.

Lemma deque_append_room {A} (n : nat) (d : list A) (x : A) :
  (length d < n)%nat -> Py.deque_append n d x = d ++ [x].
Proof.
  intros H. unfold Py.deque_append. rewrite length_app. cbn [length].
  replace (length d + 1 - n)%nat with 0%nat by lia. reflexivity.
Qed.

Lemma last_n_length {A} (n : nat) (l : list A) : (length (Py.last_n n l) <= n)%nat.
Proof. unfold Py.last_n. rewrite length_drop. lia. Qed.

Lemma delete_snoc {A} (l : list A) (x : A) : delete (length l) (l ++ [x]) = l.
Proof. by rewrite delete_middle, app_nil_r. Qed.

Lemma add_remove (B : gset string) (a : string) : a ∉ B -> ({[a]} ∪ B) ∖ {[a]} = B.
Proof.
  intros Hnot. apply set_eq. intros x.
  rewrite elem_of_difference, elem_of_union, !elem_of_singleton. split.
  - intros [[->|Hx] Hne]; done.
  - intros Hx. split; [right; exact Hx|]. intros ->. done.
Qed.

Lemma alter_status_lookup (m : gmap string Core.AgentRecord)
    (f : Core.AgentRecord -> Core.AgentRecord) (a agent : string) (r : Core.AgentRecord) :
  alter f a m !! agent = Some r ->
  (agent = a /\ exists r0, m !! agent = Some r0 /\ r = f r0)
  \/ (agent <> a /\ m !! agent = Some r).
Proof.
  destruct (decide (a = agent)) as [->|Hne].
  - rewrite lookup_alter_eq. destruct (m !! agent) as [r0|]; [|discriminate].
    intros [= <-]. left. eauto.
  - rewrite lookup_alter_ne by done. intros H. right. done.
Qed.

Lemma histogram_total (threats : list ThreatAssessment) :
  sum_list (map (fun level => length (filter (fun t => threat_level t = level) threats))
                [SAFE; SUSPICIOUS; CONCERNING; DANGEROUS; CRITICAL])
  = length threats.
Proof.
  induction threats as [|t l IH]; [reflexivity|].
  cbn [map sum_list sum_list_with] in *. rewrite !filter_cons.
  unfold id in *. destruct (threat_level t); simpl; lia.
Qed.

Section CoreExtras.
Context {W : Type}.
Implicit Types (s : Core.SHIELDCore W) (env : Core.Env W).

(** X1.  [_run_layer_callbacks] invokes every callback registered for
    the layer exactly once and in registration order, whatever the
    callbacks return: the invocation log grows by one entry per
    callback. *)
Theorem layer_run_invokes_all s layer env (action : AIAction) :
  let env' := (Core._run_layer_callbacks s layer env action).1 in
  let n := length (Core.callbacks_of (Core.layer_callbacks s) layer) in
  Core.calls env' = Core.calls env ++ entries layer 0 n
  /\ Core.call_count layer env' = (Core.call_count layer env + n)%nat.
Proof.
  cbv zeta. split; [apply run_layer_calls|].
  unfold Core.call_count. rewrite run_layer_calls, filter_app, length_app. f_equal.
  unfold entries. generalize 0%nat.
  induction (length _) as [|n IH]; intros i; simpl; [done|].
  rewrite filter_cons. simpl. rewrite bool_decide_eq_true_2 by done. simpl. by rewrite IH.
Qed.

Lemma step_books s s' : step s s' -> books_balanced s -> books_balanced s'.
Proof.
  intros Hstep (Hq & Ht & Hd). destruct Hstep.
  - done.
  - unfold Core.submit_action. case_bool_decide; [done|].
    split; [|split]; cbn; [by rewrite Hq|rewrite length_app; cbn; lia|done].
  - unfold Core.process_action.
    destruct (Core._run_layer_callbacks s Core.perimeter env action) as [env1 p].
    destruct (match p with Some _ => _ | None => _ end); [done|].
    destruct (Core._run_layer_callbacks s Core.heuristics env1 action) as [env2 h].
    destruct (if Core._should_escalate_to_oracle s action p h then _ else _) as [env3 o].
    cbn [fst snd]. destruct (_ <=? _); (split; [|split]); cbn;
      rewrite ?length_app; cbn; try done; lia.
  - unfold Core.enforce_action.
    destruct (Core.notify _ _ _ _) as [env1 [[]|e]]; [|done].
    destruct (recommended_action assessment); try done.
    + destruct (Core.originating_action s assessment) as [a|]; [|done].
      unfold Core._quarantine_agent.
      destruct (Core.cfg_enforcement _) as [[[d|]]|]; done.
    + destruct (Core.originating_action s assessment) as [a|]; done.
  - unfold Core.fire_timer. destruct (Core.timers s !! i) as [[d agent]|]; [|done].
    unfold Core._release_quarantine. cbn. case_bool_decide; done.
  - unfold Core.add_layer_callback.
    destruct (Core.layer_of_name layer) as [[]|]; done.
  - done.
  - done.
Qed.

(** X2.  In every state the shield can get into, the queue and the
    history hold the same actions, [total_actions] counts them,
    [get_metrics] reports that number as [actions_in_queue] (nothing
    ever leaves the queue), and [threats_detected] does not exceed the
    number of recorded assessments. *)
Theorem reachable_books (cfg : option Core.Config) s :
  reachable cfg s ->
  Core.action_queue s = Core.action_history s
  /\ Core.total_actions (Core.metrics s) = length (Core.action_history s)
  /\ actions_in_queue (get_metrics s) = Core.total_actions (Core.metrics s)
  /\ (Core.threats_detected (Core.metrics s) <= length (Core.threat_history s))%nat.
Proof.
  intros Hreach.
  assert (books_balanced s) as (Hq & Ht & Hd).
  { revert s Hreach. apply (rtc_ind_r (fun s => books_balanced s) (Core.init cfg)).
    - done.
    - intros y z _ Hstep IH. exact (step_books y z Hstep IH). }
  repeat split; try done. cbn. by rewrite Hq, Ht.
Qed.

Lemma contain_keeps (st : string) s (a : string) :
  contained_are_blocked s ->
  contained_are_blocked
    (Core.set_monitored_agents
       (alter (Core.set_status st) a
          (Core.monitored_agents (Core.set_blocked_agents ({[a]} ∪ Core.blocked_agents s) s)))
       (Core.set_blocked_agents ({[a]} ∪ Core.blocked_agents s) s)).
Proof.
  intros Hinv agent r Hr Hst. cbn in *.
  apply alter_status_lookup in Hr as [[-> _]|[Hne Hr]].
  - apply elem_of_union_l, elem_of_singleton. reflexivity.
  - apply elem_of_union_r. eapply Hinv; eassumption.
Qed.

Lemma step_contained s s' : step s s' -> contained_are_blocked s -> contained_are_blocked s'.
Proof.
  intros Hstep Hinv. destruct Hstep.
  - intros a r Hr Hst. cbn in *.
    destruct (decide (agent = a)) as [->|Hne].
    + rewrite lookup_insert_eq in Hr. injection Hr as <-. cbn in Hst.
      destruct Hst; discriminate.
    + rewrite lookup_insert_ne in Hr by done. eapply Hinv; eassumption.
  - unfold Core.submit_action. case_bool_decide; [done|].
    intros a r Hr Hst. cbn in *.
    apply alter_status_lookup in Hr as [[-> (r0 & Hr0 & ->)]|[Hne Hr]];
      eapply Hinv; eassumption.
  - unfold Core.process_action.
    destruct (Core._run_layer_callbacks s Core.perimeter env action) as [env1 p].
    destruct (match p with Some _ => _ | None => _ end); [done|].
    destruct (Core._run_layer_callbacks s Core.heuristics env1 action) as [env2 h].
    destruct (if Core._should_escalate_to_oracle s action p h then _ else _) as [env3 o].
    cbn [fst snd]. destruct (_ <=? _); [|exact Hinv].
    intros a r Hr Hst. cbn in *.
    apply alter_status_lookup in Hr as [[-> (r0 & Hr0 & ->)]|[Hne Hr]];
      eapply Hinv; eassumption.
  - unfold Core.enforce_action.
    destruct (Core.notify _ _ _ _) as [env1 [[]|e]]; [|done].
    destruct (recommended_action assessment); try done.
    + destruct (Core.originating_action s assessment) as [a|]; [|done].
      unfold Core._quarantine_agent.
      destruct (Core.cfg_enforcement _) as [[[d|]]|]; cbn [fst snd];
        apply (contain_keeps "quarantined"); exact Hinv.
    + destruct (Core.originating_action s assessment) as [a|]; [|done].
      cbn [fst snd]. intros agent r Hr Hst.
      exact (contain_keeps "killed" s (agent_id a) Hinv agent r Hr Hst).
  - unfold Core.fire_timer. destruct (Core.timers s !! i) as [[d a]|]; [|done].
    unfold Core._release_quarantine. cbn. case_bool_decide as Hin; [|exact Hinv].
    intros agent r Hr Hst. cbn in *.
    apply alter_status_lookup in Hr as [[-> (r0 & Hr0 & ->)]|[Hne Hr]].
    + cbn in Hst. destruct Hst; discriminate.
    + apply elem_of_difference. split; [eapply Hinv; eassumption|].
      intros Ha. apply elem_of_singleton in Ha. done.
  - unfold Core.add_layer_callback.
    destruct (Core.layer_of_name layer) as [[]|]; done.
  - exact Hinv.
  - exact Hinv.
Qed.

(** X3.  In every state the shield can get into, an agent whose recorded
    status is 'quarantined' or 'killed' is in [blocked_agents], and
    [submit_action] answers each of its actions with 'BLOCKED', leaving
    the state as it is. *)
Theorem reachable_contained (cfg : option Core.Config) s (agent : string)
    (r : Core.AgentRecord) :
  reachable cfg s ->
  Core.monitored_agents s !! agent = Some r ->
  Core.status r = "quarantined" \/ Core.status r = "killed" ->
  agent ∈ Core.blocked_agents s
  /\ forall action, agent_id action = agent -> Core.submit_action s action = (s, "BLOCKED").
Proof.
  intros Hreach Hr Hst.
  assert (contained_are_blocked s) as Hinv.
  { clear Hr. revert s Hreach.
    apply (rtc_ind_r (fun s => contained_are_blocked s) (Core.init cfg)).
    - intros a r0 H. cbn in H. rewrite lookup_empty in H. discriminate.
    - intros y z _ Hstep IH. exact (step_contained y z Hstep IH). }
  pose proof (Hinv agent r Hr Hst) as Hblocked. split; [exact Hblocked|].
  intros action <-. apply submit_blocked. exact Hblocked.
Qed.

(** X4.  When [enforce_action] returns, it returns [False] exactly for
    the recommendations BLOCK, KILL and QUARANTINE; when it returns
    [True] the state is unchanged. *)
Theorem enforce_verdict s env (t : ThreatAssessment) (b : bool) :
  (Core.enforce_action s env t).2 = Py.Ok b ->
  b = negb (denying (recommended_action t))
  /\ (b = true -> (Core.enforce_action s env t).1.2 = s).
Proof.
  unfold Core.enforce_action.
  destruct (Core.notify _ _ _ _) as [env1 [[]|e]]; [|discriminate].
  destruct (recommended_action t); cbn; try (intros [= <-]; done).
  - destruct (Core.originating_action s t) as [a|]; [|intros [= <-]; done].
    destruct (Core._quarantine_agent s (agent_id a)) as [s1 [[]|e]]; cbn;
      [intros [= <-]; done|discriminate].
  - destruct (Core.originating_action s t) as [a|]; intros [= <-]; done.
Qed.

Lemma originating_none s (t : ThreatAssessment) :
  (forall a, a ∈ Core.action_history s -> action_id a <> ta_action_id t) ->
  Core.originating_action s t = None.
Proof.
  intros H. unfold Core.originating_action.
  destruct (find _ _) as [a|] eqn:E; [|reflexivity].
  apply find_some in E as [Hin Heq]. apply in_rev in Hin.
  apply String.eqb_eq in Heq. apply list_elem_of_In in Hin. destruct (H a Hin Heq).
Qed.

(** X5.  A KILL or QUARANTINE assessment whose [action_id] matches no
    recorded action contains nobody: the state is unchanged, and the
    call does not return [True]. *)
Theorem enforce_unknown_action s env (t : ThreatAssessment) :
  (forall a, a ∈ Core.action_history s -> action_id a <> ta_action_id t) ->
  recommended_action t = KILL \/ recommended_action t = QUARANTINE ->
  (Core.enforce_action s env t).1.2 = s
  /\ (Core.enforce_action s env t).2 <> Py.Ok true.
Proof.
  intros Hnone Hact. unfold Core.enforce_action.
  rewrite (originating_none s t Hnone).
  destruct (Core.notify _ _ _ _) as [env1 [[]|e]]; [|done].
  destruct Hact as [-> | ->]; done.
Qed.

(** X6.  With no [quarantine_duration_seconds] in the configuration
    [_quarantine_agent] raises [KeyError] after it has blocked the
    agent: the agent is blocked, no release timer exists, and its
    actions are answered with 'BLOCKED'. *)
Theorem quarantine_without_duration s (agent : string) :
  duration_of s = None ->
  let r := Core._quarantine_agent s agent in
  r.2 = Py.Raise Py.KeyError
  /\ agent ∈ Core.blocked_agents r.1
  /\ Core.timers r.1 = Core.timers s
  /\ forall action, agent_id action = agent -> Core.submit_action r.1 action = (r.1, "BLOCKED").
Proof.
  unfold duration_of, Core._quarantine_agent. intros H. cbn in *.
  assert (agent ∈ ({[agent]} ∪ Core.blocked_agents s)) as Hin
    by (apply elem_of_union_l, elem_of_singleton; reflexivity).
  destruct (Core.cfg_enforcement (Core.config s)) as [[[d|]]|]; cbn in *; try discriminate;
    (split; [reflexivity|]; split; [exact Hin|]; split; [reflexivity|]);
    intros action <-; apply submit_blocked; exact Hin.
Qed.

(** X7.  Quarantine and release are inverse on the blocked set and on
    the timers: quarantining an unblocked agent blocks it and schedules
    one release after the configured duration; once that timer fires
    the blocked set and the timers are what they were, and the agent's
    status, if it is monitored, is 'active'. *)
Theorem quarantine_release_round_trip s (agent : string) (d : Q) :
  duration_of s = Some d ->
  agent ∉ Core.blocked_agents s ->
  let s1 := (Core._quarantine_agent s agent).1 in
  let s2 := Core.fire_timer s1 (length (Core.timers s)) in
  Core.timers s1 = Core.timers s ++ [(d, agent)]
  /\ agent ∈ Core.blocked_agents s1
  /\ Core.blocked_agents s2 = Core.blocked_agents s
  /\ Core.timers s2 = Core.timers s
  /\ Core.monitored_agents s2 = alter (Core.set_status "active") agent (Core.monitored_agents s).
Proof.
  unfold duration_of. intros Hd Hnot. cbv zeta. unfold Core._quarantine_agent.
  destruct (Core.cfg_enforcement (Core.config s)) as [[[d'|]]|] eqn:E; cbn in Hd; try discriminate.
  injection Hd as ->. cbn [Core.config Core.set_monitored_agents Core.set_blocked_agents].
  rewrite E. cbn [fst Core.quarantine_duration_seconds].
  assert (agent ∈ ({[agent]} ∪ Core.blocked_agents s)) as Hin
    by (apply elem_of_union_l, elem_of_singleton; reflexivity).
  split; [reflexivity|]. split; [exact Hin|].
  unfold Core.fire_timer. cbn [Core.timers Core.set_timers].
  rewrite (list_lookup_middle (Core.timers s) [] _ _ eq_refl).
  unfold Core._release_quarantine. cbn.
  rewrite bool_decide_eq_true_2 by exact Hin. cbn.
  split; [apply add_remove; exact Hnot|]. split.
  - apply delete_snoc.
  - rewrite alter_alter_eq. apply alter_ext. intros r _. reflexivity.
Qed.

Theorem escalation_decision s (action : AIAction) (p h : option ThreatAssessment) :
  Core._should_escalate_to_oracle s action p h = true
  <-> Core.oracle_get s Core.always_analyze false = true
      \/ type_value (action_type action) ∈ Core.oracle_get s Core.critical_action_types []
      \/ exists t, (p = Some t \/ h = Some t)
                   /\ Core.oracle_get s Core.min_escalation_level (level_value SUSPICIOUS)
                      <= severity t.
Proof.
  unfold Core._should_escalate_to_oracle.
  destruct (Core.oracle_get s Core.always_analyze false); [split; auto|].
  case_bool_decide as Hc; [split; auto|].
  set (m := Core.oracle_get s Core.min_escalation_level (level_value SUSPICIOUS)).
  destruct p as [p|], h as [h|]; cbn.
  - destruct (Z.ltb_spec (severity p) (severity h)); rewrite Z.leb_le; split.
    + intros Hm. right; right. exists h. auto.
    + intros [?|[?|(t & [[= <-]|[= <-]] & Ht)]]; try done; unfold id in *; lia.
    + intros Hm. right; right. exists p. auto.
    + intros [?|[?|(t & [[= <-]|[= <-]] & Ht)]]; try done; unfold id in *; lia.
  - rewrite Z.leb_le. split.
    + intros Hm. right; right. exists p. auto.
    + intros [?|[?|(t & [[= <-]|?] & Ht)]]; done.
  - rewrite Z.leb_le. split.
    + intros Hm. right; right. exists h. auto.
    + intros [?|[?|(t & [?|[= <-]] & Ht)]]; done.
  - split; [done|]. intros [?|[?|(t & [?|?] & _)]]; done.
Qed.

(** X8.  A report of [get_agent_report] is about the agent asked for
    and carries its record; the per-level counts add up to
    [threats_detected]; the two totals do not exceed the lengths of the
    histories; each of the recent lists holds at most ten entries. *)
Theorem agent_report_consistent s (agent : string) (r : Core.AgentReport) :
  Core.get_agent_report s agent = Some r ->
  Core.report_agent_id r = agent
  /\ Core.monitored_agents s !! agent = Some (Core.info r)
  /\ sum_list (map snd (Core.threat_levels r)) = Core.report_threats_detected r
  /\ (Core.report_threats_detected r <= length (Core.threat_history s))%nat
  /\ (Core.report_total_actions r <= length (Core.action_history s))%nat
  /\ (length (Core.recent_actions r) <= 10)%nat
  /\ (length (Core.recent_threats r) <= 10)%nat.
Proof.
  unfold Core.get_agent_report. destruct (Core.monitored_agents s !! agent) as [record|]; [|discriminate].
  intros [= <-]. cbn.
  split; [reflexivity|]. split; [reflexivity|]. split.
  { apply histogram_total. }
  split; [unfold Core.agent_threats; apply length_filter|].
  split; [unfold Core.agent_actions; apply length_filter|].
  split; apply last_n_length.
Qed.

Lemma process_nothing_fired s env (action : AIAction) :
  omap id (layer_results s env action) = [] ->
  Core.process_action s env action
  = ((Core.process_action s env action).1.1,
     Core.set_threat_history (Core.threat_history s ++ [Core.no_threat]) s,
     Core.no_threat).
Proof.
  unfold layer_results, Core.process_action.
  destruct (Core._run_layer_callbacks s Core.perimeter env action) as [env1 [p|]]; simpl.
  { rewrite severe_iff. destruct (bool_decide _); [discriminate|].
    destruct (Core._run_layer_callbacks s Core.heuristics env1 action) as [env2 h].
    destruct (Core._should_escalate_to_oracle s action (Some p) h); discriminate. }
  destruct (Core._run_layer_callbacks s Core.heuristics env1 action) as [env2 [h|]].
  { destruct (Core._should_escalate_to_oracle s action None (Some h)); discriminate. }
  destruct (Core._should_escalate_to_oracle s action None None).
  - destruct (Core._run_layer_callbacks s Core.oracle env2 action) as [env3 [o|]];
      [discriminate|]. reflexivity.
  - reflexivity.
Qed.

(** X9.  The agent wrapper of the demo does not look at what
    [submit_action] returns: for a blocked agent the action is not
    recorded, yet it is processed, and when no layer objects the SAFE
    assessment is appended to [threat_history] and the wrapper does not
    report the action as denied. *)
Theorem perform_action_ignores_block s env (action : AIAction) :
  agent_id action ∈ Core.blocked_agents s ->
  omap id (layer_results s env action) = [] ->
  let r := perform_action s env action in
  r.2 <> Py.Ok false
  /\ Core.action_history r.1.2 = Core.action_history s
  /\ Core.threat_history r.1.2 = Core.threat_history s ++ [Core.no_threat].
Proof.
  intros Hblocked Hnone. cbv zeta. unfold perform_action.
  rewrite (submit_blocked s action Hblocked). cbn [fst].
  rewrite (process_nothing_fired s env action Hnone). cbn [fst snd].
  unfold Core.enforce_action. cbn [recommended_action Core.no_threat].
  destruct (Core.notify _ _ _ _) as [env1 [[]|e]]; cbn [fst snd];
    (split; [discriminate|]; split; reflexivity).
Qed.

(** X10.  When every contributing layer reports a confidence within
    [0,1], so does the assessment [process_action] returns. *)
Theorem process_action_confidence_bounded s env (action : AIAction) :
  Forall (fun a => 0 <= confidence a <= 1)%Q (omap id (layer_results s env action)) ->
  (0 <= confidence (Core.process_action s env action).2 <= 1)%Q.
Proof.
  intros H. rewrite process_action_final.
  destruct (layer_results s env action) as [|[p|] [|r rs]] eqn:E;
    try (apply aggregate_confidence_bounded; exact H).
  cbn in H. apply Forall_cons in H as [H _]. exact H.
Qed.

End CoreExtras.
(** The sample states are states the shield can get into. *)
Lemma two_actions_reachable : reachable None two_actions.
Proof.
  unfold two_actions, bare_shield.
  eapply rtc_r; [|apply step_submit].
  eapply rtc_r; [|apply step_submit].
  apply rtc_once. apply step_register.
Defined.

Lemma killed_reachable : reachable None killed.
Proof.
  unfold killed, quarantined.
  eapply rtc_r; [|apply step_enforce].
  eapply rtc_r; [|apply step_enforce].
  exact two_actions_reachable.
Defined.

(** The core facts at the sample states. *)
Lemma reachable_books_witness :
  Core.action_queue two_actions = Core.action_history two_actions
  /\ Core.total_actions (Core.metrics two_actions) = length (Core.action_history two_actions)
  /\ actions_in_queue (get_metrics two_actions) = Core.total_actions (Core.metrics two_actions)
  /\ (Core.threats_detected (Core.metrics two_actions)
      <= length (Core.threat_history two_actions))%nat.
Proof. exact (reachable_books None two_actions two_actions_reachable). Defined.

Lemma reachable_contained_witness :
  "ag" ∈ Core.blocked_agents killed
  /\ forall action, agent_id action = "ag" -> Core.submit_action killed action = (killed, "BLOCKED").
Proof.
  eapply (reachable_contained None killed "ag").
  - exact killed_reachable.
  - vm_compute. reflexivity.
  - right. reflexivity.
Defined.

Lemma enforce_verdict_witness :
  true = negb (denying (recommended_action (sample_assessment "a1" SUSPICIOUS 0.5 LOG "heuristics")))
  /\ (true = true ->
      (Core.enforce_action two_actions empty_env
         (sample_assessment "a1" SUSPICIOUS 0.5 LOG "heuristics")).1.2 = two_actions).
Proof.
  apply (enforce_verdict two_actions empty_env
           (sample_assessment "a1" SUSPICIOUS 0.5 LOG "heuristics") true).
  vm_compute. reflexivity.
Defined.

Lemma enforce_unknown_action_witness :
  (Core.enforce_action two_actions empty_env
     (sample_assessment "zz" CRITICAL 1 KILL "perimeter")).1.2 = two_actions
  /\ (Core.enforce_action two_actions empty_env
        (sample_assessment "zz" CRITICAL 1 KILL "perimeter")).2 <> Py.Ok true.
Proof.
  apply (enforce_unknown_action two_actions empty_env
           (sample_assessment "zz" CRITICAL 1 KILL "perimeter")).
  - intros a Ha. vm_compute in Ha.
    repeat (apply elem_of_cons in Ha as [->|Ha]; [discriminate|]).
    apply elem_of_nil in Ha. destruct Ha.
  - left. reflexivity.
Defined.

Lemma quarantine_without_duration_witness :
  let r := Core._quarantine_agent (W := unit) (Core.init (Some no_enforcement)) "ag" in
  r.2 = Py.Raise Py.KeyError
  /\ "ag" ∈ Core.blocked_agents r.1
  /\ Core.timers r.1 = Core.timers (W := unit) (Core.init (Some no_enforcement))
  /\ forall action, agent_id action = "ag" -> Core.submit_action r.1 action = (r.1, "BLOCKED").
Proof.
  apply (quarantine_without_duration (W := unit) (Core.init (Some no_enforcement)) "ag").
  reflexivity.
Defined.

Lemma quarantine_release_round_trip_witness :
  let s1 := (Core._quarantine_agent bare_shield "ag").1 in
  let s2 := Core.fire_timer s1 (length (Core.timers bare_shield)) in
  Core.timers s1 = Core.timers bare_shield ++ [(3600%Q, "ag")]
  /\ "ag" ∈ Core.blocked_agents s1
  /\ Core.blocked_agents s2 = Core.blocked_agents bare_shield
  /\ Core.timers s2 = Core.timers bare_shield
  /\ Core.monitored_agents s2
     = alter (Core.set_status "active") "ag" (Core.monitored_agents bare_shield).
Proof.
  apply (quarantine_release_round_trip bare_shield "ag" 3600).
  - reflexivity.
  - apply (bool_decide_unpack _). vm_compute. exact I.
Defined.

Lemma agent_report_consistent_witness :
  exists r,
    Core.get_agent_report two_actions "ag" = Some r
    /\ Core.report_agent_id r = "ag"
    /\ Core.monitored_agents two_actions !! "ag" = Some (Core.info r)
    /\ sum_list (map snd (Core.threat_levels r)) = Core.report_threats_detected r
    /\ (Core.report_threats_detected r <= length (Core.threat_history two_actions))%nat
    /\ (Core.report_total_actions r <= length (Core.action_history two_actions))%nat
    /\ (length (Core.recent_actions r) <= 10)%nat
    /\ (length (Core.recent_threats r) <= 10)%nat.
Proof.
  destruct (Core.get_agent_report two_actions "ag") as [r|] eqn:E.
  - exists r. split; [reflexivity|]. exact (agent_report_consistent two_actions "ag" r E).
  - vm_compute in E. discriminate.
Defined.

Lemma perform_action_ignores_block_witness :
  let r := perform_action killed empty_env (sample_action "a9" "ag" API_CALL) in
  r.2 <> Py.Ok false
  /\ Core.action_history r.1.2 = Core.action_history killed
  /\ Core.threat_history r.1.2 = Core.threat_history killed ++ [Core.no_threat].
Proof.
  apply (perform_action_ignores_block killed empty_env (sample_action "a9" "ag" API_CALL)).
  - apply (bool_decide_unpack _). vm_compute. exact I.
  - vm_compute. reflexivity.
Defined.

Lemma process_action_confidence_bounded_witness :
  (0 <= confidence (Core.process_action alarmed_shield env0
                      (sample_action "a1" "ag" SELF_MODIFICATION)).2 <= 1)%Q.
Proof.
  apply (process_action_confidence_bounded alarmed_shield env0
           (sample_action "a1" "ag" SELF_MODIFICATION)).
  vm_compute. repeat constructor; discriminate.
Defined.
(** * Further facts: the perimeter *)

Lemma lower_app (a b : string) : Py.lower (a ++ b) = (Py.lower a ++ Py.lower b)%string.
Proof. induction a as [|c a IH]; simpl; [reflexivity|]. by rewrite IH. Qed.

Lemma startswith_spec (s p : string) :
  Py.startswith s p = true <-> exists post, s = (p ++ post)%string.
Proof.
  revert s. induction p as [|a p IH]; intros s; simpl.
  - split; [intros _; exists s; reflexivity|intros _; destruct s; reflexivity].
  - destruct s as [|b s]; simpl.
    + split; [discriminate|intros [post H]; discriminate].
    + rewrite andb_true_iff, Ascii.eqb_eq, IH. split.
      * intros [-> [post ->]]. exists post. reflexivity.
      * intros [post H]. injection H as -> ->. split; [reflexivity|eauto].
Qed.

Lemma contains_spec (sub s : string) :
  Py.contains sub s = true <-> exists pre post, s = (pre ++ sub ++ post)%string.
Proof.
  induction s as [|c s IH]; cbn [Py.contains].
  - rewrite orb_false_r, startswith_spec. split.
    + intros [post H]. exists "", post. exact H.
    + intros (pre & post & H). destruct pre; simpl in H; [eauto|discriminate].
  - rewrite orb_true_iff, startswith_spec, IH. split.
    + intros [[post H]|(pre & post & ->)].
      * exists "", post. exact H.
      * exists (String c pre), post. reflexivity.
    + intros ([|c' pre] & post & H); simpl in H.
      * left. eauto.
      * injection H as -> ->. right. eauto.
Qed.

Lemma search_ignorecase_spec (literal text : string) :
  (exists pre mid post, text = (pre ++ mid ++ post)%string /\ Py.lower mid = Py.lower literal) ->
  Perimeter.search_ignorecase literal text = true.
Proof.
  intros (pre & mid & post & -> & Hmid). unfold Perimeter.search_ignorecase.
  apply contains_spec. exists (Py.lower pre), (Py.lower post).
  by rewrite !lower_app, Hmid.
Qed.

Lemma lower_app_inv (s a b : string) :
  Py.lower s = (a ++ b)%string ->
  exists s1 s2, s = (s1 ++ s2)%string /\ Py.lower s1 = a /\ Py.lower s2 = b.
Proof.
  revert s. induction a as [|c a IH]; intros s H.
  - exists "", s. done.
  - destruct s as [|d s]; [discriminate|].
    change (String (Py.lower_ascii d) (Py.lower s) = String c (a ++ b)%string) in H.
    injection H as Hc H. destruct (IH s H) as (s1 & s2 & -> & H1 & H2).
    exists (String d s1), s2. split; [reflexivity|]. split; [|exact H2].
    change (String (Py.lower_ascii d) (Py.lower s1) = String c a). by rewrite Hc, H1.
Qed.

Lemma search_ignorecase_inv (literal text : string) :
  Perimeter.search_ignorecase literal text = true ->
  exists pre mid post,
    text = (pre ++ mid ++ post)%string /\ Py.lower mid = Py.lower literal.
Proof.
  unfold Perimeter.search_ignorecase. intros H.
  apply contains_spec in H as (pre' & post' & H).
  apply lower_app_inv in H as (pre & rest & -> & _ & H).
  apply lower_app_inv in H as (mid & post & -> & H & _).
  exists pre, mid, post. done.
Qed.

Lemma forbidden_find_spec (filepath : string) :
  (exists p, find (fun p => Perimeter.search_ignorecase (snd p) filepath)
                  Perimeter.forbidden_patterns = Some p)
  <-> names_forbidden filepath.
Proof.
  unfold names_forbidden. split.
  - intros ([pattern literal] & H). apply find_some in H as [Hin Hs].
    apply search_ignorecase_inv in Hs as (pre & mid & post & Hsplit & Hmid).
    exists pattern, literal, pre, mid, post. split; [|done].
    apply list_elem_of_In. exact Hin.
  - intros (pattern & literal & pre & mid & post & Hin & Hsplit & Hmid).
    destruct (find _ Perimeter.forbidden_patterns) as [p|] eqn:E; [eauto|].
    exfalso. apply list_elem_of_In in Hin.
    pose proof (find_none _ _ E (pattern, literal) Hin) as Hno.
    cbn [snd] in Hno. rewrite search_ignorecase_spec in Hno; [discriminate|].
    exists pre, mid, post. done.
Qed.

Lemma Qgtb_nat_false (k : nat) (m : Q) (n : nat) :
  (k <= n)%nat -> (inject_Z (Z.of_nat n) <= m)%Q ->
  Py.Qgtb (inject_Z (Z.of_nat k)) m = false.
Proof.
  intros Hk Hm. unfold Py.Qgtb. apply negb_false_iff, Qle_bool_iff.
  eapply Qle_trans; [|exact Hm]. rewrite <- Zle_Qle. lia.
Qed.

Lemma filter_all {A} (P : A -> Prop) `{forall x, Decision (P x)} (l : list A) :
  Forall P l -> filter P l = l.
Proof.
  induction 1 as [|x l Hx _ IH]; [reflexivity|].
  rewrite filter_cons_True by exact Hx. by rewrite IH.
Qed.

Lemma rstrip_app (cs : list ascii) (a b : string) :
  Py.rstrip cs b <> "" -> Py.rstrip cs (a ++ b) = (a ++ Py.rstrip cs b)%string.
Proof.
  intros Hb. induction a as [|c a IH]; [reflexivity|].
  simpl. rewrite IH.
  change (String c a ++ Py.rstrip cs b)%string with (String c (a ++ Py.rstrip cs b)).
  destruct (a ++ Py.rstrip cs b)%string eqn:E; [|reflexivity].
  destruct a; simpl in E; [contradiction|discriminate].
Qed.

Lemma rstrip_last (cs : list ascii) (s pre : string) (c : ascii) :
  Py.rstrip cs s = (pre ++ String c "")%string -> Py.mem_ascii c cs = false.
Proof.
  revert pre. induction s as [|d s IH]; intros pre; cbn [Py.rstrip].
  - destruct pre; discriminate.
  - destruct (Py.rstrip cs s) as [|e r] eqn:E.
    + destruct (Py.mem_ascii d cs) eqn:Ed; [destruct pre; discriminate|].
      destruct pre as [|p pre]; simpl; [intros [= <-]; exact Ed|].
      intros [= _ H]. destruct pre; discriminate.
    + destruct pre as [|p pre]; simpl; [discriminate|].
      intros [= _ H]. exact (IH pre H).
Qed.

Lemma app_last_inj (a b : string) (c d : ascii) :
  (a ++ String c "")%string = (b ++ String d "")%string -> a = b /\ c = d.
Proof.
  revert b. induction a as [|x a IH]; intros [|y b]; simpl; intros H.
  - injection H as ->. done.
  - injection H as -> H. destruct b; discriminate.
  - injection H as -> H. destruct a; discriminate.
  - injection H as -> H. destruct (IH b H) as [-> ->]. done.
Qed.

Lemma string_snoc (s : string) : s <> "" -> exists pre c, s = (pre ++ String c "")%string.
Proof.
  induction s as [|c s IH]; [done|]. intros _. destruct s as [|d s].
  - exists "", c. reflexivity.
  - destruct IH as (pre & e & H); [done|]. exists (String c pre), e. simpl. by rewrite H.
Qed.

Lemma string_app_assoc (a b c : string) : ((a ++ b) ++ c = a ++ (b ++ c))%string.
Proof.
  induction a as [|x a IH]; [reflexivity|].
  change (String x ((a ++ b) ++ c) = String x (a ++ (b ++ c)))%string. by rewrite IH.
Qed.

(** A domain that ends with a dot matches no rule whose normalised
    form is not empty: [rstrip] has taken the dots off the rule. *)
Lemma trailing_dot_unmatched (host rule : string) :
  rule_domain rule <> "" ->
  Perimeter._domain_matches (host ++ ".")%string rule = false.
Proof.
  intros Hrule. unfold Perimeter._domain_matches. fold (rule_domain rule).
  destruct (string_snoc _ Hrule) as (pre & c & Hsplit).
  assert (c <> "."%char) as Hc.
  { intros ->. unfold rule_domain in Hsplit. apply rstrip_last in Hsplit. discriminate. }
  cbv zeta. rewrite Hsplit.
  destruct (String.eqb_spec (host ++ ".") (pre ++ String c "")) as [Heq|_].
  { apply app_last_inj in Heq as [_ Heq]. congruence. }
  apply not_true_iff_false. intros H. apply endswith_spec in H as [p H].
  change ("." ++ pre ++ String c "")%string with (String "." pre ++ String c "")%string in H.
  rewrite <- (string_app_assoc p (String "." pre) (String c "")) in H.
  apply app_last_inj in H as [_ H]. congruence.
Qed.

Lemma lower_digits (s : string) :
  forallb is_digit (list_ascii_of_string s) = true -> Py.lower s = s.
Proof.
  induction s as [|c s IH]; simpl; [reflexivity|]. intros H.
  apply andb_true_iff in H as [Hc Hs]. rewrite (IH Hs). f_equal.
  unfold Py.lower_ascii, is_digit in *.
  destruct ((65 <=? nat_of_ascii c)%nat && (nat_of_ascii c <=? 90)%nat) eqn:E; [|reflexivity].
  apply andb_true_iff in E as [E1 E2]. apply andb_true_iff in Hc as [H1 H2].
  apply Nat.leb_le in E1, H2. lia.
Qed.

Lemma rstrip_digits (cs : list ascii) (s : string) :
  s <> "" -> forallb is_digit (list_ascii_of_string s) = true ->
  Py.mem_ascii "." cs = true -> forallb (fun c => negb (is_digit c)) cs = true ->
  Py.rstrip cs s = s.
Proof.
  intros Hne Hd _ Hcs. induction s as [|c s IH]; [done|].
  cbn [list_ascii_of_string forallb] in Hd. apply andb_true_iff in Hd as [Hc Hs].
  cbn [Py.rstrip]. destruct s as [|d s].
  - cbn [Py.rstrip].
    assert (Py.mem_ascii c cs = false) as ->; [|reflexivity].
    apply not_true_iff_false. intros H. unfold Py.mem_ascii in H.
    apply existsb_exists in H as (x & Hin & Hx). apply Ascii.eqb_eq in Hx. subst x.
    rewrite forallb_forall in Hcs. specialize (Hcs c Hin). rewrite Hc in Hcs. discriminate.
  - rewrite IH by done. reflexivity.
Qed.

Lemma split_head_app (sep : ascii) (a b : string) :
  has_char sep a = false -> Py.split_head sep (a ++ String sep b) = a.
Proof.
  unfold has_char. induction a as [|c a IH]; simpl.
  - by rewrite Ascii.eqb_refl.
  - intros H. apply orb_false_iff in H as [Hc Ha].
    rewrite Ascii.eqb_sym in Hc. rewrite Hc, IH by exact Ha. reflexivity.
Qed.

Lemma has_char_lower_colon (s : string) :
  has_char ":" s = false -> has_char ":" (Py.lower s) = false.
Proof.
  unfold has_char. induction s as [|c s IH]; simpl; [done|].
  intros H. apply orb_false_iff in H as [Hc Hs]. rewrite (IH Hs), orb_false_r.
  destruct c as [[] [] [] [] [] [] [] []]; try reflexivity; discriminate.
Qed.

Lemma has_char_app (c : ascii) (a b : string) :
  has_char c (a ++ b) = has_char c a || has_char c b.
Proof.
  unfold has_char. induction a as [|x a IH]; [reflexivity|].
  change (Py.mem_ascii c (x :: list_ascii_of_string (a ++ b))
          = Py.mem_ascii c (x :: list_ascii_of_string a)
            || Py.mem_ascii c (list_ascii_of_string b)).
  unfold Py.mem_ascii in *. cbn [existsb]. by rewrite IH, orb_assoc.
Qed.

Lemma normalise_host_port (host port : string) :
  has_char ":" host = false ->
  port <> "" -> forallb is_digit (list_ascii_of_string port) = true ->
  Py.split_head ":" (Py.rstrip ["."%char] (Py.lower (host ++ ".:" ++ port)%string))
  = (Py.lower host ++ ".")%string.
Proof.
  intros Hhost Hport Hdigits.
  pose proof (rstrip_digits ["."%char] port Hport Hdigits eq_refl eq_refl) as Hr.
  rewrite lower_app, (lower_app ".:" port), (lower_digits port Hdigits).
  assert (Py.rstrip ["."%char] (Py.lower ".:" ++ port) = (Py.lower ".:" ++ port)%string) as Hr2.
  { rewrite rstrip_app; rewrite Hr; [reflexivity|exact Hport]. }
  rewrite rstrip_app; rewrite Hr2; [|discriminate].
  change (Py.lower ".:" ++ port)%string with ("." ++ String ":" port)%string.
  rewrite <- (string_app_assoc (Py.lower host) "." (String ":" port)).
  apply split_head_app.
  rewrite has_char_app, (has_char_lower_colon host Hhost). reflexivity.
Qed.

Section PerimeterExtras.
Variable urlparse : string -> Py.result Perimeter.ParseResult.
Implicit Types (self : Perimeter.PerimeterDefense) (action : AIAction).

Lemma rate_limit_other self now action :
  action_type action <> API_CALL ->
  Perimeter._check_api_rate_limit self now action = (self, None).
Proof. unfold Perimeter._check_api_rate_limit. destruct (action_type action); done. Qed.

Lemma network_other self action :
  action_type action <> NETWORK_REQUEST ->
  Perimeter._check_network_access urlparse self action = (self, Py.Ok None).
Proof. unfold Perimeter._check_network_access. destruct (action_type action); done. Qed.

Lemma forbidden_other action :
  action_type action <> FILE_OPERATION ->
  Perimeter._check_forbidden_patterns action = Py.Ok None.
Proof. unfold Perimeter._check_forbidden_patterns. destruct (action_type action); done. Qed.

Lemma resource_check_quiet self action :
  memory_within_limit self -> cpu_within_limit self ->
  Perimeter._check_resource_limits self action = Py.Ok None.
Proof.
  intros Hmem Hcpu. unfold Perimeter._check_resource_limits.
  assert (Py.Qgtb (Perimeter._get_agent_memory_usage (agent_id action))
            (Perimeter.config_get (Perimeter.max_memory_mb (Perimeter.config self)) 1024%Q)
          = false) as ->
    by (unfold Py.Qgtb; apply negb_false_iff, Qle_bool_iff; exact Hmem).
  assert (Py.Qgtb (Perimeter._get_agent_cpu_usage (agent_id action))
            (Perimeter.config_get (Perimeter.max_cpu_percent (Perimeter.config self)) 80%Q)
          = false) as ->
    by (unfold Py.Qgtb; apply negb_false_iff, Qle_bool_iff; exact Hcpu).
  reflexivity.
Qed.

(** X11.  While the simulated CPU and memory readings are within the
    configured limits, the perimeter has nothing to say about a code
    execution, an agent communication or a resource allocation:
    [analyze] returns [None] and leaves the object unchanged. *)
Theorem perimeter_blind_types self (now : Q) action :
  action_type action = CODE_EXECUTION \/ action_type action = AGENT_COMMUNICATION
  \/ action_type action = RESOURCE_ALLOCATION ->
  memory_within_limit self -> cpu_within_limit self ->
  Perimeter.analyze urlparse self now action = (self, Py.Ok None).
Proof.
  intros Hty Hmem Hcpu. unfold Perimeter.analyze.
  rewrite (resource_check_quiet self action Hmem Hcpu).
  rewrite rate_limit_other by (destruct Hty as [-> | [-> | ->]]; discriminate).
  rewrite network_other by (destruct Hty as [-> | [-> | ->]]; discriminate).
  rewrite forbidden_other by (destruct Hty as [-> | [-> | ->]]; discriminate).
  destruct Hty as [-> | [-> | ->]]; reflexivity.
Qed.

(** X12.  A file operation whose path contains one of the forbidden
    patterns, in any mix of upper and lower case, gets a CRITICAL
    assessment recommending KILL with confidence 1 (provided the
    resource check completes). *)
Theorem forbidden_path_killed self (now : Q) action
    (filepath pre mid post pattern literal : string) :
  action_type action = FILE_OPERATION ->
  path_of action = Py.JStr filepath ->
  (pattern, literal) ∈ Perimeter.forbidden_patterns ->
  filepath = (pre ++ mid ++ post)%string ->
  Py.lower mid = Py.lower literal ->
  memory_within_limit self ->
  exists t,
    Perimeter.analyze urlparse self now action = (self, Py.Ok (Some t))
    /\ threat_level t = CRITICAL /\ recommended_action t = KILL /\ confidence t = 1%Q
    /\ ta_action_id t = action_id action.
Proof.
  intros Hty Hpath Hin Hsplit Hmid Hmem. unfold Perimeter.analyze.
  rewrite rate_limit_other by (rewrite Hty; discriminate).
  rewrite network_other by (rewrite Hty; discriminate).
  assert (exists t, Perimeter._check_forbidden_patterns action = Py.Ok (Some t)
                    /\ threat_level t = CRITICAL /\ recommended_action t = KILL
                    /\ confidence t = 1%Q /\ ta_action_id t = action_id action)
    as (t & -> & Hlevel & Hact & Hconf & Hid).
  { unfold Perimeter._check_forbidden_patterns. rewrite Hty.
    unfold path_of in Hpath. rewrite Hpath. cbn [Perimeter.as_str mbind result_bind Py.bind].
    destruct (find _ Perimeter.forbidden_patterns) as [[p l]|] eqn:E.
    - eexists. split; [reflexivity|]. repeat split.
    - exfalso. apply list_elem_of_In in Hin.
      pose proof (find_none _ _ E (pattern, literal) Hin) as Hno.
      cbn [snd] in Hno. rewrite search_ignorecase_spec in Hno; [discriminate|].
      exists pre, mid, post. split; assumption. }
  rewrite Hty.
  destruct (resource_check_cases self action Hmem) as [->|(c & -> & Hc)]; cbn.
  - exists t. repeat split; assumption.
  - unfold severity. rewrite Hc, Hlevel. cbn. exists t. repeat split; assumption.
Qed.

(** X13.  A file operation whose [path] parameter is not a string makes
    [analyze] raise [TypeError] ([re.search] on a non-string), once the
    resource check has completed. *)
Theorem file_path_not_string_raises self (now : Q) action :
  action_type action = FILE_OPERATION ->
  (forall s : string, path_of action <> Py.JStr s) ->
  memory_within_limit self ->
  Perimeter.analyze urlparse self now action = (self, Py.Raise Py.TypeError).
Proof.
  intros Hty Hpath Hmem. unfold Perimeter.analyze.
  rewrite rate_limit_other by (rewrite Hty; discriminate).
  rewrite network_other by (rewrite Hty; discriminate).
  assert (Perimeter._check_forbidden_patterns action = Py.Raise Py.TypeError) as ->.
  { unfold Perimeter._check_forbidden_patterns. rewrite Hty. unfold path_of in Hpath.
    destruct (Py.dict_get (parameters action) "path" (Py.JStr "")) as [| | |s| |];
      try reflexivity. destruct (Hpath s eq_refl). }
  destruct (resource_check_cases self action Hmem) as [->|(c & -> & Hc)]; reflexivity.
Qed.

(** X30.  A delete, chmod, chown or execute on an ASCII path that
    starts with one of the system directories always gets an
    assessment (provided the resource check completes): CRITICAL with
    KILL when the path holds one of the forbidden patterns, in any mix
    of upper and lower case, and DANGEROUS with BLOCK when it holds
    none. *)
Theorem dangerous_operation_blocked self (now : Q) action (op root rest : string) :
  action_type action = FILE_OPERATION ->
  path_of action = Py.JStr (root ++ rest) ->
  ascii_only (root ++ rest) = true ->
  operation_of action = Py.JStr op ->
  op ∈ Perimeter.dangerous_operations ->
  root ∈ Perimeter.system_paths ->
  memory_within_limit self ->
  exists t,
    Perimeter.analyze urlparse self now action = (self, Py.Ok (Some t))
    /\ issued_by "perimeter" action t
    /\ (names_forbidden (root ++ rest) ->
        threat_level t = CRITICAL /\ recommended_action t = KILL)
    /\ (~ names_forbidden (root ++ rest) ->
        threat_level t = DANGEROUS /\ recommended_action t = BLOCK).
Proof.
  intros Hty Hpath _ Hop Hdangerous Hroot Hmem. unfold Perimeter.analyze.
  rewrite rate_limit_other by (rewrite Hty; discriminate).
  rewrite network_other by (rewrite Hty; discriminate).
  assert (exists t, Perimeter._check_forbidden_patterns action = Py.Ok (Some t)
                    /\ issued_by "perimeter" action t
                    /\ 3 <= severity t
                    /\ (names_forbidden (root ++ rest) ->
                        threat_level t = CRITICAL /\ recommended_action t = KILL)
                    /\ (~ names_forbidden (root ++ rest) ->
                        threat_level t = DANGEROUS /\ recommended_action t = BLOCK))
    as (t & -> & Hby & Hsev & Ht).
  { unfold Perimeter._check_forbidden_patterns. rewrite Hty.
    unfold path_of in Hpath. unfold operation_of in Hop. rewrite Hpath, Hop.
    cbn [Perimeter.as_str mbind result_bind Py.bind].
    pose proof (forbidden_find_spec (root ++ rest)) as Hspec.
    destruct (find _ Perimeter.forbidden_patterns) as [[p l]|].
    - eexists. split; [reflexivity|]. split; [split; reflexivity|].
      split; [unfold severity; cbn; lia|]. split; [done|].
      intros Hno. destruct Hno. apply Hspec. eauto.
    - assert (Perimeter.is_str (Py.JStr op) Perimeter.dangerous_operations = true) as ->
        by (apply bool_decide_eq_true_2; exact Hdangerous).
      assert (existsb (Py.startswith (root ++ rest)) Perimeter.system_paths = true) as ->.
      { apply existsb_exists. exists root. split; [apply list_elem_of_In; exact Hroot|].
        apply startswith_spec. eauto. }
      eexists. split; [reflexivity|]. split; [split; reflexivity|].
      split; [unfold severity; cbn; lia|]. split; [|done].
      intros Hyes. apply Hspec in Hyes as [p Hp]. discriminate. }
  rewrite Hty.
  destruct (resource_check_cases self action Hmem) as [->|(c & -> & Hc)]; cbn.
  - exists t. split; [reflexivity|]. split; assumption.
  - exists t. unfold severity in *. rewrite Hc. cbn.
    destruct (2 <? level_value (threat_level t)) eqn:E; [|lia].
    split; [reflexivity|]. split; assumption.
Qed.

(** X14.  Every self-modification is flagged (provided the resource
    check completes): [analyze] returns an assessment of level at least
    SUSPICIOUS; it is CRITICAL recommending KILL when [modification_type]
    is one of the four critical components, and otherwise SUSPICIOUS
    recommending REQUIRE_APPROVAL as long as the CPU reading is within
    its limit. *)
Theorem self_modification_flagged self (now : Q) action :
  action_type action = SELF_MODIFICATION ->
  memory_within_limit self ->
  exists t,
    Perimeter.analyze urlparse self now action = (self, Py.Ok (Some t))
    /\ 1 <= severity t
    /\ ((exists kind, modification_type_of action = Py.JStr kind
                      /\ kind ∈ Perimeter.critical_modifications) ->
        threat_level t = CRITICAL /\ recommended_action t = KILL)
    /\ (cpu_within_limit self ->
        ~ (exists kind, modification_type_of action = Py.JStr kind
                        /\ kind ∈ Perimeter.critical_modifications) ->
        threat_level t = SUSPICIOUS /\ recommended_action t = REQUIRE_APPROVAL).
Proof.
  intros Hty Hmem. unfold Perimeter.analyze.
  rewrite rate_limit_other by (rewrite Hty; discriminate).
  rewrite network_other by (rewrite Hty; discriminate).
  rewrite forbidden_other by (rewrite Hty; discriminate).
  rewrite Hty.
  assert (Perimeter.is_str (modification_type_of action) Perimeter.critical_modifications = true
          <-> exists kind, modification_type_of action = Py.JStr kind
                           /\ kind ∈ Perimeter.critical_modifications) as Hcrit.
  { destruct (modification_type_of action) as [| | |k| |]; cbn;
      try (split; [discriminate|intros (kind & [=] & _)]).
    rewrite bool_decide_eq_true. split; [eauto|]. intros (kind & [= ->] & H). exact H. }
  unfold Perimeter._check_self_modification. fold (modification_type_of action).
  destruct (Perimeter.is_str (modification_type_of action) Perimeter.critical_modifications)
    eqn:E.
  - destruct (resource_check_cases self action Hmem) as [->|(c & -> & Hc)]; cbn.
    + eexists. split; [reflexivity|]. cbn. split; [lia|]. split; [done|].
      intros _ Hno. destruct Hno. apply Hcrit. reflexivity.
    + unfold severity. rewrite Hc. cbn. eexists. split; [reflexivity|]. cbn.
      split; [lia|]. split; [done|].
      intros _ Hno. destruct Hno. apply Hcrit. reflexivity.
  - assert (~ exists kind, modification_type_of action = Py.JStr kind
                           /\ kind ∈ Perimeter.critical_modifications) as Hno
      by (intros H; apply Hcrit in H; discriminate).
    destruct (Perimeter._check_resource_limits self action) as [[c|]|e] eqn:Er.
    + destruct (resource_check_cases self action Hmem) as [H|(c' & H & Hc)];
        rewrite Er in H; [discriminate|]. injection H as <-.
      cbn. unfold severity. rewrite Hc. cbn. exists c. split; [reflexivity|].
      rewrite Hc. cbn. split; [lia|]. split; [intros H; destruct (Hno H)|].
      intros Hcpu _. rewrite (resource_check_quiet self action Hmem Hcpu) in Er. discriminate.
    + cbn. eexists. split; [reflexivity|]. cbn. split; [lia|].
      split; [intros H; destruct (Hno H)|done].
    + destruct (resource_check_cases self action Hmem) as [H|(c' & H & Hc)];
        rewrite Er in H; discriminate.
Qed.

Lemma rate_limit_records self (now : Q) action :
  action_type action = API_CALL ->
  recorded_calls (Perimeter._check_api_rate_limit self now action).1 (agent_id action)
  = Py.deque_append 1000 (recorded_calls self (agent_id action)) now.
Proof.
  intros Hty. unfold Perimeter._check_api_rate_limit. rewrite Hty. cbv zeta.
  destruct (Py.Qgtb _ _); unfold recorded_calls; cbn; by rewrite lookup_insert_eq.
Qed.

Lemma rate_limit_config self (now : Q) action :
  Perimeter.config (Perimeter._check_api_rate_limit self now action).1 = Perimeter.config self.
Proof.
  unfold Perimeter._check_api_rate_limit. destruct (action_type action); try reflexivity.
  cbv zeta. destruct (Py.Qgtb _ _); reflexivity.
Qed.

Lemma api_calls_snoc self action (times : list Q) (t : Q) :
  api_calls self action (times ++ [t])
  = (Perimeter._check_api_rate_limit (api_calls self action times) t action).1.
Proof. unfold api_calls. by rewrite fold_left_app. Qed.

Lemma api_calls_records self action (times : list Q) :
  action_type action = API_CALL ->
  (length (recorded_calls self (agent_id action)) + length times <= 1000)%nat ->
  recorded_calls (api_calls self action times) (agent_id action)
  = recorded_calls self (agent_id action) ++ times
  /\ Perimeter.config (api_calls self action times) = Perimeter.config self.
Proof.
  intros Hty. induction times as [|t times IH] using rev_ind; intros Hlen.
  - split; [by rewrite app_nil_r|reflexivity].
  - rewrite length_app in Hlen. cbn [length] in Hlen.
    destruct IH as [IHr IHc]; [lia|].
    rewrite api_calls_snoc, rate_limit_records, rate_limit_config by exact Hty.
    split; [|exact IHc].
    rewrite IHr, deque_append_room by (rewrite length_app; lia). by rewrite <- app_assoc.
Qed.

(** X15.  The tracker keeps at most 1000 call times per agent, so a
    configured limit of 1000 calls per minute or more is never
    exceeded: the rate check returns no assessment. *)
Theorem rate_limit_unreachable self (now : Q) action :
  (1000 <= max_calls self)%Q ->
  (Perimeter._check_api_rate_limit self now action).2 = None.
Proof.
  intros Hmax. unfold Perimeter._check_api_rate_limit.
  destruct (action_type action); try reflexivity. cbv zeta.
  fold (max_calls self).
  rewrite (Qgtb_nat_false _ (max_calls self) 1000); [reflexivity| |exact Hmax].
  etrans; [apply length_filter|]. apply deque_append_length.
Qed.

(** X16.  An agent without recorded calls that makes fewer than 1000
    API calls, all within the last minute before the clock reading
    [now], and then one at [now]: the last call is flagged exactly when
    the number of calls, itself included, exceeds the configured limit;
    the assessment is SUSPICIOUS recommending THROTTLE; the tracker
    holds the call times in order. *)
Theorem rate_limit_burst self action (times : list Q) (now : Q) :
  action_type action = API_CALL ->
  recorded_calls self (agent_id action) = [] ->
  (length times < 1000)%nat ->
  Forall (fun t => now - 60 < t)%Q times ->
  let r := Perimeter._check_api_rate_limit (api_calls self action times) now action in
  (r.2 = None <-> (inject_Z (Z.of_nat (length times + 1)) <= max_calls self)%Q)
  /\ (forall t, r.2 = Some t ->
        threat_level t = SUSPICIOUS /\ recommended_action t = THROTTLE)
  /\ recorded_calls r.1 (agent_id action) = times ++ [now].
Proof.
  intros Hty Hempty Hlen Hrecent. cbv zeta.
  destruct (api_calls_records self action times Hty) as [Hrec Hcfg];
    [rewrite Hempty; cbn; lia|].
  rewrite Hempty in Hrec. cbn [app] in Hrec.
  split; [|split].
  - unfold Perimeter._check_api_rate_limit. rewrite Hty. cbv zeta.
    fold (recorded_calls (api_calls self action times) (agent_id action)).
    rewrite Hrec, Hcfg, deque_append_room by exact Hlen. fold (max_calls self).
    rewrite filter_all.
    + rewrite length_app. cbn [length]. unfold Py.Qgtb.
      destruct (Qle_bool _ _) eqn:E; cbn.
      * split; [intros _; apply Qle_bool_iff; exact E|reflexivity].
      * split; [discriminate|]. intros H. apply Qle_bool_iff in H. congruence.
    + apply Forall_app. split.
      * eapply Forall_impl; [exact Hrecent|]. intros t Ht. cbn.
        unfold Py.Qgtb. apply negb_true_iff. apply not_true_iff_false.
        intros H. apply Qle_bool_iff in H. apply Qlt_not_le in Ht. contradiction.
      * apply Forall_singleton. unfold Py.Qgtb. apply negb_true_iff, not_true_iff_false.
        intros H. apply Qle_bool_iff in H. revert H. apply Qlt_not_le.
        rewrite <- (Qplus_0_r now) at 2. unfold Qminus. apply Qplus_lt_r. reflexivity.
  - unfold Perimeter._check_api_rate_limit. rewrite Hty. cbv zeta.
    destruct (Py.Qgtb _ _); cbn; intros t [=]. subst t. split; reflexivity.
  - rewrite rate_limit_records, Hrec, deque_append_room by assumption. reflexivity.
Qed.

(** X17.  With a non-empty allow-list configured, a request in ASCII
    to a domain that is neither blocked nor at or below an allowed
    domain gets a SUSPICIOUS assessment recommending
    REQUIRE_APPROVAL. *)
Theorem allow_list_enforced self action (url domain : string) :
  action_type action = NETWORK_REQUEST ->
  url_of action = Py.JStr url ->
  ascii_request urlparse self url ->
  Perimeter._extract_domain urlparse url = Py.Ok domain ->
  (forall rule, rule ∈ blocked_rules self -> ~ at_or_below domain (rule_domain rule)) ->
  allowed_rules self <> [] ->
  (forall rule, rule ∈ allowed_rules self -> ~ at_or_below domain (rule_domain rule)) ->
  exists t,
    Perimeter._check_network_access urlparse self action = (self, Py.Ok (Some t))
    /\ threat_level t = SUSPICIOUS /\ recommended_action t = REQUIRE_APPROVAL.
Proof.
  intros Hty Hurl _ Hdom Hblocked Hsome Hallowed.
  unfold Perimeter._check_network_access. rewrite Hty.
  unfold url_of in Hurl. rewrite Hurl. cbn [Perimeter.as_str mbind result_bind Py.bind].
  rewrite Hdom. cbn [mret result_ret mbind result_bind Py.bind].
  fold (blocked_rules self). fold (allowed_rules self).
  destruct (find (Perimeter._domain_matches domain) (map Py.lower (blocked_rules self)))
    as [found|] eqn:E.
  { apply find_some in E as [Hin Hm]. apply in_map_iff in Hin as (rule & <- & Hin).
    apply domain_matches_spec in Hm. apply list_elem_of_In in Hin.
    exfalso. exact (Hblocked rule Hin Hm). }
  assert ((match map Py.lower (allowed_rules self) with [] => false | _ => true end
           && negb (existsb (Perimeter._domain_matches domain)
                            (map Py.lower (allowed_rules self)))) = true) as ->.
  { apply andb_true_iff. split.
    - destruct (allowed_rules self); [done|reflexivity].
    - apply negb_true_iff, not_true_iff_false. intros H.
      apply existsb_exists in H as (r & Hin & Hm).
      apply in_map_iff in Hin as (rule & <- & Hin).
      apply domain_matches_spec in Hm. apply list_elem_of_In in Hin.
      exact (Hallowed rule Hin Hm). }
  eexists. split; [reflexivity|]. split; reflexivity.
Qed.

(** X18.  For a URL whose authority is a host followed by a dot and a
    port, [_extract_domain] returns the lower-cased host with the dot
    kept (the port shields it from [rstrip]); such a domain matches no
    blocked rule with a non-empty normalised form, and the network
    check does not recommend BLOCK. *)
Theorem trailing_dot_before_port self action (url host port path : string) :
  action_type action = NETWORK_REQUEST ->
  url_of action = Py.JStr url ->
  urlparse url
  = Py.Ok {| Perimeter.netloc := (host ++ ".:" ++ port)%string; Perimeter.path := path |} ->
  has_char ":" host = false ->
  port <> "" -> forallb is_digit (list_ascii_of_string port) = true ->
  (forall rule, rule ∈ blocked_rules self -> rule_domain rule <> "") ->
  Perimeter._extract_domain urlparse url = Py.Ok (Py.lower host ++ ".")%string
  /\ forall t, (Perimeter._check_network_access urlparse self action).2 = Py.Ok (Some t) ->
               recommended_action t <> BLOCK.
Proof.
  intros Hty Hurl Hparse Hhost Hport Hdigits Hrules.
  assert (Perimeter._extract_domain urlparse url = Py.Ok (Py.lower host ++ ".")%string) as Hdom.
  { unfold Perimeter._extract_domain. rewrite Hparse.
    cbn [mbind result_bind Py.bind mret result_ret Perimeter.netloc Perimeter.path].
    assert (negb (String.eqb (host ++ ".:" ++ port) "") = true) as ->
      by (destruct host; reflexivity).
    by rewrite normalise_host_port. }
  split; [exact Hdom|].
  unfold Perimeter._check_network_access. rewrite Hty.
  unfold url_of in Hurl. rewrite Hurl. cbn [Perimeter.as_str mbind result_bind Py.bind].
  rewrite Hdom. cbn [mret result_ret mbind result_bind Py.bind].
  fold (blocked_rules self).
  destruct (find _ (map Py.lower (blocked_rules self))) as [found|] eqn:E.
  { apply find_some in E as [Hin Hm]. apply in_map_iff in Hin as (rule & <- & Hin).
    apply list_elem_of_In in Hin. rewrite trailing_dot_unmatched in Hm; [discriminate|].
    unfold rule_domain. rewrite lower_idem. exact (Hrules rule Hin). }
  destruct (_ && _); [cbn; intros t [= <-]; discriminate|].
  destruct (find _ Perimeter.suspicious_patterns); cbn; intros t [= <-]. discriminate.
Qed.

End PerimeterExtras.

(** The perimeter facts at sample actions, under the default limits. *)
Lemma perimeter_blind_types_witness :
  Perimeter.analyze Perimeter.urlparse_plain blocklist_perimeter 0
    (sample_action "a1" "ag" CODE_EXECUTION) = (blocklist_perimeter, Py.Ok None).
Proof.
  apply (perimeter_blind_types Perimeter.urlparse_plain blocklist_perimeter 0
           (sample_action "a1" "ag" CODE_EXECUTION)).
  - left. reflexivity.
  - unfold memory_within_limit. cbn. unfold Qle. cbn. lia.
  - unfold cpu_within_limit. cbn. unfold Qle. cbn. lia.
Defined.

Lemma forbidden_path_killed_witness :
  exists t,
    Perimeter.analyze Perimeter.urlparse_plain blocklist_perimeter 0
      (file_action (Py.JStr "/home/x/.SSH/ID_RSA.bak") "read")
    = (blocklist_perimeter, Py.Ok (Some t))
    /\ threat_level t = CRITICAL /\ recommended_action t = KILL /\ confidence t = 1%Q
    /\ ta_action_id t = "f1".
Proof.
  apply (forbidden_path_killed Perimeter.urlparse_plain blocklist_perimeter 0
           (file_action (Py.JStr "/home/x/.SSH/ID_RSA.bak") "read")
           "/home/x/.SSH/ID_RSA.bak" "/home/x/" ".SSH/ID_RSA" ".bak"
           "\.ssh/id_rsa" ".ssh/id_rsa" eq_refl eq_refl).
  - apply (bool_decide_unpack _). vm_compute. exact I.
  - reflexivity.
  - reflexivity.
  - unfold memory_within_limit. cbn. unfold Qle. cbn. lia.
Defined.

Lemma file_path_not_string_raises_witness :
  Perimeter.analyze Perimeter.urlparse_plain blocklist_perimeter 0
    (file_action Py.JNull "read") = (blocklist_perimeter, Py.Raise Py.TypeError).
Proof.
  apply (file_path_not_string_raises Perimeter.urlparse_plain blocklist_perimeter 0
           (file_action Py.JNull "read") eq_refl).
  - intros s. discriminate.
  - unfold memory_within_limit. cbn. unfold Qle. cbn. lia.
Defined.

Lemma dangerous_operation_blocked_witness :
  (exists t,
    Perimeter.analyze Perimeter.urlparse_plain blocklist_perimeter 0
      (file_action (Py.JStr "/etc/hosts") "delete")
    = (blocklist_perimeter, Py.Ok (Some t))
    /\ issued_by "perimeter" (file_action (Py.JStr "/etc/hosts") "delete") t
    /\ threat_level t = DANGEROUS /\ recommended_action t = BLOCK)
  /\ (exists t,
    Perimeter.analyze Perimeter.urlparse_plain blocklist_perimeter 0
      (file_action (Py.JStr "/etc/shadow") "chmod")
    = (blocklist_perimeter, Py.Ok (Some t))
    /\ issued_by "perimeter" (file_action (Py.JStr "/etc/shadow") "chmod") t
    /\ threat_level t = CRITICAL /\ recommended_action t = KILL).
Proof.
  split.
  - destruct (dangerous_operation_blocked Perimeter.urlparse_plain blocklist_perimeter 0
                (file_action (Py.JStr "/etc/hosts") "delete") "delete" "/etc" "/hosts"
                eq_refl eq_refl eq_refl eq_refl) as (t & Hrun & Hby & _ & Hclean).
    + apply (bool_decide_unpack _). vm_compute. exact I.
    + apply (bool_decide_unpack _). vm_compute. exact I.
    + unfold memory_within_limit. cbn. unfold Qle. cbn. lia.
    + exists t. split; [exact Hrun|]. split; [exact Hby|]. apply Hclean.
      intros H. apply forbidden_find_spec in H as [p H]. vm_compute in H. discriminate.
  - destruct (dangerous_operation_blocked Perimeter.urlparse_plain blocklist_perimeter 0
                (file_action (Py.JStr "/etc/shadow") "chmod") "chmod" "/etc" "/shadow"
                eq_refl eq_refl eq_refl eq_refl) as (t & Hrun & Hby & Hforbidden & _).
    + apply (bool_decide_unpack _). vm_compute. exact I.
    + apply (bool_decide_unpack _). vm_compute. exact I.
    + unfold memory_within_limit. cbn. unfold Qle. cbn. lia.
    + exists t. split; [exact Hrun|]. split; [exact Hby|]. apply Hforbidden.
      exists "/etc/shadow", "/etc/shadow", "", "/etc/shadow", "".
      split; [|split; reflexivity]. apply (bool_decide_unpack _). vm_compute. exact I.
Defined.

Lemma self_modification_flagged_witness :
  exists t,
    Perimeter.analyze Perimeter.urlparse_plain blocklist_perimeter 0
      (modification "system_prompt") = (blocklist_perimeter, Py.Ok (Some t))
    /\ 1 <= severity t
    /\ ((exists kind, modification_type_of (modification "system_prompt") = Py.JStr kind
                      /\ kind ∈ Perimeter.critical_modifications) ->
        threat_level t = CRITICAL /\ recommended_action t = KILL)
    /\ (cpu_within_limit blocklist_perimeter ->
        ~ (exists kind, modification_type_of (modification "system_prompt") = Py.JStr kind
                        /\ kind ∈ Perimeter.critical_modifications) ->
        threat_level t = SUSPICIOUS /\ recommended_action t = REQUIRE_APPROVAL).
Proof.
  apply (self_modification_flagged Perimeter.urlparse_plain blocklist_perimeter 0
           (modification "system_prompt") eq_refl).
  unfold memory_within_limit. cbn. unfold Qle. cbn. lia.
Defined.

Lemma rate_limit_unreachable_witness :
  (Perimeter._check_api_rate_limit (rate_limited 1000) 0
     (sample_action "a1" "ag" API_CALL)).2 = None.
Proof.
  apply (rate_limit_unreachable (rate_limited 1000) 0 (sample_action "a1" "ag" API_CALL)).
  unfold max_calls. cbn. unfold Qle. cbn. lia.
Defined.

Lemma rate_limit_burst_witness :
  let r := Perimeter._check_api_rate_limit
             (api_calls (rate_limited 2) (sample_action "a1" "ag" API_CALL) [0%Q; 1%Q])
             2 (sample_action "a1" "ag" API_CALL) in
  (r.2 = None <-> (inject_Z (Z.of_nat (length [0%Q; 1%Q] + 1)) <= max_calls (rate_limited 2))%Q)
  /\ (forall t, r.2 = Some t ->
        threat_level t = SUSPICIOUS /\ recommended_action t = THROTTLE)
  /\ recorded_calls r.1 "ag" = [0%Q; 1%Q] ++ [2%Q].
Proof.
  apply (rate_limit_burst (rate_limited 2) (sample_action "a1" "ag" API_CALL)
           [0%Q; 1%Q] 2 eq_refl eq_refl).
  - cbn. lia.
  - repeat constructor.
Defined.

Lemma allow_list_enforced_witness :
  exists t,
    Perimeter._check_network_access Perimeter.urlparse_plain
      (allowlist_perimeter ["example.org"]) (request "https://other.net/x")
    = (allowlist_perimeter ["example.org"], Py.Ok (Some t))
    /\ threat_level t = SUSPICIOUS /\ recommended_action t = REQUIRE_APPROVAL.
Proof.
  apply (allow_list_enforced Perimeter.urlparse_plain (allowlist_perimeter ["example.org"])
           (request "https://other.net/x") "https://other.net/x" "other.net"
           eq_refl eq_refl).
  - apply ascii_request_intro;
      [reflexivity
      |intros parsed H; vm_compute in H; injection H as <-; reflexivity
      |reflexivity].
  - reflexivity.
  - intros rule Hin. apply elem_of_nil in Hin. destruct Hin.
  - discriminate.
  - intros rule Hin Hm. apply list_elem_of_singleton in Hin. subst rule.
    apply domain_matches_spec in Hm. vm_compute in Hm. discriminate.
Defined.

Lemma trailing_dot_before_port_witness :
  Perimeter._extract_domain Perimeter.urlparse_plain "https://Malicious.com.:443/x"
  = Py.Ok "malicious.com."
  /\ forall t, (Perimeter._check_network_access Perimeter.urlparse_plain blocklist_perimeter
                  (request "https://Malicious.com.:443/x")).2 = Py.Ok (Some t) ->
               recommended_action t <> BLOCK.
Proof.
  apply (trailing_dot_before_port Perimeter.urlparse_plain blocklist_perimeter
           (request "https://Malicious.com.:443/x") "https://Malicious.com.:443/x"
           "Malicious.com" "443" "/x" eq_refl eq_refl eq_refl eq_refl).
  - discriminate.
  - reflexivity.
  - intros rule Hin. apply list_elem_of_singleton in Hin. subst rule. discriminate.
Defined.
(** * Further facts: the heuristics layer *)

Lemma clip_bounds (x lo hi : Q) : (lo <= hi)%Q -> (lo <= Heuristics.clip x lo hi <= hi)%Q.
Proof.
  intros H. unfold Heuristics.clip.
  destruct (Qle_bool x lo) eqn:E1; [split; [apply Qle_refl|exact H]|].
  destruct (Qle_bool hi x) eqn:E2; [split; [exact H|apply Qle_refl]|].
  split.
  - apply Qlt_le_weak, Qnot_le_lt. intros Hc. apply Qle_bool_iff in Hc. congruence.
  - apply Qlt_le_weak, Qnot_le_lt. intros Hc. apply Qle_bool_iff in Hc. congruence.
Qed.

Lemma max_of_options (P : ThreatAssessment -> Prop)
    (os : list (option ThreatAssessment)) (t0 : ThreatAssessment) rest :
  omap id os = t0 :: rest ->
  Forall (fun o => forall x, o = Some x -> P x) os ->
  P (Py.max_by severity t0 rest).
Proof.
  intros E Hall. pose proof (max_by_in severity rest t0) as Hin. rewrite <- E in Hin.
  apply list_elem_of_omap in Hin as (o & Hin & Ho).
  rewrite Forall_forall in Hall. exact (Hall o Hin _ Ho).
Qed.

Lemma counts_snoc (types : list string) (ty ty' : string) :
  counts (types ++ [ty]) ty' = (counts types ty' + if decide (ty = ty') then 1 else 0)%nat.
Proof.
  unfold counts. rewrite filter_app, length_app. f_equal.
  rewrite filter_cons, filter_nil. destruct (decide (ty = ty')); reflexivity.
Qed.

Section HeuristicExtras.
Variable param_hash : list (string * Py.json) -> Q.
Variable np_std : list Q -> Q.
Implicit Types (self : Heuristics.HeuristicAnalyzer) (action : AIAction).

Lemma interactions_counters (now : Q) action profile :
  let r := Heuristics._detect_suspicious_interactions now action profile in
  same_counters r.1 profile
  /\ Heuristics.anomaly_count r.1 = Heuristics.anomaly_count profile.
Proof.
  cbv zeta. unfold Heuristics._detect_suspicious_interactions, same_counters.
  destruct (action_type action); try done.
  destruct (negb (Py.truthy _)); [done|].
  destruct (negb (Heuristics.hashable _)); [done|].
  destruct (_ <? _)%nat; done.
Qed.

Lemma deviation_frame self (agent : string) action profile :
  let r :=
    Heuristics._detect_behavioral_deviation param_hash np_std self agent action profile in
  Heuristics.agent_profiles r.1 = Heuristics.agent_profiles self
  /\ Heuristics.adaptive_thresholds r.1 = Heuristics.adaptive_thresholds self
  /\ (Heuristics.feature_vectors r.1 = Heuristics.feature_vectors self
      \/ exists f, Heuristics.feature_vectors r.1
                   = <[agent := Py.deque_append 1000
                                  (default [] (Heuristics.feature_vectors self !! agent)) f]>
                       (Heuristics.feature_vectors self)).
Proof.
  cbv zeta. unfold Heuristics._detect_behavioral_deviation.
  destruct (negb _); [by eauto|].
  unfold Heuristics._calculate_deviation.
  destruct (_ <? _)%nat; cbn; destruct (Py.Qgtb _ _); cbn; eauto.
Qed.

(** What one call of [analyze] does to the state. *)
Lemma analyze_frame self (now : Q) action :
  let agent := agent_id action in
  let profile0 :=
    default (Heuristics._create_empty_profile now) (Heuristics.agent_profiles self !! agent) in
  let updated := Heuristics._update_profile (Heuristics.config self) profile0 action in
  let r := Heuristics.analyze param_hash np_std self now action in
  (exists p, Heuristics.agent_profiles r.1 = <[agent := p]> (Heuristics.agent_profiles self)
             /\ same_counters p updated
             /\ (Heuristics.anomaly_count p <= S (Heuristics.anomaly_count profile0))%nat)
  /\ (Heuristics.adaptive_thresholds r.1 = Heuristics.adaptive_thresholds self
      \/ exists x, Heuristics.adaptive_thresholds r.1
                   = <[agent := Heuristics.clip x 0.5 0.95]>
                       (Heuristics.adaptive_thresholds self))
  /\ (Heuristics.feature_vectors r.1 = Heuristics.feature_vectors self
      \/ exists f, Heuristics.feature_vectors r.1
                   = <[agent := Py.deque_append 1000
                                  (default [] (Heuristics.feature_vectors self !! agent)) f]>
                       (Heuristics.feature_vectors self)).
Proof.
  cbv zeta. unfold Heuristics.analyze. cbv zeta.
  match goal with
  | |- context [Heuristics._detect_behavioral_deviation _ _ ?s ?a ?x ?p] =>
      pose proof (deviation_frame s a x p) as Hdev;
      destruct (Heuristics._detect_behavioral_deviation param_hash np_std s a x p)
        as [self2 dev]
  end.
  cbv zeta in Hdev. cbn [fst] in Hdev. destruct Hdev as (Hp & Ht & Hf). cbn in Hp, Ht, Hf.
  match goal with
  | |- context [Heuristics._detect_suspicious_interactions ?n ?a ?p] =>
      pose proof (interactions_counters n a p) as Hint;
      destruct (Heuristics._detect_suspicious_interactions n a p) as [profile1 res]
  end.
  cbv zeta in Hint. cbn [fst] in Hint. destruct Hint as [Hsame Hanomaly].
  cbn [Heuristics._update_profile Heuristics.anomaly_count] in Hanomaly.
  assert (forall p, <[agent_id action := p]> (Heuristics.agent_profiles self2)
                    = <[agent_id action := p]> (Heuristics.agent_profiles self)) as Hins
    by (intros p; rewrite Hp; apply insert_insert_eq).
  destruct res as [interaction|e].
  - destruct (omap id _) as [|t rest].
    + cbn. rewrite Ht. split; [|split; [left; reflexivity|exact Hf]].
      exists profile1. split; [apply Hins|]. split; [exact Hsame|lia].
    + cbn [fst].
      destruct (_ <=? _);
        destruct (Heuristics.config_get (Heuristics.enable_adaptive_learning _) true);
        cbn; rewrite ?insert_insert_eq, ?Ht;
        (split; [|split; [eauto|exact Hf]]).
      * exists (Heuristics.incr_anomaly_count profile1).
        split; [apply Hins|]. split; [exact Hsame|cbn; lia].
      * exists (Heuristics.incr_anomaly_count profile1).
        split; [apply Hins|]. split; [exact Hsame|cbn; lia].
      * exists profile1. split; [apply Hins|]. split; [exact Hsame|lia].
      * exists profile1. split; [apply Hins|]. split; [exact Hsame|lia].
  - cbn. rewrite Ht. split; [|split; [left; reflexivity|exact Hf]].
    exists profile1. split; [apply Hins|]. split; [exact Hsame|lia].
Qed.

Lemma analyze_thresholds self (now : Q) action :
  thresholds_clipped self ->
  thresholds_clipped (Heuristics.analyze param_hash np_std self now action).1.
Proof.
  intros Hinv agent q.
  destruct (analyze_frame self now action) as (_ & [->|[x ->]] & _); [apply Hinv|].
  destruct (decide (agent_id action = agent)) as [->|Hne].
  - rewrite lookup_insert_eq. intros [= <-]. apply clip_bounds. unfold Qle. cbn. lia.
  - rewrite lookup_insert_ne by exact Hne. apply Hinv.
Qed.

Lemma run_config self trace :
  Heuristics.config (run param_hash np_std self trace) = Heuristics.config self.
Proof.
  induction trace as [|e trace IH] using rev_ind; [reflexivity|].
  rewrite run_snoc.
  destruct (analyze_preserves param_hash np_std (run param_hash np_std self trace) e.1 e.2)
    as [-> _]. exact IH.
Qed.

(** The adaptive thresholds the analyzer stores never leave [0.5, 0.95]. *)
Lemma run_thresholds (cfg : Heuristics.Config) trace :
  thresholds_clipped (run param_hash np_std (Heuristics.init cfg) trace).
Proof.
  induction trace as [|e trace IH] using rev_ind.
  - intros agent q H. cbn in H. rewrite lookup_empty in H. discriminate.
  - rewrite run_snoc. apply analyze_thresholds. exact IH.
Qed.

Lemma update_counts (cfg : Heuristics.Config) (types : list string) profile action p :
  profile_counts (Heuristics.config_get (Heuristics.baseline_actions_required cfg) 100%nat)
                 types profile ->
  same_counters p (Heuristics._update_profile cfg profile action) ->
  (Heuristics.anomaly_count p <= S (Heuristics.anomaly_count profile))%nat ->
  profile_counts (Heuristics.config_get (Heuristics.baseline_actions_required cfg) 100%nat)
                 (types ++ [type_value (action_type action)]) p.
Proof.
  intros (Htotal & Hcounts & Hbase & Hanom) (St & Sc & Sb) Ha.
  cbn in St, Sc, Sb. unfold profile_counts. rewrite length_app. cbn [length].
  split; [lia|]. split; [|split; [|lia]].
  - intros ty. rewrite Sc, counts_snoc. case_decide as Hty.
    + subst ty. rewrite lookup_insert_eq. cbn [default]. rewrite Hcounts. unfold id. lia.
    + rewrite lookup_insert_ne by exact Hty. rewrite Hcounts. lia.
  - rewrite Sb, Hbase, Htotal.
    set (required := Heuristics.config_get _ _).
    replace (length types + 1)%nat with (S (length types)) by lia.
    destruct (Nat.leb_spec required (S (length types)));
      destruct (Nat.leb_spec required (length types));
      destruct (Nat.leb_spec 1 (length types));
      destruct (Nat.leb_spec 1 (S (length types))); cbn; try reflexivity; lia.
Qed.

Lemma empty_profile_counts (required : nat) (now : Q) :
  profile_counts required [] (Heuristics._create_empty_profile now).
Proof.
  unfold profile_counts. cbn. split; [reflexivity|]. split; [|split; [reflexivity|lia]].
  intros ty. rewrite lookup_empty. reflexivity.
Qed.

(** The profile of an agent counts the actions analysed for it. *)
Lemma run_profiles (cfg : Heuristics.Config) trace (agent : string) :
  let s := run param_hash np_std (Heuristics.init cfg) trace in
  let types := submitted_types agent trace in
  match Heuristics.agent_profiles s !! agent with
  | None => types = []
  | Some p => types <> [] /\ profile_counts (baseline_required s) types p
  end.
Proof.
  cbv zeta. induction trace as [|e trace IH] using rev_ind.
  - cbn. rewrite lookup_empty. reflexivity.
  - unfold baseline_required in *. rewrite run_config in *. rewrite run_snoc.
    set (s := run param_hash np_std (Heuristics.init cfg) trace) in *.
    destruct (analyze_frame s e.1 e.2) as ((p & -> & Hsame & Hanom) & _).
    unfold submitted_types in *. rewrite filter_app, map_app, filter_cons, filter_nil.
    destruct (decide (agent_id e.2 = agent)) as [Heq|Hne].
    + subst agent. rewrite lookup_insert_eq. cbn [map].
      split; [intros H; apply app_eq_nil in H as [_ H]; discriminate|].
      assert (Heuristics.config s = cfg) as Hcfg by apply run_config.
      rewrite Hcfg in Hsame.
      eapply update_counts; [|exact Hsame|exact Hanom].
      destruct (Heuristics.agent_profiles s !! agent_id e.2) as [p0|].
      * exact (proj2 IH).
      * rewrite IH. apply empty_profile_counts.
    + rewrite lookup_insert_ne by exact Hne. cbn [map]. rewrite app_nil_r. exact IH.
Qed.

(** X19.  [get_agent_profile] after the analyzer has seen a sequence
    of actions: there is a profile exactly for the agents that have
    acted; its [total_actions] and [action_distribution] count the
    agent's actions, also those whose analysis raised; the baseline is
    established exactly when [baseline_actions_required] of them have
    been seen; the anomaly count does not exceed the total, so the
    anomaly rate lies in [0,1]; and a stored adaptive threshold lies in
    [0.5, 0.95]. *)
Theorem agent_profile_consistent (cfg : Heuristics.Config) trace (agent : string) :
  let s := run param_hash np_std (Heuristics.init cfg) trace in
  let types := submitted_types agent trace in
  match HeuristicsProfile.get_agent_profile s agent with
  | None => types = []
  | Some r =>
      types <> []
      /\ HeuristicsProfile.total_actions r = length types
      /\ (forall ty, default 0%nat (HeuristicsProfile.action_distribution r !! ty)
                     = counts types ty)
      /\ HeuristicsProfile.baseline_established r
         = (baseline_required s <=? length types)%nat
      /\ (HeuristicsProfile.anomaly_count r <= HeuristicsProfile.total_actions r)%nat
      /\ (0 <= HeuristicsProfile.anomaly_rate r <= 1)%Q
      /\ (forall q, HeuristicsProfile.adaptive_threshold r = Some q -> (0.5 <= q <= 0.95)%Q)
  end.
Proof.
  cbv zeta. pose proof (run_profiles cfg trace agent) as H. cbv zeta in H.
  pose proof (run_thresholds cfg trace agent) as Hth.
  unfold HeuristicsProfile.get_agent_profile.
  destruct (Heuristics.agent_profiles _ !! agent) as [p|]; [|exact H].
  destruct H as (Hne & Htotal & Hcounts & Hbase & Hanom). cbn.
  assert (Heuristics.total_actions p <> 0)%nat as Hpos
    by (rewrite Htotal; destruct (submitted_types agent trace); [done|cbn; lia]).
  rewrite <- Htotal in Hanom.
  split; [exact Hne|]. split; [exact Htotal|]. split; [exact Hcounts|].
  split; [rewrite Hbase; destruct (submitted_types agent trace); [done|reflexivity]|].
  split; [exact Hanom|]. split; [|exact Hth].
  replace (Nat.max (Heuristics.total_actions p) 1) with (Heuristics.total_actions p) by lia.
  assert (0 < inject_Z (Z.of_nat (Heuristics.total_actions p)))%Q as Hq
    by (change 0%Q with (inject_Z 0); rewrite <- Zlt_Qlt; lia).
  split.
  - apply Qle_shift_div_l; [exact Hq|]. rewrite Qmult_0_l.
    change 0%Q with (inject_Z 0). rewrite <- Zle_Qle. lia.
  - apply Qle_shift_div_r; [exact Hq|]. rewrite Qmult_1_l. rewrite <- Zle_Qle. lia.
Qed.

(** X20.  [analyze] raises in one case only: an agent communication
    whose [target_agent] parameter is truthy and unhashable (a
    non-empty list or dict), which is a [TypeError] from the dictionary
    of interactions. *)
Theorem analyze_raises_iff self (now : Q) action (e : Py.exn) :
  (Heuristics.analyze param_hash np_std self now action).2 = Py.Raise e
  <-> e = Py.TypeError /\ action_type action = AGENT_COMMUNICATION
      /\ Py.truthy (target_of action) = true
      /\ Heuristics.hashable (target_of action) = false.
Proof.
  unfold Heuristics.analyze. cbv zeta.
  destruct (Heuristics._detect_behavioral_deviation _ _ _ _ _ _) as [self2 dev].
  unfold Heuristics._detect_suspicious_interactions. fold (target_of action).
  assert (forall (st : Heuristics.HeuristicAnalyzer) (l : list ThreatAssessment)
                 (f : ThreatAssessment -> list ThreatAssessment
                      -> Heuristics.HeuristicAnalyzer * Py.result (option ThreatAssessment)),
            (forall t rest, exists st' v, f t rest = (st', Py.Ok v)) ->
            (match l with [] => (st, Py.Ok None) | t :: rest => f t rest end).2
            <> Py.Raise e) as Hok.
  { intros st [|t rest] f Hf; [discriminate|].
    destruct (Hf t rest) as (st' & v & ->). discriminate. }
  destruct (action_type action);
    try (split; [intros H; exfalso; revert H; apply Hok; intros; eauto
                |intros (_ & [=] & _)]).
  destruct (Py.truthy (target_of action)); cbn [negb].
  2: { split; [intros H; exfalso; revert H; apply Hok; intros; eauto
              |intros (_ & _ & [=] & _)]. }
  destruct (Heuristics.hashable (target_of action)); cbn [negb].
  - destruct (_ <? _)%nat;
      (split; [intros H; exfalso; revert H; apply Hok; intros; eauto
              |intros (_ & _ & _ & [=])]).
  - cbn. split; [intros [= <-]; done|intros (-> & _); reflexivity].
Qed.

Lemma pattern_shape self (agent : string) action (threshold : Q) t :
  Heuristics._detect_suspicious_patterns self agent action = Some t ->
  heuristic_shape threshold action t.
Proof.
  unfold Heuristics._detect_suspicious_patterns.
  destruct (_ <? _)%nat; [discriminate|].
  destruct (find _ _) as [pattern|] eqn:E; [|discriminate].
  intros [= <-]. apply find_some in E as [Hin _].
  unfold heuristic_shape, issued_by. cbn [ta_action_id analysis_layer confidence].
  split; [done|].
  unfold Heuristics.suspicious_patterns in Hin. cbn in Hin.
  destruct Hin as [<-|[<-|[<-|[<-|[<-|[]]]]]]; cbn; (split; [|intros _]);
    unfold Qle, Qlt; cbn; lia.
Qed.

Lemma deviation_score_le self (agent : string) (f : list Q) :
  ((Heuristics._calculate_deviation np_std self agent f).2 <= 1)%Q.
Proof.
  unfold Heuristics._calculate_deviation. cbv zeta.
  destruct (_ <? _)%nat; cbn [snd]; [discriminate|].
  destruct (Qle_bool _ 1) eqn:E1; [|apply Qle_refl].
  apply Qle_bool_iff. exact E1.
Qed.

Lemma deviation_shape self (agent : string) action profile t :
  (Heuristics._detect_behavioral_deviation param_hash np_std self agent action profile).2
  = Some t ->
  heuristic_shape (Heuristics.threshold_of self agent) action t.
Proof.
  unfold Heuristics._detect_behavioral_deviation.
  destruct (negb _); [discriminate|].
  match goal with
  | |- context [Heuristics._calculate_deviation _ ?s ?a ?f] =>
      pose proof (deviation_score_le s a f) as Hle;
      destruct (Heuristics._calculate_deviation np_std s a f) as [self1 score]
  end.
  cbn [snd] in Hle.
  destruct (Py.Qgtb score _) eqn:G; [|discriminate].
  cbn [snd]. intros [= <-]. unfold heuristic_shape, issued_by.
  cbn [ta_action_id analysis_layer confidence].
  split; [done|]. split; [exact Hle|]. intros H0.
  eapply Qle_lt_trans; [exact H0|]. apply Qnot_le_lt. intros Hc.
  unfold Py.Qgtb in G. apply negb_true_iff in G. apply Qle_bool_iff in Hc. congruence.
Qed.

Lemma temporal_shape action profile (threshold : Q) t :
  Heuristics._detect_temporal_anomalies np_std action profile = Some t ->
  heuristic_shape threshold action t.
Proof.
  unfold Heuristics._detect_temporal_anomalies.
  destruct (_ <? _)%nat; [discriminate|].
  destruct (Py.last_n 2 _) as [|a [|b [|c l]]]; try discriminate.
  destruct (Py.Qgtb _ _); [|discriminate].
  destruct (_ <=? _)%nat; [|discriminate].
  intros [= <-]. unfold heuristic_shape, issued_by. cbn [ta_action_id analysis_layer confidence].
  split; [done|]. split; [|intros _]; unfold Qle, Qlt; cbn; lia.
Qed.

Lemma interaction_shape (now : Q) action profile (threshold : Q) t :
  (Heuristics._detect_suspicious_interactions now action profile).2 = Py.Ok (Some t) ->
  heuristic_shape threshold action t.
Proof.
  unfold Heuristics._detect_suspicious_interactions.
  destruct (action_type action); try discriminate.
  destruct (negb (Py.truthy _)); [discriminate|].
  destruct (negb (Heuristics.hashable _)); [discriminate|].
  destruct (_ <? _)%nat; [|discriminate].
  intros [= <-]. unfold heuristic_shape, issued_by. cbn [ta_action_id analysis_layer confidence].
  split; [done|]. split; [|intros _]; unfold Qle, Qlt; cbn; lia.
Qed.

Lemma escalation_shape self (agent : string) action (threshold : Q) t :
  Heuristics._detect_escalation self agent action = Some t ->
  heuristic_shape threshold action t.
Proof.
  unfold Heuristics._detect_escalation.
  destruct (_ <? _)%nat; [discriminate|].
  destruct (_ <=? _)%nat; [|discriminate].
  destruct (_ && _); [|discriminate].
  intros [= <-]. unfold heuristic_shape, issued_by. cbn [ta_action_id analysis_layer confidence].
  split; [done|]. split; [|intros _]; unfold Qle, Qlt; cbn; lia.
Qed.

(** X21.  Every assessment of the layer is about the analysed action,
    names the layer, and has a confidence of at most 1; the confidence
    is positive unless the anomaly threshold in force is negative. *)
Theorem heuristics_assessment_shape self (now : Q) action t :
  (Heuristics.analyze param_hash np_std self now action).2 = Py.Ok (Some t) ->
  issued_by "heuristics" action t
  /\ (confidence t <= 1)%Q
  /\ ((0 <= Heuristics.threshold_of self (agent_id action))%Q -> (0 < confidence t)%Q).
Proof.
  unfold Heuristics.analyze. cbv zeta.
  set (th := Heuristics.threshold_of self (agent_id action)).
  intros Hres. change (heuristic_shape th action t). revert Hres.
  match goal with
  | |- context [Heuristics._detect_suspicious_patterns ?s ?a ?x] =>
      assert (forall t, Heuristics._detect_suspicious_patterns s a x = Some t
                        -> heuristic_shape th action t) as H1
        by (intros; eapply pattern_shape; eassumption);
      set (o1 := Heuristics._detect_suspicious_patterns s a x) in *; clearbody o1
  end.
  match goal with
  | |- context [Heuristics._detect_behavioral_deviation _ _ ?s ?a ?x ?p] =>
      pose proof (fun t => deviation_shape s a x p t) as H2;
      destruct (Heuristics._detect_behavioral_deviation param_hash np_std s a x p)
        as [self2 o2]
  end.
  cbn [snd] in H2. change (Heuristics.threshold_of _ _) with th in H2.
  match goal with
  | |- context [Heuristics._detect_temporal_anomalies _ ?x ?p] =>
      assert (forall t, Heuristics._detect_temporal_anomalies np_std x p = Some t
                        -> heuristic_shape th action t) as H3
        by (intros; eapply temporal_shape; eassumption);
      set (o3 := Heuristics._detect_temporal_anomalies np_std x p) in *; clearbody o3
  end.
  match goal with
  | |- context [Heuristics._detect_suspicious_interactions ?n ?x ?p] =>
      pose proof (fun t => interaction_shape n x p th t) as H4;
      destruct (Heuristics._detect_suspicious_interactions n x p)
        as [profile1 [o4|e]]; [|discriminate]
  end.
  cbn [snd] in H4.
  match goal with
  | |- context [Heuristics._detect_escalation ?s ?a ?x] =>
      assert (forall t, Heuristics._detect_escalation s a x = Some t
                        -> heuristic_shape th action t) as H5
        by (intros; eapply escalation_shape; eassumption);
      set (o5 := Heuristics._detect_escalation s a x) in *; clearbody o5
  end.
  destruct (omap id [o1; o2; o3; o4; o5]) as [|t0 rest] eqn:E; [discriminate|].
  cbn [snd]. intros [= <-].
  apply (max_of_options (heuristic_shape th action) _ _ _ E).
  repeat first [apply List.Forall_cons | apply List.Forall_nil]; try assumption.
  intros x ->. apply H4. reflexivity.
Qed.

End HeuristicExtras.

(** The sequence of [tests/test_heuristics.py]. *)
Lemma heuristics_assessment_shape_witness :
  exists t,
    (Heuristics.analyze no_hash no_std
       (run no_hash no_std (Heuristics.init (heuristics_config None)) first_two)
       2 third).2 = Py.Ok (Some t)
    /\ issued_by "heuristics" third t
    /\ (confidence t <= 1)%Q
    /\ ((0 <= Heuristics.threshold_of
                (run no_hash no_std (Heuristics.init (heuristics_config None)) first_two)
                (agent_id third))%Q -> (0 < confidence t)%Q).
Proof.
  eexists. split; [vm_compute; reflexivity|].
  apply (heuristics_assessment_shape no_hash no_std
           (run no_hash no_std (Heuristics.init (heuristics_config None)) first_two)
           2 third).
  vm_compute. reflexivity.
Defined.
(** * Further facts: the oracle layer *)

Section OracleExtras.
Variable key : AIAction -> string.
Implicit Types (self : Oracle.OracleAnalyzer) (action : AIAction).

(** A fresh entry is the answer, whatever the backend would say. *)
Lemma analyze_hit self (now : Q) (backend : Oracle.Backend) action (e : Oracle.CacheEntry) :
  fresh_entry self (key action) now = Some e ->
  Oracle.analyze key self now backend action = (self, Py.Ok (Some (Oracle.assessment e))).
Proof.
  unfold fresh_entry, Oracle.analyze. cbv zeta.
  destruct (Oracle.enable_caching self); [|discriminate].
  destruct (Oracle.analysis_cache self !! key action) as [c|]; [|discriminate].
  destruct (Qle_bool _ _); [|discriminate]. by intros [= ->].
Qed.

(** Without a fresh entry the analysis runs, on the object itself or on
    the object without the expired entry. *)
Lemma analyze_miss self (now : Q) (backend : Oracle.Backend) action :
  fresh_entry self (key action) now = None ->
  exists self0,
    Oracle.analyze key self now backend action
    = Oracle.analyze_uncached key self0 now backend action
    /\ Oracle.min_confidence self0 = Oracle.min_confidence self
    /\ Oracle.enable_caching self0 = Oracle.enable_caching self
    /\ Oracle.cache_ttl_seconds self0 = Oracle.cache_ttl_seconds self
    /\ Oracle.intent_history self0 = Oracle.intent_history self
    /\ (Oracle.enable_caching self = false -> self0 = self).
Proof.
  unfold fresh_entry, Oracle.analyze. cbv zeta.
  destruct (Oracle.enable_caching self) eqn:Ec.
  - destruct (Oracle.analysis_cache self !! key action) as [c|].
    + destruct (Qle_bool _ _); [discriminate|]. intros _.
      eexists. split; [reflexivity|]. cbn. rewrite Ec. repeat split; done.
    + intros _. exists self. rewrite Ec. repeat split; done.
  - intros _. exists self. rewrite Ec. repeat split; done.
Qed.

Lemma uncached_result self (now : Q) (backend : Oracle.Backend) action t :
  (Oracle.analyze_uncached key self now backend action).2 = Py.Ok (Some t) ->
  exists analyses,
    Oracle._aggregate_oracle_results self action analyses = Py.Ok (Some t)
    /\ (Oracle.analyze_uncached key self now backend action).1
       = if Oracle.enable_caching self
         then {| Oracle.min_confidence := Oracle.min_confidence self;
                 Oracle.enable_caching := Oracle.enable_caching self;
                 Oracle.cache_ttl_seconds := Oracle.cache_ttl_seconds self;
                 Oracle.analysis_cache :=
                   <[key action := {| Oracle.assessment := t; Oracle.created_at := now |}]>
                     (Oracle.analysis_cache self);
                 Oracle.intent_history :=
                   Oracle.intent_history self
                   ++ [{| Oracle.ih_action_id := action_id action;
                          Oracle.ih_agent_id := agent_id action;
                          Oracle.ih_timestamp := now;
                          Oracle.ih_analyses := analyses;
                          Oracle.final_threat := threat_level t |}] |}
         else self.
Proof.
  unfold Oracle.analyze_uncached.
  destruct (Oracle._analyze_intent action _) as [intent_result|e]; [|discriminate].
  cbv zeta.
  match goal with
  | |- context [Oracle._aggregate_oracle_results self action ?a] =>
      destruct (Oracle._aggregate_oracle_results self action a) as [[final|]|e] eqn:E;
      try discriminate
  end.
  destruct (Oracle.enable_caching self); cbn [fst snd]; intros [= <-];
    eexists; (split; [exact E|reflexivity]).
Qed.

Lemma aggregate_shape self action (analyses : Oracle.Analyses) t :
  Oracle._aggregate_oracle_results self action analyses = Py.Ok (Some t) ->
  ta_action_id t = action_id action /\ analysis_layer t = "oracle"
  /\ recommended_action t
     = Oracle._determine_enforcement self (threat_level t) (confidence t).
Proof.
  unfold Oracle._aggregate_oracle_results.
  destruct (Oracle.intent analyses) as [i|], (Oracle.alignment analyses) as [a|],
    (Oracle.deception analyses) as [d|]; try done;
    intros H;
    repeat match type of H with
      | (mbind _ ?r) = _ => destruct r; cbn [mbind result_bind Py.bind] in H
      | _ => discriminate
      end;
    cbn [mret result_ret] in H; injection H as <-; done.
Qed.

(** X22.  With caching on, an assessment that [analyze] has computed is
    served again, unchanged and without consulting the backend, to every
    action with the same cache key for as long as the entry is no older
    than the TTL; the object is not changed by such a call.  The served
    assessment keeps the [action_id] of the action it was computed for. *)
Theorem cache_round_trip self (now now' : Q) (backend backend' : Oracle.Backend)
    action action' (self' : Oracle.OracleAnalyzer) (t : ThreatAssessment) :
  Oracle.enable_caching self = true ->
  fresh_entry self (key action) now = None ->
  Oracle.analyze key self now backend action = (self', Py.Ok (Some t)) ->
  key action' = key action ->
  (now' - now <= Oracle.cache_ttl_seconds self)%Q ->
  Oracle.analyze key self' now' backend' action' = (self', Py.Ok (Some t)).
Proof.
  intros Hon Hmiss Hfirst Hkey Hage.
  destruct (analyze_miss self now backend action Hmiss)
    as (self0 & Heq & _ & Hc & Httl & _ & _).
  rewrite Heq in Hfirst.
  destruct (uncached_result self0 now backend action t) as (analyses & _ & Hstate);
    [by rewrite Hfirst|].
  rewrite Hfirst, Hc, Hon in Hstate. cbn [fst] in Hstate.
  apply (analyze_hit self' now' backend' action'
           {| Oracle.assessment := t; Oracle.created_at := now |}).
  unfold fresh_entry. rewrite Hstate. cbn. rewrite Hkey, lookup_insert_eq. cbn.
  rewrite Httl. apply Qle_bool_iff in Hage. by rewrite Hage.
Qed.

(** X23.  With caching off [analyze] leaves the object as it is:
    nothing is cached, and nothing is added to [intent_history]
    either. *)
Theorem caching_disabled_stateless self (now : Q) (backend : Oracle.Backend) action :
  Oracle.enable_caching self = false ->
  (Oracle.analyze key self now backend action).1 = self.
Proof.
  intros Hoff.
  destruct (analyze_miss self now backend action) as (self0 & -> & _ & _ & _ & _ & Hsame).
  { unfold fresh_entry. by rewrite Hoff. }
  rewrite (Hsame Hoff). unfold Oracle.analyze_uncached.
  destruct (Oracle._analyze_intent action _) as [intent_result|e]; [|reflexivity].
  cbv zeta. destruct (Oracle._aggregate_oracle_results _ _ _) as [[final|]|e];
    try reflexivity. by rewrite Hoff.
Qed.

(** X24.  With the backend out of reach for all three prompts and no
    fresh cache entry, nothing is analysed: whatever the action, a
    self-modification included, [analyze] returns [None] and the
    history stays as it is. *)
Theorem backend_unavailable self (now : Q) (backend : Oracle.Backend) action :
  fresh_entry self (key action) now = None ->
  Oracle.intent_reply backend = Oracle.Unavailable ->
  Oracle.alignment_reply backend = Oracle.Unavailable ->
  Oracle.deception_reply backend = Oracle.Unavailable ->
  (Oracle.analyze key self now backend action).2 = Py.Ok None
  /\ Oracle.intent_history (Oracle.analyze key self now backend action).1
     = Oracle.intent_history self.
Proof.
  intros Hmiss Hi Ha Hd.
  destruct (analyze_miss self now backend action Hmiss)
    as (self0 & -> & _ & _ & _ & Hhist & _).
  unfold Oracle.analyze_uncached. rewrite Hi, Ha, Hd. cbn. split; [reflexivity|exact Hhist].
Qed.

(** X25.  Below [min_confidence] the layer never enforces by itself:
    when the assessment it computes (rather than serves from its
    cache) carries a confidence below [min_confidence], the assessment
    is about the analysed action, names the layer, and recommends
    REQUIRE_APPROVAL from DANGEROUS upwards and LOG otherwise, so none
    of KILL, QUARANTINE, SANDBOX and ALLOW. *)
Theorem low_confidence_never_enforces self (now : Q) (backend : Oracle.Backend)
    action t :
  fresh_entry self (key action) now = None ->
  (Oracle.analyze key self now backend action).2 = Py.Ok (Some t) ->
  (confidence t < Oracle.min_confidence self)%Q ->
  issued_by "oracle" action t
  /\ recommended_action t
     = if level_value DANGEROUS <=? severity t then REQUIRE_APPROVAL else LOG.
Proof.
  intros Hmiss Hres Hlt.
  destruct (analyze_miss self now backend action Hmiss)
    as (self0 & Heq & Hmin & _ & _ & _ & _).
  rewrite Heq in Hres.
  destruct (uncached_result self0 now backend action t Hres) as (analyses & Hagg & _).
  destruct (aggregate_shape self0 action analyses t Hagg) as (Hid & Hlayer & Hrec).
  split; [split; assumption|]. rewrite Hrec.
  unfold Oracle._determine_enforcement, Py.Qgtb. rewrite Hmin.
  destruct (Qle_bool _ _) eqn:E; [|reflexivity].
  apply Qle_bool_iff in E. apply Qlt_not_le in Hlt. contradiction.
Qed.

(** X26.  A completion that is not JSON sends the intent analysis to
    the rule table.  There a self-modification is CRITICAL at confidence
    0.65, recommending KILL when [min_confidence] is at most 0.65; and a
    code execution whose [code] parameter is not a string makes
    [analyze] raise [AttributeError], the rule table running inside the
    exception handler. *)
Theorem malformed_intent_fallback self (now : Q) (backend : Oracle.Backend) action :
  fresh_entry self (key action) now = None ->
  Oracle.intent_reply backend = Oracle.Malformed ->
  no_result (Oracle.alignment_reply backend) ->
  no_result (Oracle.deception_reply backend) ->
  (action_type action = SELF_MODIFICATION ->
   exists t, (Oracle.analyze key self now backend action).2 = Py.Ok (Some t)
             /\ threat_level t = CRITICAL /\ confidence t = 0.65%Q
             /\ recommended_action t
                = if Qle_bool (Oracle.min_confidence self) 0.65 then KILL
                  else REQUIRE_APPROVAL)
  /\ (action_type action = CODE_EXECUTION ->
      (forall s : string, code_of action <> Py.JStr s) ->
      (Oracle.analyze key self now backend action).2 = Py.Raise Py.AttributeError).
Proof.
  intros Hmiss Hi Ha Hd.
  destruct (analyze_miss self now backend action Hmiss)
    as (self0 & -> & Hmin & _ & _ & _ & _).
  assert (Oracle._analyze_goal_alignment (Oracle.alignment_reply backend) ≫= Oracle.keep
          = None) as Ea by (destruct Ha as [-> | ->]; reflexivity).
  assert (Oracle._detect_deception (Oracle.deception_reply backend) ≫= Oracle.keep
          = None) as Ed by (destruct Hd as [-> | ->]; reflexivity).
  unfold Oracle.analyze_uncached. rewrite Hi, Ea, Ed.
  unfold Oracle._analyze_intent. cbn [Oracle.query_and_load].
  unfold Oracle._rule_based_intent_analysis.
  split.
  - intros Hty. rewrite Hty. cbn -[Qle_bool].
    unfold Oracle._determine_enforcement, Py.Qgtb. rewrite Hmin.
    destruct (Qle_bool (Oracle.min_confidence self) _) eqn:E.
    + destruct (Oracle.enable_caching self0); cbn; eexists; repeat split.
    + destruct (Oracle.enable_caching self0); cbn; eexists; repeat split.
  - intros Hty Hcode. rewrite Hty. unfold code_of in Hcode.
    destruct (Py.dict_get (parameters action) "code" (Py.JStr "")) as [| | |s| |];
      try reflexivity. destruct (Hcode s eq_refl).
Qed.

(** X27.  A level name other than the five upper-case names the code
    knows counts as SAFE.  When the intent completion is the only
    result, names such a level (lower-case "critical" is one) and
    reports a confidence between 0 and 1, the assessment is about the
    analysed action, SAFE, with the reported confidence, and recommends
    ALLOW or, below [min_confidence], LOG; whatever else the completion
    holds. *)
Theorem unknown_level_name_is_safe self (now : Q) (backend : Oracle.Backend) action
    (kv : list (string * Py.json)) (name : string) (conf : Q) :
  fresh_entry self (key action) now = None ->
  intent_alone backend kv name conf ->
  Oracle.threat_mapping name = None ->
  exists t,
    (Oracle.analyze key self now backend action).2 = Py.Ok (Some t)
    /\ issued_by "oracle" action t
    /\ threat_level t = SAFE /\ (confidence t == conf)%Q
    /\ recommended_action t
       = if Qle_bool (Oracle.min_confidence self) (confidence t) then ALLOW else LOG.
Proof.
  intros Hmiss (Hi & Hlevel & Hconf & _ & (flags & Hflags) & Ha & Hd) Hname.
  destruct (analyze_miss self now backend action Hmiss)
    as (self0 & -> & Hmin & _ & _ & _ & _).
  assert (Oracle._analyze_goal_alignment (Oracle.alignment_reply backend) ≫= Oracle.keep
          = None) as Ea by (destruct Ha as [-> | ->]; reflexivity).
  assert (Oracle._detect_deception (Oracle.deception_reply backend) ≫= Oracle.keep
          = None) as Ed by (destruct Hd as [-> | ->]; reflexivity).
  unfold Oracle.analyze_uncached. rewrite Hi, Ea, Ed.
  unfold Oracle._analyze_intent. cbn [Oracle.query_and_load].
  assert (Some (Py.JDict kv) ≫= Oracle.keep = Some (Py.JDict kv)) as ->
    by (destruct kv; [discriminate|reflexivity]).
  unfold Oracle._aggregate_oracle_results.
  cbn [Oracle.intent Oracle.alignment Oracle.deception Oracle.on_present].
  unfold Oracle.collect_intent. cbn [Py.get mbind result_bind Py.bind].
  rewrite Hflags. cbn [mbind result_bind Py.bind mret result_ret Oracle.threat_levels
                       Oracle.confidences Oracle.all_reasons app].
  assert (Py.dict_get kv "threat_level" (Py.JStr "SAFE") = Py.JStr name) as ->
    by (unfold Py.dict_get; rewrite Hlevel; reflexivity).
  assert (Py.dict_get kv "confidence" (Py.JNum 0.5) = Py.JNum conf) as ->
    by (unfold Py.dict_get; rewrite Hconf; reflexivity).
  unfold Oracle.max_threat_str, Oracle.level_key, Oracle.mapping_get.
  cbn -[Qle_bool Qdiv Py.sum Py.dict_get]. rewrite Hname.
  cbn -[Qle_bool Qdiv Py.sum Py.dict_get].
  unfold Oracle._determine_enforcement, Py.Qgtb. rewrite Hmin.
  destruct (Oracle.enable_caching self0); cbn [snd]; eexists;
    (split; [reflexivity|]); cbn [threat_level confidence recommended_action];
    (split; [split; reflexivity|]); (split; [reflexivity|]);
    (split; [unfold Py.sum; cbn [fold_left length Z.of_nat Pos.of_succ_nat]; field|]);
    destruct (Qle_bool _ _); reflexivity.
Qed.

End OracleExtras.

(** The oracle facts at the sample backends. *)
Lemma cache_round_trip_witness :
  let first := Oracle.analyze key_by_type fresh_oracle 0 overconfident
                 (sample_action "a1" "ag" API_CALL) in
  Oracle.analyze key_by_type first.1 10 reassuring (sample_action "a2" "ag" API_CALL)
  = (first.1, Py.Ok (Some overconfident_assessment)).
Proof.
  apply (cache_round_trip key_by_type fresh_oracle 0 10 overconfident reassuring
           (sample_action "a1" "ag" API_CALL) (sample_action "a2" "ag" API_CALL)).
  - reflexivity.
  - vm_compute. reflexivity.
  - vm_compute. reflexivity.
  - reflexivity.
  - vm_compute. discriminate.
Defined.

Lemma caching_disabled_stateless_witness :
  (Oracle.analyze key_by_type uncached_oracle 0 overconfident
     (sample_action "a1" "ag" API_CALL)).1 = uncached_oracle.
Proof.
  apply (caching_disabled_stateless key_by_type uncached_oracle 0 overconfident
           (sample_action "a1" "ag" API_CALL)).
  reflexivity.
Defined.

Lemma backend_unavailable_witness :
  (Oracle.analyze key_by_type fresh_oracle 0 (intent_only Oracle.Unavailable)
     (sample_action "a1" "ag" SELF_MODIFICATION)).2 = Py.Ok None
  /\ Oracle.intent_history
       (Oracle.analyze key_by_type fresh_oracle 0 (intent_only Oracle.Unavailable)
          (sample_action "a1" "ag" SELF_MODIFICATION)).1
     = Oracle.intent_history fresh_oracle.
Proof.
  apply (backend_unavailable key_by_type fresh_oracle 0 (intent_only Oracle.Unavailable)
           (sample_action "a1" "ag" SELF_MODIFICATION)); vm_compute; reflexivity.
Defined.

Lemma low_confidence_never_enforces_witness :
  issued_by "oracle" (sample_action "a1" "ag" API_CALL) doubtful_assessment
  /\ recommended_action doubtful_assessment = REQUIRE_APPROVAL.
Proof.
  apply (low_confidence_never_enforces key_by_type fresh_oracle 0
           (intent_only (intent_completion "CRITICAL" 0.3))
           (sample_action "a1" "ag" API_CALL) doubtful_assessment).
  - vm_compute. reflexivity.
  - vm_compute. reflexivity.
  - vm_compute. reflexivity.
Defined.

Lemma malformed_intent_fallback_witness :
  (action_type (sample_action "a1" "ag" SELF_MODIFICATION) = SELF_MODIFICATION ->
   exists t, (Oracle.analyze key_by_type fresh_oracle 0 (intent_only Oracle.Malformed)
                (sample_action "a1" "ag" SELF_MODIFICATION)).2 = Py.Ok (Some t)
             /\ threat_level t = CRITICAL /\ confidence t = 0.65%Q
             /\ recommended_action t
                = if Qle_bool (Oracle.min_confidence fresh_oracle) 0.65 then KILL
                  else REQUIRE_APPROVAL)
  /\ (action_type (sample_action "a1" "ag" SELF_MODIFICATION) = CODE_EXECUTION ->
      (forall s : string, code_of (sample_action "a1" "ag" SELF_MODIFICATION) <> Py.JStr s) ->
      (Oracle.analyze key_by_type fresh_oracle 0 (intent_only Oracle.Malformed)
         (sample_action "a1" "ag" SELF_MODIFICATION)).2 = Py.Raise Py.AttributeError).
Proof.
  apply (malformed_intent_fallback key_by_type fresh_oracle 0 (intent_only Oracle.Malformed)
           (sample_action "a1" "ag" SELF_MODIFICATION)).
  - vm_compute. reflexivity.
  - reflexivity.
  - left. reflexivity.
  - left. reflexivity.
Defined.

Lemma unknown_level_name_is_safe_witness :
  exists t,
    (Oracle.analyze key_by_type fresh_oracle 0 mislabelled (sample_action "a1" "ag" API_CALL)).2
    = Py.Ok (Some t)
    /\ issued_by "oracle" (sample_action "a1" "ag" API_CALL) t
    /\ threat_level t = SAFE /\ confidence t == 0.99
    /\ recommended_action t
       = if Qle_bool (Oracle.min_confidence fresh_oracle) (confidence t) then ALLOW else LOG.
Proof.
  apply (unknown_level_name_is_safe key_by_type fresh_oracle 0 mislabelled
           (sample_action "a1" "ag" API_CALL)
           [("intent", Py.JStr "wipe the disk"); ("threat_level", Py.JStr "critical");
            ("confidence", Py.JNum 0.99); ("red_flags", Py.JList [Py.JStr "rm -rf /"])]
           "critical" 0.99).
  - vm_compute. reflexivity.
  - split; [reflexivity|]. split; [reflexivity|]. split; [reflexivity|].
    split; [split; unfold Qle; cbn; lia|]. split; [eexists; reflexivity|].
    split; [right|left]; reflexivity.
  - reflexivity.
Defined.

(** * Further facts: the local guardian *)

Lemma cap_le_1 (x : Q) : (LocalAI.cap x <= 1)%Q.
Proof.
  unfold LocalAI.cap, Py.Qgtb. destruct (Qle_bool 1 x) eqn:E; cbn [negb].
  - apply Qle_refl.
  - apply Qlt_le_weak, Qnot_le_lt. intros H. apply Qle_bool_iff in H. congruence.
Qed.

Section LocalAIExtras.
Variable repr_parameters : list (string * Py.json) -> string.
Variable z_distance : list (list Q) -> list Q -> Q.
Variable np_divide : Q -> Q -> Q.
Implicit Types (self : LocalAI.LocalAIGuardian) (action : AIAction).

(** X28.  An assessment of the local guardian comes only once the
    agent's memory holds [min_samples] vectors; it is about the analysed
    action and names the layer; its confidence lies between the alert
    threshold and 1; its level is never SAFE and its recommendation is
    one of KILL, QUARANTINE, SANDBOX and REQUIRE_APPROVAL. *)
Theorem local_ai_assessment_shape self action t :
  (LocalAI.analyze repr_parameters z_distance np_divide self action).2 = Some t ->
  (samples_required self <= length (stored_vectors self (agent_id action)))%nat
  /\ issued_by "local_ai" action t
  /\ (alert_level self <= confidence t <= 1)%Q
  /\ threat_level t <> SAFE
  /\ recommended_action t ∈ [KILL; QUARANTINE; SANDBOX; REQUIRE_APPROVAL].
Proof.
  unfold LocalAI.analyze. cbv zeta.
  fold (stored_vectors self (agent_id action)) (samples_required self) (alert_level self).
  destruct (Nat.ltb_spec (length (stored_vectors self (agent_id action)))
                         (samples_required self)); [discriminate|].
  match goal with
  | |- context [LocalAI.cap ?x] => pose proof (cap_le_1 x) as Hcap; set (score := LocalAI.cap x) in *
  end.
  destruct (Py.Qgtb (alert_level self) score) eqn:G; [discriminate|].
  cbn [snd]. intros [= <-]. cbn [ta_action_id analysis_layer confidence threat_level
                                 recommended_action].
  split; [assumption|]. split; [done|]. split; [split; [|exact Hcap]|].
  - unfold Py.Qgtb in G. apply negb_false_iff in G. apply Qle_bool_iff. exact G.
  - unfold LocalAI._score_to_threat.
    destruct (Py.Qgeb score 0.9), (Py.Qgeb score 0.78), (Py.Qgeb score 0.66);
      cbn; (split; [discriminate|]); set_solver.
Qed.

Lemma analyze_memory self action :
  (LocalAI.analyze repr_parameters z_distance np_divide self action).1 = LocalAI.remember self (agent_id action)
                              (LocalAI._vectorize_action repr_parameters action).
Proof.
  unfold LocalAI.analyze. cbv zeta.
  destruct (_ <? _)%nat; [reflexivity|]. destruct (Py.Qgtb _ _); reflexivity.
Qed.

Lemma run_snoc_local self trace action :
  LocalAI.run repr_parameters z_distance np_divide self (trace ++ [action]) = (LocalAI.analyze repr_parameters z_distance np_divide (LocalAI.run repr_parameters z_distance np_divide self trace) action).1.
Proof. unfold LocalAI.run. by rewrite fold_left_app. Qed.

Lemma run_local_config self trace : LocalAI.config (LocalAI.run repr_parameters z_distance np_divide self trace) = LocalAI.config self.
Proof.
  induction trace as [|a trace IH] using rev_ind; [reflexivity|].
  rewrite run_snoc_local, analyze_memory. exact IH.
Qed.

(** The memory of an agent never outgrows [memory_size]. *)
Lemma memory_bounded (cfg : LocalAI.Config) trace (agent : string) :
  (length (stored_vectors (LocalAI.run repr_parameters z_distance np_divide (LocalAI.init cfg) trace) agent)
   <= memory_capacity (LocalAI.init cfg))%nat.
Proof.
  induction trace as [|a trace IH] using rev_ind.
  - unfold stored_vectors. cbn. rewrite lookup_empty. cbn. lia.
  - rewrite run_snoc_local, analyze_memory. unfold stored_vectors, LocalAI.remember.
    cbn [LocalAI.memory]. destruct (decide (agent_id a = agent)) as [->|Hne].
    + rewrite lookup_insert_eq. cbn [default].
      etrans; [apply deque_append_length|]. rewrite run_local_config. reflexivity.
    + rewrite lookup_insert_ne by exact Hne. exact IH.
Qed.

Lemma few_samples_silent self action :
  (length (stored_vectors self (agent_id action)) < samples_required self)%nat ->
  (LocalAI.analyze repr_parameters z_distance np_divide self action).2 = None.
Proof.
  intros Hfew. unfold LocalAI.analyze. cbv zeta.
  fold (stored_vectors self (agent_id action)) (samples_required self).
  destruct (Nat.ltb_spec (length (stored_vectors self (agent_id action)))
                         (samples_required self)); [reflexivity|lia].
Qed.

(** X29.  A [memory_size] below [min_samples] silences the guardian:
    the memory of an agent never reaches the number of samples the
    layer waits for, and no action, after any sequence of earlier
    actions, gets an assessment. *)
Theorem undersized_memory_never_alerts (cfg : LocalAI.Config) trace action :
  (memory_capacity (LocalAI.init cfg) < samples_required (LocalAI.init cfg))%nat ->
  (LocalAI.analyze repr_parameters z_distance np_divide
     (LocalAI.run repr_parameters z_distance np_divide (LocalAI.init cfg) trace) action).2
  = None.
Proof.
  intros Hsmall. apply few_samples_silent.
  pose proof (memory_bounded cfg trace (agent_id action)) as Hlen.
  unfold samples_required in *. rewrite run_local_config. lia.
Qed.

End LocalAIExtras.

(** The guardian at a far-off vector, and with a memory of five. *)
Lemma local_ai_assessment_shape_witness :
  exists t,
    (LocalAI.analyze no_repr far Qdiv eager_guardian (sample_action "a1" "ag" API_CALL)).2
    = Some t
    /\ (samples_required eager_guardian
        <= length (stored_vectors eager_guardian
                     (agent_id (sample_action "a1" "ag" API_CALL))))%nat
    /\ issued_by "local_ai" (sample_action "a1" "ag" API_CALL) t
    /\ (alert_level eager_guardian <= confidence t <= 1)%Q
    /\ threat_level t <> SAFE
    /\ recommended_action t ∈ [KILL; QUARANTINE; SANDBOX; REQUIRE_APPROVAL].
Proof.
  eexists. split; [vm_compute; reflexivity|].
  apply (local_ai_assessment_shape no_repr far Qdiv eager_guardian
           (sample_action "a1" "ag" API_CALL)).
  vm_compute. reflexivity.
Defined.

Lemma undersized_memory_never_alerts_witness :
  (LocalAI.analyze no_repr far Qdiv
     (LocalAI.run no_repr far Qdiv (LocalAI.init small_memory)
        [sample_action "a1" "ag" API_CALL; sample_action "a2" "ag" API_CALL])
     (sample_action "a3" "ag" SELF_MODIFICATION)).2 = None.
Proof.
  apply (undersized_memory_never_alerts no_repr far Qdiv small_memory).
  cbv. lia.
Defined.
